(** * SupervisedLearning: the base class of the surrogate models (ROMs)

    A shallow embedding of [framework/SupervisedLearning/SupervisedLearning.py]:
    the array validator [checkArrayConsistency], the configuration paths
    [_handleInput] and [initializeFromDict], and the three data paths [train],
    [evaluate] and [confidence], with the fragment of numpy they rely on.

    Conventions of the embedding.
    - Array entries live in an abstract type [num] with the two operations the
      class applies to them (subtraction and division, both total as they are
      for every numeric dtype) and the fill value of [np.zeros].
    - An [ndarray] is a shape together with its entries in C order.
    - A Python exception is a value of [exn]; a computation that may raise
      returns an [outcome]; a method is a function from the instance state to
      the new state and an outcome, so that what a method wrote to [self]
      before it raised is kept.
    - The abstract hooks ([_train], [__evaluateLocal__], [__confidenceLocal__],
      [__resetLocal__]) are the fields of the class [Backend]; the helpers of
      other modules ([mathUtils.normalizationFactors], the RFE selector) are
      parameters as well. *)

From stdpp Require Import gmap strings list pretty.

#[local] Set Warnings "-register-all".

(** ** Exceptions and outcomes *)

Inductive exn : Type :=
| TypeError (msg : string)
| IOError (msg : string)
| ValueError (msg : string)
| IndexError (msg : string)
| AttributeError (msg : string)
| KeyError (msg : string).

Inductive outcome (A : Type) : Type :=
| Returns (a : A)
| Raises (e : exn).
Arguments Returns {A} a.
Arguments Raises {A} e.

Definition obind {A B : Type} (c : outcome A) (k : A → outcome B) : outcome B :=
  match c with
  | Returns a => k a
  | Raises e => Raises e
  end.

Definition raised {A : Type} (c : outcome A) : bool :=
  match c with
  | Returns _ => false
  | Raises _ => true
  end.

Declare Scope outcome_scope.
Delimit Scope outcome_scope with outcome.
Notation "'try' x ':=' c 'in' k" := (obind c (λ x, k))
  (at level 10, x pattern, c at level 100, k at level 200) : outcome_scope.

(** The entries of arrays: the operations the class uses on them. *)
Class Numeric (num : Type) : Type := {
  nzero : num;                 (* 0.0, the fill of np.zeros *)
  nobject : num;               (* an entry that is no number (dtype=object) *)
  nsub : num → num → num;      (* x - center *)
  ndiv : num → num → num;      (* ... / scale; x/0 is inf or nan, no raise *)
}.

(** ** Arrays and the Python values a data set can bind *)

Section Arrays.
Context {num : Type} `{!Numeric num}.
Local Open Scope outcome_scope.

(** [numpy.ndarray]: [shape] as the tuple [a.shape], [data] in C order. *)
Record ndarray : Type := mkArr { shape : list nat; data : list num }.

(** The values found in a training or evaluation dictionary.
    [PyObj tyname view] is an object of any type other than NoneType, list
    and numpy.ndarray: [tyname] is [type(v).__name__] and [view] is the
    array numpy sees through it ([np.asarray(v)]); item and attribute
    access on such an object go through that view. *)
Inductive pyval : Type :=
| PyNone
| PyList (items : list pyval)
| PyArray (a : ndarray)
| PyObj (tyname : string) (view : ndarray).

Definition prodn (s : list nat) : nat := foldr Nat.mul 1 s.

(** [a.size] and [a.ndim]. *)
Definition asize (a : ndarray) : nat := prodn (shape a).
Definition ndim (a : ndarray) : nat := length (shape a).

(** [np.zeros(shape=s)]. *)
Definition np_zeros (s : list nat) : ndarray :=
  mkArr s (replicate (prodn s) nzero).

(** [n] consecutive blocks of [k] entries. *)
Fixpoint chunks {A : Type} (k n : nat) (d : list A) : list (list A) :=
  match n with
  | 0 => []
  | S n' => take k d :: chunks k n' (drop k d)
  end.

(** [str(t)] for a tuple of integers [t]. *)
Definition str_tuple (s : list nat) : string :=
  match s with
  | [] => "()"
  | [n] => "(" +:+ pretty n +:+ ",)"
  | n :: s' => "(" +:+ pretty n +:+ foldr (λ m acc, ", " +:+ pretty m +:+ acc) ")" s'
  end.

(** Rows of equal shape put under a new leading axis, as [np.asarray] does
    with a list. Rows of differing shapes are the inhomogeneous case, which
    numpy refuses with a ValueError (the message is shortened here); the numpy
    releases that still built an array of objects from such a list fail a few
    lines later in [train], at the slice [valueToUse[:, :]]. *)
Definition pack (rows : list ndarray) : outcome ndarray :=
  match rows with
  | [] => Returns (mkArr [0] [])
  | r :: _ =>
      if forallb (λ r', bool_decide (shape r' = shape r)) rows
      then Returns (mkArr (length rows :: shape r) (concat (data <$> rows)))
      else Raises (ValueError
        "setting an array element with a sequence. The requested array has an inhomogeneous shape")
  end.

(** [[f(x) for x in l]], stopping at the first raise. *)
Fixpoint for_each {A C : Type} (f : A → outcome C) (l : list A)
  : outcome (list C) :=
  match l with
  | [] => Returns []
  | x :: l' =>
      try y := f x in
      try rest := for_each f l' in
      Returns (y :: rest)
  end.

(** [np.asarray(v)]. *)
Fixpoint np_asarray (v : pyval) : outcome ndarray :=
  match v with
  | PyNone => Returns (mkArr [] [nobject])
  | PyArray a => Returns a
  | PyObj _ a => Returns a
  | PyList items =>
      try rows := for_each np_asarray items in
      pack rows
  end.

(** [len(a)]. *)
Definition np_len (a : ndarray) : outcome nat :=
  match shape a with
  | [] => Raises (TypeError "len() of unsized object")
  | n :: _ => Returns n
  end.

(** [np.stack(arrays, axis=-1)] on values already converted to arrays. *)
Definition np_stack_last (arrays : list ndarray) : outcome ndarray :=
  match arrays with
  | [] => Raises (ValueError "need at least one array to stack")
  | a :: _ =>
      if forallb (λ a', bool_decide (shape a' = shape a)) arrays
      then Returns (mkArr (shape a ++ [length arrays])
             (flat_map (λ r, (λ a', default nzero (data a' !! r)) <$> arrays)
                       (seq 0 (asize a))))
      else Raises (ValueError "all input arrays must have the same shape")
  end.

(** [np.stack(values, axis=-1)]: every value is first converted. *)
Definition np_stack (values : list pyval) : outcome ndarray :=
  try arrays := for_each np_asarray values in
  np_stack_last arrays.

(** [type(v).__name__]. *)
Definition type_name (v : pyval) : string :=
  match v with
  | PyNone => "NoneType"
  | PyList _ => "list"
  | PyArray _ => "ndarray"
  | PyObj t _ => t
  end.

(** [v.size]. *)
Definition py_size (v : pyval) : outcome nat :=
  match v with
  | PyArray a | PyObj _ a => Returns (asize a)
  | _ => Raises (AttributeError
           ("'" +:+ type_name v +:+ "' object has no attribute 'size'"))
  end.

(** [v.shape[-1]]. *)
Definition py_shape_last (v : pyval) : outcome nat :=
  match v with
  | PyArray a | PyObj _ a =>
      match last (shape a) with
      | Some n => Returns n
      | None => Raises (IndexError "tuple index out of range")
      end
  | _ => Raises (AttributeError
           ("'" +:+ type_name v +:+ "' object has no attribute 'shape'"))
  end.

(** [a[0]] for an array. *)
Definition arr_item0 (a : ndarray) : outcome ndarray :=
  match shape a with
  | [] => Raises (IndexError "too many indices for array")
  | 0 :: _ => Raises (IndexError "index 0 is out of bounds for axis 0 with size 0")
  | S _ :: rest => Returns (mkArr rest (take (prodn rest) (data a)))
  end.

(** [v[0]]. *)
Definition py_item0 (v : pyval) : outcome pyval :=
  match v with
  | PyNone => Raises (TypeError "'NoneType' object is not subscriptable")
  | PyList [] => Raises (IndexError "list index out of range")
  | PyList (x :: _) => Returns x
  | PyArray a | PyObj _ a => try r := arr_item0 a in Returns (PyArray r)
  end.

(** [a[:, :]]. *)
Definition slice_all2 (a : ndarray) : outcome ndarray :=
  if decide (ndim a < 2)
  then Raises (IndexError "too many indices for array")
  else Returns a.

(** [a[:]]. *)
Definition slice_all1 (a : ndarray) : outcome ndarray :=
  if decide (ndim a < 1)
  then Raises (IndexError "too many indices for array")
  else Returns a.

(** [a[:, 0]]. *)
Definition slice_col0 (a : ndarray) : outcome ndarray :=
  match shape a with
  | n :: m :: rest =>
      if decide (m = 0)
      then Raises (IndexError "index 0 is out of bounds for axis 1 with size 0")
      else Returns (mkArr (n :: rest)
             (concat (take (prodn rest) <$> chunks (m * prodn rest) n (data a))))
  | _ => Raises (IndexError "too many indices for array")
  end.

(** [(a - center) / scale], entry by entry. *)
Definition normalized (a : ndarray) (center scale : num) : ndarray :=
  mkArr (shape a) ((λ x, ndiv (nsub x center) scale) <$> data a).

(** [v - center] then [/ scale] for a value of a dictionary: a Python list
    has no subtraction. *)
Definition py_normalized (v : pyval) (center scale : num) : outcome ndarray :=
  match v with
  | PyArray a | PyObj _ a => Returns (normalized a center scale)
  | _ => Raises (TypeError
           ("unsupported operand type(s) for -: '" +:+ type_name v +:+ "' and 'float'"))
  end.

(** Broadcasting the entries [d] of an array of shape [s] to shape [t], both
    of the same length. *)
Fixpoint broadcast (s t : list nat) (d : list num) : option (list num) :=
  match s, t with
  | [], [] => Some d
  | ds :: s', dt :: t' =>
      if decide (ds = dt)
      then (λ rows, concat rows) <$> mapM (broadcast s' t') (chunks (prodn s') ds d)
      else if decide (ds = 1)
      then (λ r, concat (replicate dt r)) <$> broadcast s' t' d
      else None
  | _, _ => None
  end.

(** Leading axes of length one are dropped from the source of an assignment
    while it has more axes than the destination. *)
Fixpoint strip_ones (k : nat) (s : list nat) : list nat :=
  match k, s with
  | S k', 1 :: s' => strip_ones k' s'
  | _, _ => s
  end.

Definition broadcast_to (src : ndarray) (t : list nat) : outcome (list num) :=
  let s := strip_ones (ndim src - length t) (shape src) in
  let s := replicate (length t - length s) 1 ++ s in
  match broadcast s t (data src) with
  | Some d => Returns d
  | None => Raises (ValueError "could not broadcast input array")
  end.

(** Entry [cnt] of each block of width [w] of [d] replaced by the next entry
    of [src]. *)
Fixpoint set_column (w cnt : nat) (d src : list num) : list num :=
  match src with
  | [] => d
  | x :: src' => <[cnt := x]> (take w d) ++ set_column w cnt (drop w d) src'
  end.

(** [fv[:, cnt] = src] on a matrix and [fv[:, :, cnt] = src] on a cube:
    full slices on every axis but the last, index [cnt] on the last. *)
Definition setitem_last (fv : ndarray) (cnt : nat) (src : ndarray)
  : outcome ndarray :=
  match last (shape fv) with
  | None => Raises (IndexError "too many indices for array")
  | Some w =>
      if decide (w ≤ cnt)
      then Raises (IndexError ("index " +:+ pretty cnt +:+ " is out of bounds"))
      else
        try d := broadcast_to src (removelast (shape fv)) in
        Returns (mkArr (shape fv) (set_column w cnt (data fv) d))
  end.

Fixpoint keep_mask {A : Type} (mask : list bool) (row : list A) : list A :=
  match mask, row with
  | b :: mask', x :: row' => if b then x :: keep_mask mask' row' else keep_mask mask' row'
  | _, _ => []
  end.

(** [fv[:, support]] on a matrix and [fv[:, :, support]] on a cube, for a
    boolean mask [support] over one axis. *)
Definition mask_axis (axis : nat) (fv : ndarray) (support : list bool)
  : outcome ndarray :=
  match shape fv !! axis with
  | None => Raises (IndexError "too many indices for array")
  | Some w =>
      if decide (length support = w) then
        let inner := prodn (drop (S axis) (shape fv)) in
        let outer := prodn (take axis (shape fv)) in
        let kept := length (filter (λ b, b = true) support) in
        Returns (mkArr (take axis (shape fv) ++ kept :: drop (S axis) (shape fv))
          (concat ((λ block, concat (keep_mask support (chunks inner w block)))
                     <$> chunks (w * inner) outer (data fv))))
      else Raises (IndexError "boolean index did not match indexed array")
  end.

(** ** The array validator (lines 102-126) *)

(** The loop over [enumerate(arrayIn)] (lines 115-118), from index [cnt]. *)
Fixpoint check_elements (check : pyval → bool * string) (cnt : nat)
    (l : list pyval) : bool * string :=
  match l with
  | [] => (true, EmptyString)
  | elementArray :: l' =>
      let resp := check elementArray in
      if negb resp.1
      then (false, " The element number " +:+ pretty cnt
                   +:+ " is not a consistent array. Error: " +:+ resp.2)
      else check_elements check (S cnt) l'
  end.

Fixpoint checkArrayConsistency (arrayIn : pyval) (isDynamic : bool)
  : bool * string :=
  match arrayIn with
  | PyNone => (false, " The object is None, and contains no entries!")
  | PyList items =>
      if isDynamic
      then check_elements (λ e, checkArrayConsistency e false) 0 items
      else (false, " The list type is allowed for dynamic ROMs only")
  | PyArray a | PyObj _ a =>
      (* a is np.asarray(arrayIn) *)
      if bool_decide (type_name arrayIn ∈ ["ndarray"; "c1darray"]) then
        if decide (1 < length (shape a))
        then (false, " The array must be 1-d. Got shape: " +:+ str_tuple (shape a))
        else (true, EmptyString)
      else (false, " The object is not a numpy array. Got type: " +:+ type_name arrayIn)
  end.

End Arrays.

Arguments ndarray : clear implicits.
Arguments pyval : clear implicits.

(** ** Dictionaries handed to the data paths *)

(** A Python [dict] keyed by variable names, in insertion order; the keys of a
    dict are pairwise distinct ([dict_wf]). *)
Definition pydict (num : Type) : Type := list (string * pyval num).

Definition dict_wf {num : Type} (d : pydict num) : Prop := NoDup d.*1.

(** The argument of [train], [evaluate] and [confidence]: a [dict], or an
    object of another type, of which the methods only print [str(type(v))]. *)
Inductive pyinput (num : Type) : Type :=
| Mapping (d : pydict num)
| NotMapping (type_repr : string).
Arguments Mapping {num} d.
Arguments NotMapping {num} type_repr.

(** ** Collaborators that live in other modules *)

(** [utils.mathUtils.normalizationFactors(values)]: the (center, scale) pair
    of a raw column. *)
Class MathUtils (num : Type) : Type := {
  normalizationFactors : pyval num → outcome (num * num);
}.

(** Modelled from the spec: the feature selector [FeatureSelection.RFE], by
    its call contract "select(featureMatrix, targetMatrix, nFeaturesToSelect,
    step) -> (reducedFeatureNames, keepMask)". *)
Class FeatureSelection (num : Type) : Type := {
  RFE_train : option Z → num → ndarray num → ndarray num
              → outcome (list string * list bool);
}.

(** The abstract methods of the class: a backend with private state [B]. *)
Class Backend (num B : Type) : Type := {
  _train : B → ndarray num → ndarray num → B * outcome unit;
  __evaluateLocal__ : B → ndarray num → B * outcome (pyval num);
  __confidenceLocal__ : B → ndarray num → B * outcome (pyval num);
  __resetLocal__ : B → B * outcome unit;
}.

(** The calls made to the hooks, in order (a ghost record of the run). *)
Inductive hook_call (num : Type) : Type :=
| CalledTrain (featureVals targetVals : ndarray num)
| CalledEvaluate (featureVals : ndarray num)
| CalledConfidence (featureVals : ndarray num)
| CalledReset.
Arguments CalledTrain {num} featureVals targetVals.
Arguments CalledEvaluate {num} featureVals.
Arguments CalledConfidence {num} featureVals.
Arguments CalledReset {num}.

(** The already parsed input of [_handleInput]: the values that
    [findNodesAndExtractValues] returns for the seven nodes. *)
Record paramNodes (num : Type) : Type := mkNodes {
  nodeFeatures : list string;
  nodeTarget : list string;
  nodePivotParameter : string;
  nodeFeatureSelectionAlgorithm : option string;
  nodePerformPCA : bool;
  nodeStep : num;
  nodeNFeaturesToSelect : option Z;
}.
Arguments mkNodes {num}.
Arguments nodeFeatures {num}.
Arguments nodeTarget {num}.
Arguments nodePivotParameter {num}.
Arguments nodeFeatureSelectionAlgorithm {num}.
Arguments nodePerformPCA {num}.
Arguments nodeStep {num}.
Arguments nodeNFeaturesToSelect {num}.

(** The dictionary of [initializeFromDict]: each key present or not. *)
Record initDict : Type := mkInitDict {
  dictFeatures : option (list string);
  dictTarget : option (list string);
  dictFeatureSelectionAlgorithm : option string;
  dictPerformPCA : option bool;
  dictVerbosity : option string;
}.

(** ** The instance *)

Section Facade.
Context {num B : Type}.
Context `{!Numeric num, !MathUtils num, !FeatureSelection num, !Backend num B}.
Local Open Scope outcome_scope.

(** The attributes of an instance. An attribute that [__init__] does not
    assign ([pivotID], [step], [nFeaturesToSelect], [verbosity]) is [None]
    until a method assigns it; [features] and [target] are [None] as Python's
    [None] is. [backend] is whatever the subclass keeps; [hookCalls] is the
    ghost record of hook invocations. *)
Record SupervisedLearning : Type := mkSL {
  features : option (list string);
  target : option (list string);
  amITrained : bool;
  _dynamicHandling : bool;
  dynamicFeatures : bool;
  featureSelectionAlgo : option string;
  performPCA : bool;
  muAndSigmaFeatures : gmap string (num * num);
  pivotID : option string;
  step : option num;
  nFeaturesToSelect : option (option Z);
  verbosity : option string;
  backend : B;
  hookCalls : list (hook_call num);
}.

(** [__init__] (lines 128-149), for the state [b] the subclass starts with. *)
Definition init (b : B) : SupervisedLearning :=
  {| features := None; target := None; amITrained := false;
     _dynamicHandling := false; dynamicFeatures := false;
     featureSelectionAlgo := None; performPCA := false;
     muAndSigmaFeatures := ∅; pivotID := None; step := None;
     nFeaturesToSelect := None; verbosity := None;
     backend := b; hookCalls := [] |}.

Definition set_amITrained (v : bool) (self : SupervisedLearning) : SupervisedLearning :=
  {| features := features self; target := target self; amITrained := v;
     _dynamicHandling := _dynamicHandling self;
     dynamicFeatures := dynamicFeatures self;
     featureSelectionAlgo := featureSelectionAlgo self;
     performPCA := performPCA self;
     muAndSigmaFeatures := muAndSigmaFeatures self;
     pivotID := pivotID self; step := step self;
     nFeaturesToSelect := nFeaturesToSelect self; verbosity := verbosity self;
     backend := backend self; hookCalls := hookCalls self |}.

Definition set_muAndSigmaFeatures (v : gmap string (num * num))
    (self : SupervisedLearning) : SupervisedLearning :=
  {| features := features self; target := target self;
     amITrained := amITrained self;
     _dynamicHandling := _dynamicHandling self;
     dynamicFeatures := dynamicFeatures self;
     featureSelectionAlgo := featureSelectionAlgo self;
     performPCA := performPCA self;
     muAndSigmaFeatures := v;
     pivotID := pivotID self; step := step self;
     nFeaturesToSelect := nFeaturesToSelect self; verbosity := verbosity self;
     backend := backend self; hookCalls := hookCalls self |}.

(** The backend state after a hook ran, with the call recorded. *)
Definition set_backend (b : B) (call : hook_call num)
    (self : SupervisedLearning) : SupervisedLearning :=
  {| features := features self; target := target self;
     amITrained := amITrained self;
     _dynamicHandling := _dynamicHandling self;
     dynamicFeatures := dynamicFeatures self;
     featureSelectionAlgo := featureSelectionAlgo self;
     performPCA := performPCA self;
     muAndSigmaFeatures := muAndSigmaFeatures self;
     pivotID := pivotID self; step := step self;
     nFeaturesToSelect := nFeaturesToSelect self; verbosity := verbosity self;
     backend := b; hookCalls := hookCalls self ++ [call] |}.

(** *** Methods: state in, state and outcome out *)

Definition method (A : Type) : Type :=
  SupervisedLearning → SupervisedLearning * outcome A.

Definition mreturn {A : Type} (a : A) : method A := λ self, (self, Returns a).

Definition mdo {A C : Type} (c : method A) (k : A → method C) : method C :=
  λ self,
    match c self with
    | (self', Returns a) => k a self'
    | (self', Raises e) => (self', Raises e)
    end.

(** A computation that does not touch [self]. *)
Definition pure {A : Type} (c : outcome A) : method A := λ self, (self, c).

(** Reading an attribute. *)
Definition attr {A : Type} (f : SupervisedLearning → A) : method A :=
  λ self, (self, Returns (f self)).

(** [self.raiseAnError(etype, msg)], inherited from the message user: raises
    [etype] with the message ([raiseAWarning] only prints and is left out). *)
Definition raiseAnError {A : Type} (etype : string → exn) (msg : string)
  : method A :=
  λ self, (self, Raises (etype msg)).

(** Calling a hook: the backend state is replaced and the call recorded. *)
Definition call_hook {A : Type} (hook : B → B * outcome A)
    (call : hook_call num) : method A :=
  λ self, let '(b, r) := hook (backend self) in (set_backend b call self, r).

#[local] Notation "'run' x ':=' c 'in' k" := (mdo c (λ x, k))
  (at level 10, x pattern, c at level 100, k at level 200).

(** The double quote of the messages. *)
Definition dq : string := String (Ascii.ascii_of_nat 34) EmptyString.

(** [names.index(x)]. *)
Fixpoint index_of (x : string) (names : list string) : option nat :=
  match names with
  | [] => None
  | y :: names' => if decide (x = y) then Some 0 else S <$> index_of x names'
  end.

(** [values[names.index(x)]]. *)
Definition value_at (names : list string) (values : list (pyval num))
    (x : string) : outcome (pyval num) :=
  match index_of x names with
  | None => Raises (ValueError ("'" +:+ x +:+ "' is not in list"))
  | Some i =>
      match values !! i with
      | Some v => Returns v
      | None => Raises (IndexError "list index out of range")
      end
  end.

(** [for x in seq] when [seq] may be [None]. *)
Definition iterable {A : Type} (seq : option (list A)) : outcome (list A) :=
  match seq with
  | Some l => Returns l
  | None => Raises (TypeError "'NoneType' object is not iterable")
  end.

(** [len(seq)] when [seq] may be [None]. *)
Definition py_len {A : Type} (seq : option (list A)) : outcome nat :=
  match seq with
  | Some l => Returns (length l)
  | None => Raises (TypeError "object of type 'NoneType' has no len()")
  end.

(** [self.muAndSigmaFeatures[feat]]. *)
Definition mu_sigma (feat : string) : method (num * num) :=
  λ self,
    match muAndSigmaFeatures self !! feat with
    | Some p => (self, Returns p)
    | None => (self, Raises (KeyError feat))
    end.

(** [isDynamic] (lines 449-456). *)
Definition isDynamic : method bool := attr _dynamicHandling.

(** [_localNormalizeData] (lines 300-309). *)
Definition _localNormalizeData (values : list (pyval num))
    (names : list string) (feat : string) : method unit :=
  run v := pure (value_at names values feat) in
  run p := pure (normalizationFactors v) in
  λ self,
    (set_muAndSigmaFeatures (<[feat := p]> (muAndSigmaFeatures self)) self,
     Returns ()).

(** Reading an attribute that only [_handleInput] assigns. *)
Definition assigned {A : Type} (f : SupervisedLearning → option A)
    (name : string) : method A :=
  λ self,
    match f self with
    | Some v => (self, Returns v)
    | None => (self, Raises (AttributeError
        ("'SupervisedLearning' object has no attribute '" +:+ name +:+ "'")))
    end.

(** [sep.join(l)]. *)
Fixpoint join (sep : string) (l : list string) : string :=
  match l with
  | [] => EmptyString
  | [x] => x
  | x :: l' => x +:+ sep +:+ join sep l'
  end.

(** *** Configuration *)

(** [_handleInput] (lines 151-169), after the call to the base class. The
    attributes are assigned before the duplicate check. [dups] is a Python set,
    whose printing order is not fixed; the names are listed here in the order
    of [Target]. *)
Definition _handleInput (paramInput : paramNodes num) : method unit :=
  λ self,
    let self' :=
      {| features := Some (nodeFeatures paramInput);
         target := Some (nodeTarget paramInput);
         amITrained := amITrained self;
         _dynamicHandling := _dynamicHandling self;
         dynamicFeatures := dynamicFeatures self;
         featureSelectionAlgo := nodeFeatureSelectionAlgorithm paramInput;
         performPCA := nodePerformPCA paramInput;
         muAndSigmaFeatures := muAndSigmaFeatures self;
         pivotID := Some (nodePivotParameter paramInput);
         step := Some (nodeStep paramInput);
         nFeaturesToSelect := Some (nodeNFeaturesToSelect paramInput);
         verbosity := verbosity self;
         backend := backend self; hookCalls := hookCalls self |} in
    let dups := filter (λ t, t ∈ nodeFeatures paramInput)
                       (remove_dups (nodeTarget paramInput)) in
    if decide (length dups ≠ 0)
    then raiseAnError IOError
           ("The target(s) " +:+ dq +:+ join ", " dups +:+ dq
            +:+ " is/are also among the given features!") self'
    else (self', Returns ()).

(** [initializeFromDict] (lines 172-182). *)
Definition initializeFromDict (inputDict : initDict) : method unit :=
  λ self,
    ({| features := dictFeatures inputDict;
        target := dictTarget inputDict;
        amITrained := amITrained self;
        _dynamicHandling := _dynamicHandling self;
        dynamicFeatures := dynamicFeatures self;
        featureSelectionAlgo := dictFeatureSelectionAlgorithm inputDict;
        performPCA := default false (dictPerformPCA inputDict);
        muAndSigmaFeatures := muAndSigmaFeatures self;
        pivotID := pivotID self; step := step self;
        nFeaturesToSelect := nFeaturesToSelect self;
        verbosity := dictVerbosity inputDict;
        backend := backend self; hookCalls := hookCalls self |},
     Returns ()).

(** *** train (lines 232-298) *)

(** The loop over [self.target] (lines 247-251). *)
Fixpoint train_targets (names : list string) (values : list (pyval num))
    (targets : list string) : method (list (pyval num)) :=
  match targets with
  | [] => mreturn []
  | target :: rest =>
      if decide (target ∈ names) then
        run v := pure (value_at names values target) in
        run vs := train_targets names values rest in
        mreturn (v :: vs)
      else raiseAnError IOError
             ("The target " +:+ target +:+ " is not in the training set")
  end.

(** The loop that sizes the time axis (lines 265-267). *)
Fixpoint train_featLen (names : list string) (values : list (pyval num))
    (feats : list string) (featLen : nat) : outcome nat :=
  match feats with
  | [] => Returns featLen
  | feat :: rest =>
      try v := value_at names values feat in
      try first := py_item0 v in
      try n := py_size first in
      train_featLen names values rest (Nat.max n featLen)
  end.

(** [featureValues.shape[0]]. *)
Definition shape0 (a : ndarray num) : outcome nat :=
  match shape a with
  | [] => Raises (IndexError "tuple index out of range")
  | n :: _ => Returns n
  end.

(** The body of the loop over [self.features] (lines 272-289). *)
Definition train_feature (names : list string) (values : list (pyval num))
    (cnt : nat) (feat : string) (featureValues : ndarray num)
  : method (ndarray num) :=
  if decide (feat ∈ names) then
    run valueToUse := pure (value_at names values feat) in
    run dynamicROM := isDynamic in
    let resp := checkArrayConsistency valueToUse dynamicROM in
    if negb resp.1 then
      raiseAnError IOError
        ("In training set for feature " +:+ feat +:+ ":" +:+ resp.2)
    else
      run valueToUse := pure (np_asarray valueToUse) in
      run n := pure (np_len valueToUse) in
      run rows := pure (shape0 featureValues) in
      if decide (n ≠ rows) then
        raiseAnError IOError
          ("In training set, the number of values provided for feature "
           +:+ feat +:+ " are != number of target outcomes!")
      else
        run _ := _localNormalizeData values names feat in
        run dynamicMatrix := attr dynamicFeatures in
        if (dynamicMatrix : bool) then
          run x := pure (slice_all2 valueToUse) in
          run p := mu_sigma feat in
          pure (setitem_last featureValues cnt (normalized x p.1 p.2))
        else
          run x := pure (if decide (1 < ndim valueToUse)
                         then slice_col0 valueToUse
                         else slice_all1 valueToUse) in
          run p := mu_sigma feat in
          pure (setitem_last featureValues cnt (normalized x p.1 p.2))
  else
    raiseAnError IOError
      ("The feature sought " +:+ feat +:+ " is not in the training set").

(** The loop over [enumerate(self.features)] (line 271). *)
Fixpoint train_features (names : list string) (values : list (pyval num))
    (cnt : nat) (feats : list string) (featureValues : ndarray num)
  : method (ndarray num) :=
  match feats with
  | [] => mreturn featureValues
  | feat :: rest =>
      run featureValues := train_feature names values cnt feat featureValues in
      train_features names values (S cnt) rest featureValues
  end.

(** Feature selection (lines 290-296). *)
Definition train_select (featureValues targetValues : ndarray num)
  : method (ndarray num) :=
  run algo := attr featureSelectionAlgo in
  if decide (algo = Some "RFE") then
    run nsel := assigned nFeaturesToSelect "nFeaturesToSelect" in
    run stp := assigned step "step" in
    run selected := pure (RFE_train nsel stp featureValues targetValues) in
    run dynamicMatrix := attr dynamicFeatures in
    pure (mask_axis (if (dynamicMatrix : bool) then 2 else 1)
                    featureValues selected.2)
  else mreturn featureValues.

(** Lines 246-296, for [names, values = list(tdict.keys()),
    list(tdict.values())]: the matrices [train] will hand to [_train]. The
    optional [indexMap] only feeds the local list [needFeatures], which
    nothing reads afterwards, so lines 257-263 leave no trace here. *)
Definition train_build (names : list string) (values : list (pyval num))
  : method (ndarray num * ndarray num) :=
  run targets := attr target in
  run targets := pure (iterable targets) in
  run targetValues := train_targets names values targets in
  run targetValues := pure (np_stack targetValues) in
  run feats := attr features in
  run dynamicMatrix := attr dynamicFeatures in
  run featureValues :=
    (if (dynamicMatrix : bool) then
       run fl := pure (iterable feats) in
       run featLen := pure (train_featLen names values fl 0) in
       run n := pure (np_len targetValues) in
       run k := pure (py_len feats) in
       mreturn (np_zeros [n; featLen; k])
     else
       run n := pure (np_len targetValues) in
       run k := pure (py_len feats) in
       mreturn (np_zeros [n; k])) in
  run fl := pure (iterable feats) in
  run featureValues := train_features names values 0 fl featureValues in
  run featureValues := train_select featureValues targetValues in
  mreturn (featureValues, targetValues).

(** Everything [train] does before it calls the backend (lines 241-296). *)
Definition train_matrices (tdict : pyinput num)
  : method (ndarray num * ndarray num) :=
  match tdict with
  | NotMapping type_repr =>
      raiseAnError TypeError
        ("In method " +:+ dq +:+ "train" +:+ dq
         +:+ ", the training set needs to be provided through a dictionary. Type of the in-object is "
         +:+ type_repr)
  | Mapping d => train_build d.*1 d.*2
  end.

Definition train (tdict : pyinput num) : method unit :=
  run m := train_matrices tdict in
  run _ := call_hook (λ b, _train b m.1 m.2) (CalledTrain m.1 m.2) in
  λ self, (set_amITrained true self, Returns ()).

(** *** evaluate (lines 352-386) and confidence (lines 311-338) *)

(** [values[0]]. *)
Definition first_value (values : list (pyval num)) : outcome (pyval num) :=
  match values with
  | [] => Raises (IndexError "list index out of range")
  | v :: _ => Returns v
  end.

(** The loop over [range(len(values))] of [evaluate] (lines 364-369). *)
Fixpoint evaluate_check (d : pydict num) (stepInFeatures : nat) : method nat :=
  match d with
  | [] => mreturn stepInFeatures
  | (name, value) :: rest =>
      run dynamicROM := isDynamic in
      let resp := checkArrayConsistency value dynamicROM in
      if negb resp.1 then
        raiseAnError IOError
          ("In evaluate request for feature " +:+ name +:+ ":" +:+ resp.2)
      else
        run dynamicMatrix := attr dynamicFeatures in
        if (dynamicMatrix : bool) then
          run n := pure (py_shape_last value) in
          evaluate_check rest (Nat.max stepInFeatures n)
        else evaluate_check rest stepInFeatures
  end.

(** The body of the loop over [self.features] of [evaluate] (lines 376-385);
    both branches on [dynamicFeatures] assign the normalized value with full
    slices on every axis but the last. *)
Definition evaluate_feature (names : list string) (values : list (pyval num))
    (cnt : nat) (feat : string) (featureValues : ndarray num)
  : method (ndarray num) :=
  if decide (feat ∈ names) then
    run v := pure (value_at names values feat) in
    run dynamicROM := isDynamic in
    let resp := checkArrayConsistency v dynamicROM in
    if negb resp.1 then
      raiseAnError IOError
        ("In training set for feature " +:+ feat +:+ ":" +:+ resp.2)
    else
      run p := mu_sigma feat in
      run x := pure (py_normalized v p.1 p.2) in
      pure (setitem_last featureValues cnt x)
  else
    raiseAnError IOError
      ("The feature sought " +:+ feat +:+ " is not in the evaluate set").

Fixpoint evaluate_features (names : list string) (values : list (pyval num))
    (cnt : nat) (feats : list string) (featureValues : ndarray num)
  : method (ndarray num) :=
  match feats with
  | [] => mreturn featureValues
  | feat :: rest =>
      run featureValues := evaluate_feature names values cnt feat featureValues in
      evaluate_features names values (S cnt) rest featureValues
  end.

(** The matrix [evaluate] hands to [__evaluateLocal__] (lines 360-385). *)
Definition evaluate_matrix (edict : pyinput num) : method (ndarray num) :=
  match edict with
  | NotMapping type_repr =>
      raiseAnError IOError
        ("method " +:+ dq +:+ "evaluate" +:+ dq
         +:+ ". The evaluate request/s need/s to be provided through a dictionary. Type of the in-object is "
         +:+ type_repr)
  | Mapping d =>
      let names := d.*1 in
      let values := d.*2 in
      run stepInFeatures := evaluate_check d 0 in
      run dynamicMatrix := attr dynamicFeatures in
      run v0 := pure (first_value values) in
      run n := pure (py_size v0) in
      run feats := attr features in
      run k := pure (py_len feats) in
      let featureValues :=
        if (dynamicMatrix : bool) then np_zeros [n; stepInFeatures; k]
        else np_zeros [n; k] in
      run fl := pure (iterable feats) in
      evaluate_features names values 0 fl featureValues
  end.

Definition evaluate (edict : pyinput num) : method (pyval num) :=
  run featureValues := evaluate_matrix edict in
  call_hook (λ b, __evaluateLocal__ b featureValues)
            (CalledEvaluate featureValues).

(** [run] (lines 342-350). *)
Definition run_ (edict : pyinput num) : method (pyval num) := evaluate edict.

(** The loop over [range(len(values))] of [confidence] (lines 321-324). *)
Fixpoint confidence_check (d : pydict num) : method unit :=
  match d with
  | [] => mreturn ()
  | (name, value) :: rest =>
      run dynamicROM := isDynamic in
      let resp := checkArrayConsistency value dynamicROM in
      if negb resp.1 then
        raiseAnError IOError
          ("In evaluate request for feature " +:+ name +:+ ":" +:+ resp.2)
      else confidence_check rest
  end.

(** The body of the loop over [self.features] of [confidence]
    (lines 331-337): the raw value is assigned. *)
Definition confidence_feature (names : list string)
    (values : list (pyval num)) (cnt : nat) (feat : string)
    (featureValues : ndarray num) : method (ndarray num) :=
  if decide (feat ∈ names) then
    run v := pure (value_at names values feat) in
    run dynamicROM := isDynamic in
    let resp := checkArrayConsistency v dynamicROM in
    if negb resp.1 then
      raiseAnError IOError
        ("In training set for feature " +:+ feat +:+ ":" +:+ resp.2)
    else
      run x := pure (np_asarray v) in
      pure (setitem_last featureValues cnt x)
  else
    raiseAnError IOError
      ("The feature sought " +:+ feat +:+ " is not in the evaluate set").

Fixpoint confidence_features (names : list string)
    (values : list (pyval num)) (cnt : nat) (feats : list string)
    (featureValues : ndarray num) : method (ndarray num) :=
  match feats with
  | [] => mreturn featureValues
  | feat :: rest =>
      run featureValues := confidence_feature names values cnt feat featureValues in
      confidence_features names values (S cnt) rest featureValues
  end.

(** The matrix [confidence] hands to [__confidenceLocal__] (lines 318-337).
    With [dynamicFeatures] the shape reads [self.featureShape], an attribute
    that no method of the class assigns: after [values[0].size] the read
    raises. *)
Definition confidence_matrix (edict : pyinput num) : method (ndarray num) :=
  match edict with
  | NotMapping type_repr =>
      raiseAnError IOError
        ("method " +:+ dq +:+ "confidence" +:+ dq
         +:+ ". The inquiring set needs to be provided through a dictionary. Type of the in-object is "
         +:+ type_repr)
  | Mapping d =>
      let names := d.*1 in
      let values := d.*2 in
      run _ := confidence_check d in
      run dynamicMatrix := attr dynamicFeatures in
      run v0 := pure (first_value values) in
      run n := pure (py_size v0) in
      if (dynamicMatrix : bool) then
        raiseAnError AttributeError
          "'SupervisedLearning' object has no attribute 'featureShape'"
      else
        run feats := attr features in
        run k := pure (py_len feats) in
        let featureValues := np_zeros [n; k] in
        run fl := pure (iterable feats) in
        confidence_features names values 0 fl featureValues
  end.

Definition confidence (edict : pyinput num) : method (pyval num) :=
  run featureValues := confidence_matrix edict in
  call_hook (λ b, __confidenceLocal__ b featureValues)
            (CalledConfidence featureValues).

(** [reset] (lines 388-393). *)
Definition reset : method unit :=
  λ self, call_hook __resetLocal__ CalledReset (set_amITrained false self).

End Facade.

Notation "'run' x ':=' c 'in' k" := (mdo c (λ x, k))
  (at level 10, x pattern, c at level 100, k at level 200).

(** ** Seeding and introspection *)

(** The values of the dictionary handed to [setAdditionalParams]: [None], an
    integer, or any other object, of which only the truth value
    ([bool(v)]) is used. *)
Inductive param : Type :=
| ParamNone
| ParamInt (z : Z)
| ParamObj (truth : bool).

(** [bool(v)]. *)
Definition truthy (v : param) : bool :=
  match v with
  | ParamNone => false
  | ParamInt z => negb (z =? 0)%Z
  | ParamObj truth => truth
  end.

(** The values of the dictionaries of parameters and settings. *)
Inductive setting : Type :=
| SettingBool (b : bool)
| SettingStr (s : string)
| SettingNames (names : option (list string))
| SettingStrs (l : list string)
| SettingObj (repr : string).

(** [d[k] = v] on a dictionary kept in insertion order: the value of an
    existing key is replaced where it stands, a new key goes last. *)
Fixpoint dict_set (k : string) (v : setting) (acc : list (string * setting))
  : list (string * setting) :=
  match acc with
  | [] => [(k, v)]
  | (k', v') :: acc' =>
      if decide (k = k') then (k, v) :: acc' else (k', v') :: dict_set k v acc'
  end.

(** [dict(pairs)]. *)
Definition py_dict (pairs : list (string * setting)) : list (string * setting) :=
  foldl (λ acc kv, dict_set kv.1 kv.2 acc) [] pairs.

(** [d.get(k)]. *)
Fixpoint dict_get (k : string) (d : list (string * setting)) : option setting :=
  match d with
  | [] => None
  | (k', v) :: d' => if decide (k = k') then Some v else dict_get k d'
  end.

(** The class attributes [returnType] and [qualityEstType] (lines 45-47),
    which subclasses redefine, and the two introspection hooks
    [returnInitialParameters] and [returnCurrentSetting] call. The class
    declares [__returnInitialParametersLocal__] (line 590); it declares no
    [__CurrentSettingDictLocal__], which only a subclass can supply. *)
Class Introspection (B : Type) : Type := {
  returnType : string;
  qualityEstType : list string;
  __returnInitialParametersLocal__ : B → outcome (list (string * setting));
  __CurrentSettingDictLocal__ : option (B → outcome (list (string * setting)));
}.

Section Settings.
Context {num B : Type} `{!Introspection B}.

(** [reseed] (lines 458-464): does nothing. *)
Definition reseed (seed : param) : @method num B unit := mreturn ().

(** [setAdditionalParams] (lines 466-476), for the [reseed] the instance
    answers to. [params.pop] changes the caller's dictionary, so the
    dictionary after the call is returned beside the method's effect. *)
Definition setAdditionalParams (reseed_method : param → @method num B unit)
    (params : gmap string param)
  : gmap string param * @method num B unit :=
  let seed := default ParamNone (params !! "seed") in
  (delete "seed" params,
   if truthy seed then reseed_method seed else mreturn ()).

(** The dictionary literal of [returnInitialParameters]: ['returnType'] is
    written twice, with the same value. *)
Definition initial_items (self : @SupervisedLearning num B)
  : list (string * setting) :=
  py_dict [("returnType", SettingStr returnType);
           ("qualityEstType", SettingStrs qualityEstType);
           ("Features", SettingNames (features self));
           ("Target", SettingNames (target self));
           ("returnType", SettingStr returnType)].

(** [returnInitialParameters] (lines 395-403). *)
Definition returnInitialParameters : @method num B (list (string * setting)) :=
  run self := attr (λ self, self) in
  run local := pure (__returnInitialParametersLocal__ (backend self)) in
  mreturn (py_dict (initial_items self ++ local)).

(** [returnCurrentSetting] (lines 405-412). The two operands of [+] are
    evaluated first; [dict.items()] has no addition, so that the sum raises
    when both are there. *)
Definition returnCurrentSetting : @method num B (list (string * setting)) :=
  match __CurrentSettingDictLocal__ with
  | None =>
      pure (Raises (AttributeError
        "'SupervisedLearning' object has no attribute '__CurrentSettingDictLocal__'"))
  | Some hook =>
      run self := attr (λ self, self) in
      run local := pure (hook (backend self)) in
      pure (Raises (TypeError
        "unsupported operand type(s) for +: 'dict_items' and 'dict_items'"))
  end.

End Settings.

(** ** A small concrete instance, to run the model on

    Entries are integers; the stand-in for [normalizationFactors] centers on
    the integer mean and scales by the range; the backend stores the training
    matrices and answers with the matrix it is given. *)

Module Sample.

Definition Z_numeric : Numeric Z :=
  {| nzero := 0%Z; nobject := (-1)%Z; nsub := Z.sub; ndiv := Z.div |}.

Definition range_factors (v : pyval Z) : outcome (Z * Z) :=
  match @np_asarray Z Z_numeric v with
  | Returns a =>
      let d := data a in
      let total := foldr Z.add 0%Z d in
      let hi := foldr Z.max (default 0%Z (head d)) d in
      let lo := foldr Z.min (default 0%Z (head d)) d in
      Returns ((total / Z.of_nat (length d))%Z,
               if decide (hi = lo) then 1%Z else (hi - lo)%Z)
  | Raises e => Raises e
  end.

Definition Z_mathUtils : MathUtils Z :=
  {| normalizationFactors := range_factors |}.

(** Keeps every column. *)
Definition keep_all : FeatureSelection Z :=
  {| RFE_train := λ _ _ fv _,
       Returns ([], replicate (default 0 (last (shape fv))) true) |}.

Definition store_backend : Backend Z (option (ndarray Z * ndarray Z)) :=
  {| _train := λ _ fv tv, (Some (fv, tv), Returns ());
     __evaluateLocal__ := λ b fv, (b, Returns (PyArray fv));
     __confidenceLocal__ := λ b fv, (b, Returns (PyArray fv));
     __resetLocal__ := λ _, (None, Returns ()) |}.

Definition vec (l : list Z) : pyval Z := PyArray (mkArr [length l] l).

(** An instance configured with features [x], target [y]. *)
Definition rom (dynamicROM dynamicMatrix : bool)
  : @SupervisedLearning Z (option (ndarray Z * ndarray Z)) :=
  {| features := Some ["x"]; target := Some ["y"]; amITrained := false;
     _dynamicHandling := dynamicROM; dynamicFeatures := dynamicMatrix;
     featureSelectionAlgo := None; performPCA := false;
     muAndSigmaFeatures := ∅; pivotID := Some "time"; step := None;
     nFeaturesToSelect := None; verbosity := None;
     backend := None; hookCalls := [] |}.

(** The same, with a second feature [z]. *)
Definition rom_xz : @SupervisedLearning Z (option (ndarray Z * ndarray Z)) :=
  {| features := Some ["x"; "z"]; target := Some ["y"]; amITrained := false;
     _dynamicHandling := false; dynamicFeatures := false;
     featureSelectionAlgo := None; performPCA := false;
     muAndSigmaFeatures := ∅; pivotID := Some "time"; step := None;
     nFeaturesToSelect := None; verbosity := None;
     backend := None; hookCalls := [] |}.

(** Four samples of [x] and [y]. *)
Definition static_set : pydict Z :=
  [("y", vec [0; 1; 2; 3]%Z); ("x", vec [0; 2; 4; 6]%Z)].

(** The same bindings, [x] first. *)
Definition static_set_swapped : pydict Z :=
  [("x", vec [0; 2; 4; 6]%Z); ("y", vec [0; 1; 2; 3]%Z)].

(** Two realizations of [x], three time steps each. *)
Definition dynamic_set : pydict Z :=
  [("y", vec [0; 1]%Z); ("x", PyList [vec [0; 2; 4]%Z; vec [1; 6; 8]%Z])].

(** Two realizations of [x], of three and of two time steps. *)
Definition ragged_set : pydict Z :=
  [("y", vec [0; 1]%Z); ("x", PyList [vec [0; 2; 4]%Z; vec [1; 6]%Z])].

(** Realizations of three time steps for [x] and of two for [z]. *)
Definition uneven_set : pydict Z :=
  [("y", vec [0; 1]%Z);
   ("x", PyList [vec [0; 2; 4]%Z; vec [1; 6; 8]%Z]);
   ("z", PyList [vec [5; 7]%Z; vec [3; 9]%Z])].

(** The instance with features [x] and [z], in dynamic mode. *)
Definition rom_xz_dynamic
  : @SupervisedLearning Z (option (ndarray Z * ndarray Z)) :=
  {| features := Some ["x"; "z"]; target := Some ["y"]; amITrained := false;
     _dynamicHandling := true; dynamicFeatures := true;
     featureSelectionAlgo := None; performPCA := false;
     muAndSigmaFeatures := ∅; pivotID := Some "time"; step := None;
     nFeaturesToSelect := None; verbosity := None;
     backend := None; hookCalls := [] |}.

(** A request for one point. *)
Definition request : pydict Z := [("x", vec [9]%Z)].

(** The static instance once trained on [static_set]. *)
Definition trained_rom : @SupervisedLearning Z (option (ndarray Z * ndarray Z)) :=
  (@train Z _ Z_numeric Z_mathUtils keep_all store_backend
     (Mapping static_set) (rom false false)).1.

(** The parsed input and the dictionary of a configuration that names [x]
    both as a feature and as a target. *)
Definition shared_nodes : paramNodes Z :=
  {| nodeFeatures := ["x"]; nodeTarget := ["x"];
     nodePivotParameter := "time"; nodeFeatureSelectionAlgorithm := None;
     nodePerformPCA := false; nodeStep := 1%Z;
     nodeNFeaturesToSelect := None |}.

Definition shared_dict : initDict :=
  {| dictFeatures := Some ["x"]; dictTarget := Some ["x"];
     dictFeatureSelectionAlgorithm := None; dictPerformPCA := None;
     dictVerbosity := None |}.

(** A backend whose fit fails. *)
Definition failing_backend : Backend Z (option (ndarray Z * ndarray Z)) :=
  {| _train := λ b _ _, (b, Raises (ValueError "singular matrix"));
     __evaluateLocal__ := λ b fv, (b, Returns (PyArray fv));
     __confidenceLocal__ := λ b fv, (b, Returns (PyArray fv));
     __resetLocal__ := λ _, (None, Returns ()) |}.

(** The class attributes and the initial parameters of a subclass that
    reports its own ['Features'] and a ['degree']; it supplies no
    [__CurrentSettingDictLocal__]. *)
Definition rom_introspection : Introspection (option (ndarray Z * ndarray Z)) :=
  {| returnType := "float"; qualityEstType := ["distance"];
     __returnInitialParametersLocal__ := λ _,
       Returns [("Features", SettingObj "x"); ("degree", SettingObj "2")];
     __CurrentSettingDictLocal__ := None |}.

(** A dictionary that turns the RFE selector on. *)
Definition rfe_dict : initDict :=
  {| dictFeatures := Some ["x"]; dictTarget := Some ["y"];
     dictFeatureSelectionAlgorithm := Some "RFE"; dictPerformPCA := None;
     dictVerbosity := None |}.

(** A dictionary with an empty list of targets. *)
Definition no_target_dict : initDict :=
  {| dictFeatures := Some ["x"]; dictTarget := Some [];
     dictFeatureSelectionAlgorithm := None; dictPerformPCA := None;
     dictVerbosity := None |}.

(** A request with a value that is no array after a valid one. *)
Definition bad_request : pydict Z :=
  [("y", vec [1]%Z); ("x", PyList [vec [9]%Z]); ("z", PyNone)].

(** Parameters with a seed. *)
Definition seeded : gmap string param :=
  <["seed" := ParamInt 7]> (<["degree" := ParamInt 2]> ∅).

End Sample.

(** ** Contracts the properties are stated against *)

Section Contracts.
Context {num B : Type}.
Context `{!Numeric num, !MathUtils num, !FeatureSelection num, !Backend num B}.

(** An array of at most one dimension: what the validator accepts outside
    of lists. *)
Definition one_dimensional (v : pyval num) : bool :=
  match v with
  | PyArray a | PyObj _ a =>
      bool_decide (type_name v ∈ ["ndarray"; "c1darray"])
      && bool_decide (length (shape a) ≤ 1)
  | _ => false
  end.

(** The Array Validator contract in the spec's words: in dynamic mode the
    value must be a sequence of valid arrays, otherwise a single array. *)
Definition validate_spec (value : pyval num) (dynamic : bool) : bool :=
  if dynamic then
    match value with
    | PyList items => forallb one_dimensional items
    | _ => false
    end
  else one_dimensional value.

(** The decision the code takes: the flag only matters for a list. *)
Definition validate_code (value : pyval num) (dynamic : bool) : bool :=
  match value with
  | PyList items => dynamic && forallb one_dimensional items
  | _ => one_dimensional value
  end.

(** A configuration names something both as a feature and as a target. *)
Definition shares_a_name (feats targets : list string) : Prop :=
  ∃ name, name ∈ feats ∧ name ∈ targets.

(** The state after a series of [evaluate] calls, whatever each returned
    or raised. *)
Fixpoint evaluate_many (requests : list (pyinput num))
    (self : @SupervisedLearning num B) : @SupervisedLearning num B :=
  match requests with
  | [] => self
  | edict :: rest => evaluate_many rest (evaluate edict self).1
  end.

(** A method that leaves the instance as it found it. *)
Definition readonly {A : Type} (m : @method num B A) : Prop :=
  ∀ self, (m self).1 = self.

(** A method that writes nothing but [muAndSigmaFeatures]. *)
Definition writes_mu_only {A : Type} (m : @method num B A) : Prop :=
  ∀ self, ∃ mu, (m self).1 = set_muAndSigmaFeatures mu self.

(** A method on which the change [T] of the instance has no influence: it
    runs the same way and [T] can as well be applied afterwards. *)
Definition blind_to {A : Type}
    (T : @SupervisedLearning num B → @SupervisedLearning num B)
    (m : @method num B A) : Prop :=
  ∀ self, m (T self) = (T (m self).1, (m self).2).

(** An attribute that the change [T] does not touch. *)
Definition untouched {X : Type}
    (T : @SupervisedLearning num B → @SupervisedLearning num B)
    (f : @SupervisedLearning num B → X) : Prop :=
  ∀ self, f (T self) = f self.

(** Two readings [names, values] of dictionaries that answer every lookup
    alike. *)
Definition same_lookup (names1 : list string) (values1 : list (pyval num))
    (names2 : list string) (values2 : list (pyval num)) : Prop :=
  (∀ x, x ∈ names1 ↔ x ∈ names2)
  ∧ (∀ x, value_at names1 values1 x = value_at names2 values2 x).

(** The method raises when run on [self]. *)
Definition fails {A : Type} (m : @method num B A)
    (self : @SupervisedLearning num B) : Prop :=
  ∃ e, (m self).2 = Raises e.

(** Whenever the method returns, its result satisfies [Q]. *)
Definition ensures {A : Type} (m : @method num B A) (Q : A → Prop) : Prop :=
  ∀ self self' a, m self = (self', Returns a) → Q a.

(** [rows] is the number of rows of the stacked targets: what
    [len(targetValues)] is once line 254 has run. *)
Definition target_rows (names : list string) (values : list (pyval num))
    (self : @SupervisedLearning num B) (rows : nat) : Prop :=
  ∃ targets vs tv,
    target self = Some targets
    ∧ for_each (value_at names values) targets = Returns vs
    ∧ np_stack vs = Returns tv
    ∧ np_len tv = Returns rows.

(** The failures of [train] that come from its input: the training set is
    no dictionary; a declared target or feature is not among its keys; the
    value of a declared feature does not pass the array check; the number
    of values of a declared feature is not the number of target rows. *)
Inductive train_failure (self : @SupervisedLearning num B)
  : pyinput num → Prop :=
| not_a_mapping type_repr :
    train_failure self (NotMapping type_repr)
| missing_target d targets t :
    target self = Some targets → t ∈ targets → t ∉ d.*1 →
    train_failure self (Mapping d)
| missing_feature d feats f :
    features self = Some feats → f ∈ feats → f ∉ d.*1 →
    train_failure self (Mapping d)
| invalid_array d feats f v :
    features self = Some feats → f ∈ feats →
    value_at d.*1 d.*2 f = Returns v →
    (checkArrayConsistency v (_dynamicHandling self)).1 = false →
    train_failure self (Mapping d)
| row_count_mismatch d feats f v a n rows :
    features self = Some feats → f ∈ feats →
    value_at d.*1 d.*2 f = Returns v →
    np_asarray v = Returns a →
    np_len a = Returns n →
    target_rows d.*1 d.*2 self rows →
    n ≠ rows →
    train_failure self (Mapping d).

(** The length of the first realization of a feature:
    [values[names.index(feat)][0].size]. *)
Definition first_length (names : list string) (values : list (pyval num))
    (feat : string) : outcome nat :=
  obind (value_at names values feat) (λ v,
    obind (py_item0 v) (λ first, py_size first)).

(** Two methods that behave alike on every instance. *)
Definition meq {A : Type} (m1 m2 : @method num B A) : Prop :=
  ∀ self, m1 self = m2 self.

(** A change of the instance that leaves alone what the construction of an
    evaluation matrix reads. *)
Definition keeps_configuration
    (T : @SupervisedLearning num B → @SupervisedLearning num B) : Prop :=
  untouched T _dynamicHandling ∧ untouched T dynamicFeatures
  ∧ untouched T features ∧ untouched T muAndSigmaFeatures.

(** The entry of [mu] for the feature [f] is the pair fitted on the value the
    dictionary binds to [f]. *)
Definition fitted (names : list string) (values : list (pyval num))
    (mu : gmap string (num * num)) (f : string) : Prop :=
  ∃ v p, value_at names values f = Returns v
         ∧ normalizationFactors v = Returns p
         ∧ mu !! f = Some p.

(** A method whose outcome does not depend on the normalization parameters
    the instance holds when it is called. *)
Definition forgets_mu {A : Type} (m : @method num B A) : Prop :=
  ∀ mu self, ∃ mu',
    m (set_muAndSigmaFeatures mu self)
    = (set_muAndSigmaFeatures mu' (m self).1, (m self).2).

End Contracts.

(** ** Properties *)

Section Validator.
Context {num : Type} `{!Numeric num}.

Lemma check_static (v : pyval num) :
  (checkArrayConsistency v false).1 = one_dimensional v.
Proof.
  destruct v as [|items|a|t a]; simpl; try done.
  2: case_bool_decide; simpl; [|done].
  all: case_decide; simpl; symmetry.
  all: first [apply bool_decide_eq_false; lia | apply bool_decide_eq_true; lia].
Qed.

Lemma check_elements_ok (cnt : nat) (items : list (pyval num)) :
  (check_elements (λ e, checkArrayConsistency e false) cnt items).1
  = forallb one_dimensional items.
Proof.
  revert cnt. induction items as [|e items IH]; intros cnt; simpl; [done|].
  rewrite check_static. destruct (one_dimensional e); simpl; [apply IH|done].
Qed.

Lemma check_elements_first_failure (cnt i : nat) (items : list (pyval num))
    (e : pyval num) :
  items !! i = Some e →
  one_dimensional e = false →
  (∀ j e', j < i → items !! j = Some e' → one_dimensional e' = true) →
  check_elements (λ e, checkArrayConsistency e false) cnt items
  = (false, " The element number " +:+ pretty (cnt + i)
            +:+ " is not a consistent array. Error: "
            +:+ (checkArrayConsistency e false).2).
Proof.
  revert cnt i. induction items as [|x items IH]; intros cnt i Hi He Hbefore.
  - done.
  - destruct i as [|i]; simpl in *.
    + injection Hi as ->. rewrite check_static, He. simpl.
      by rewrite Nat.add_0_r.
    + rewrite check_static, (Hbefore 0 x); [|lia|done]. simpl.
      rewrite (IH (S cnt) i); [|done|done|].
      * by rewrite Nat.add_succ_comm.
      * intros j e' Hj Hl. apply (Hbefore (S j) e'); [lia|done].
Qed.

(** C9, as amended: [checkArrayConsistency] accepts exactly the values of
    [validate_code] - a list only in dynamic mode and only if each element
    is an array of at most one dimension, any other value if it is such an
    array, whatever the flag - and reports: "no entries" for [None]; the
    "dynamic ROMs only" message for a list outside dynamic mode; the index
    of the first bad element, with that element's own message, for a list
    in dynamic mode; the shape for an array of more than one dimension. *)
Theorem checkArrayConsistency_contract :
  (∀ (v : pyval num) (dynamic : bool),
      (checkArrayConsistency v dynamic).1 = validate_code v dynamic)
  ∧ (∀ dynamic : bool,
      checkArrayConsistency (PyNone : pyval num) dynamic
      = (false, " The object is None, and contains no entries!"))
  ∧ (∀ items : list (pyval num),
      checkArrayConsistency (PyList items) false
      = (false, " The list type is allowed for dynamic ROMs only"))
  ∧ (∀ (items : list (pyval num)) (i : nat) (e : pyval num),
      items !! i = Some e →
      one_dimensional e = false →
      (∀ j e', j < i → items !! j = Some e' → one_dimensional e' = true) →
      checkArrayConsistency (PyList items) true
      = (false, " The element number " +:+ pretty i
                +:+ " is not a consistent array. Error: "
                +:+ (checkArrayConsistency e false).2))
  ∧ (∀ (a : ndarray num) (dynamic : bool),
      1 < length (shape a) →
      checkArrayConsistency (PyArray a) dynamic
      = (false, " The array must be 1-d. Got shape: " +:+ str_tuple (shape a))).
Proof.
  split; [|split; [|split; [|split]]].
  - intros v [|].
    + destruct v as [|items|a|t a]; try done.
      * simpl. apply check_elements_ok.
      * change (validate_code (PyArray a) true) with (one_dimensional (PyArray a)).
        rewrite <- check_static. done.
      * change (validate_code (PyObj t a) true) with (one_dimensional (PyObj t a)).
        rewrite <- check_static. done.
    + rewrite check_static. by destruct v.
  - done.
  - done.
  - intros items i e Hi He Hbefore. simpl.
    by rewrite (check_elements_first_failure 0 i items e).
  - intros a dynamic Hdim. simpl. by case_decide.
Qed.

End Validator.

(** *** Laws of methods *)

Section MethodLaws.
Context {num B : Type}.
Context `{!Numeric num, !MathUtils num, !FeatureSelection num, !Backend num B}.
Implicit Types self : @SupervisedLearning num B.
#[local] Abbreviation M := (@method num B).

Lemma set_mu_same self :
  set_muAndSigmaFeatures (muAndSigmaFeatures self) self = self.
Proof. by destruct self. Qed.

Lemma mdo_returns {A C} (c : M A) (k : A → M C) self self' a :
  c self = (self', Returns a) → mdo c k self = k a self'.
Proof. unfold mdo. by intros ->. Qed.

Lemma mdo_raises {A C} (c : M A) (k : A → M C) self self' e :
  c self = (self', Raises e) → mdo c k self = (self', Raises e).
Proof. unfold mdo. by intros ->. Qed.

(** readonly *)

Lemma readonly_mreturn {A} (a : A) : readonly (mreturn (num:=num) (B:=B) a).
Proof. done. Qed.

Lemma readonly_pure {A} (c : outcome A) : readonly (pure (num:=num) (B:=B) c).
Proof. done. Qed.

Lemma readonly_attr {A} (f : @SupervisedLearning num B → A) : readonly (attr f).
Proof. done. Qed.

Lemma readonly_raiseAnError {A} etype msg :
  readonly (raiseAnError (num:=num) (B:=B) (A:=A) etype msg).
Proof. done. Qed.

Lemma readonly_isDynamic : readonly (isDynamic (num:=num) (B:=B)).
Proof. done. Qed.

Lemma readonly_mu_sigma feat : readonly (mu_sigma (num:=num) (B:=B) feat).
Proof. intros self. unfold mu_sigma. by destruct (_ !! _). Qed.

Lemma readonly_assigned {A} (f : @SupervisedLearning num B → option A) name :
  readonly (assigned f name).
Proof. intros self. unfold assigned. by destruct (f self). Qed.

Lemma readonly_mdo {A C} (c : M A) (k : A → M C) :
  readonly c → (∀ a, readonly (k a)) → readonly (mdo c k).
Proof.
  intros Hc Hk self. unfold mdo. specialize (Hc self).
  destruct (c self) as [self' [a|e]]; simpl in *; subst; [apply Hk|done].
Qed.

(** writes_mu_only *)

Lemma readonly_writes_mu_only {A} (m : M A) :
  readonly m → writes_mu_only m.
Proof.
  intros Hm self. exists (muAndSigmaFeatures self).
  by rewrite Hm, set_mu_same.
Qed.

Lemma writes_mu_only_mdo {A C} (c : M A) (k : A → M C) :
  writes_mu_only c → (∀ a, writes_mu_only (k a)) → writes_mu_only (mdo c k).
Proof.
  intros Hc Hk self. unfold mdo. destruct (Hc self) as [mu Hmu].
  destruct (c self) as [self' [a|e]]; simpl in *; subst; [|by exists mu].
  destruct (Hk a (set_muAndSigmaFeatures mu self)) as [mu' ->].
  by exists mu'.
Qed.

Lemma writes_mu_only_frame {A} (m : M A) self :
  writes_mu_only m →
  hookCalls (m self).1 = hookCalls self
  ∧ backend (m self).1 = backend self
  ∧ amITrained (m self).1 = amITrained self
  ∧ _dynamicHandling (m self).1 = _dynamicHandling self
  ∧ dynamicFeatures (m self).1 = dynamicFeatures self
  ∧ features (m self).1 = features self
  ∧ target (m self).1 = target self.
Proof. intros Hm. destruct (Hm self) as [mu ->]. done. Qed.

(** blind_to *)

Lemma blind_mreturn {A} T (a : A) : blind_to T (mreturn (num:=num) (B:=B) a).
Proof. done. Qed.

Lemma blind_pure {A} T (c : outcome A) : blind_to T (pure (num:=num) (B:=B) c).
Proof. done. Qed.

Lemma blind_raiseAnError {A} T etype msg :
  blind_to T (raiseAnError (num:=num) (B:=B) (A:=A) etype msg).
Proof. done. Qed.

Lemma blind_attr {A} T (f : @SupervisedLearning num B → A) :
  untouched T f → blind_to T (attr f).
Proof. intros Hf self. unfold attr. by rewrite Hf. Qed.

Lemma blind_isDynamic T :
  untouched T _dynamicHandling → blind_to T (isDynamic (num:=num) (B:=B)).
Proof. apply blind_attr. Qed.

Lemma blind_mu_sigma T feat :
  untouched T muAndSigmaFeatures → blind_to T (mu_sigma (num:=num) (B:=B) feat).
Proof.
  intros Hf self. unfold mu_sigma. rewrite Hf. by destruct (_ !! _).
Qed.

Lemma blind_mdo {A C} T (c : M A) (k : A → M C) :
  blind_to T c → (∀ a, blind_to T (k a)) → blind_to T (mdo c k).
Proof.
  intros Hc Hk self. unfold mdo. rewrite Hc.
  destruct (c self) as [self' [a|e]]; simpl; [apply Hk|done].
Qed.

Lemma blind_call_hook {A} (v : bool) (hook : B → B * outcome A)
    (call : hook_call num) :
  blind_to (set_amITrained v) (call_hook hook call).
Proof. intros self. unfold call_hook. simpl. by destruct (hook _). Qed.

End MethodLaws.

Create HintDb method_laws.

#[local] Hint Resolve readonly_mreturn readonly_pure readonly_attr
  readonly_raiseAnError readonly_isDynamic readonly_mu_sigma readonly_assigned
  readonly_writes_mu_only
  blind_mreturn blind_pure blind_raiseAnError blind_attr blind_isDynamic
  blind_mu_sigma blind_call_hook : method_laws.

(** Goes through the body of a method, one bind or one branch at a time. *)
#[local] Ltac method_law :=
  repeat first
    [ match goal with
      | |- readonly (mdo _ _) => apply readonly_mdo; [|intros ?]
      | |- writes_mu_only (mdo _ _) => apply writes_mu_only_mdo; [|intros ?]
      | |- blind_to _ (mdo _ _) => apply blind_mdo; [|intros ?]
      end
    | solve [eauto with method_laws]
    | match goal with
      | |- context [if ?c then _ else _] => destruct c
      | |- context [match ?x with _ => _ end] => destruct x
      end
    | progress cbv beta zeta ].

(** *** The configuration paths *)

Section Configuration.
Context {num B : Type}.
Context `{!Numeric num, !MathUtils num, !FeatureSelection num, !Backend num B}.
Implicit Types self : @SupervisedLearning num B.

(** [_handleInput] refuses a name shared by the features and the targets,
    and touches neither the backend nor the normalization parameters. *)
Lemma _handleInput_rejects_shared_name (paramInput : paramNodes num) self :
  shares_a_name (nodeFeatures paramInput) (nodeTarget paramInput) →
  ∃ msg, (_handleInput paramInput self).2 = Raises (IOError msg)
         ∧ hookCalls (_handleInput paramInput self).1 = hookCalls self
         ∧ muAndSigmaFeatures (_handleInput paramInput self).1
           = muAndSigmaFeatures self.
Proof.
  intros (name & Hf & Ht). unfold _handleInput. case_decide as Hlen.
  - eexists. simpl. done.
  - exfalso.
    assert (Hin : name ∈ filter (λ t, t ∈ nodeFeatures paramInput)
                           (remove_dups (nodeTarget paramInput))).
    { apply list_elem_of_filter. split; [done|]. by apply elem_of_remove_dups. }
    destruct (filter _ _); [by apply elem_of_nil in Hin|done].
Qed.

(** [initializeFromDict] returns normally on every dictionary and stores
    the two lists as they come. *)
Lemma initializeFromDict_never_raises (inputDict : initDict) self :
  (initializeFromDict inputDict self).2 = Returns ()
  ∧ features (initializeFromDict inputDict self).1 = dictFeatures inputDict
  ∧ target (initializeFromDict inputDict self).1 = dictTarget inputDict.
Proof. done. Qed.

End Configuration.

(** *** evaluate and confidence *)

Section Evaluation.
Context {num B : Type}.
Context `{!Numeric num, !MathUtils num, !FeatureSelection num, !Backend num B}.
Implicit Types self : @SupervisedLearning num B.
Implicit Types edict : pyinput num.
Implicit Types d : pydict num.

Lemma keeps_configuration_flag (v : bool) :
  keeps_configuration (set_amITrained (num:=num) (B:=B) v).
Proof. done. Qed.

Lemma keeps_configuration_backend (b : B) (call : hook_call num) :
  keeps_configuration (set_backend b call).
Proof. done. Qed.

Lemma readonly_evaluate_check d n : readonly (evaluate_check (B:=B) d n).
Proof.
  revert n. induction d as [|[name value] d IH]; intros n; simpl; method_law.
Qed.

Lemma readonly_evaluate_features names values cnt feats fv :
  readonly (evaluate_features (B:=B) names values cnt feats fv).
Proof.
  revert cnt fv. induction feats as [|feat feats IH]; intros cnt fv; simpl;
    [method_law|].
  apply readonly_mdo; [|done]. unfold evaluate_feature. method_law.
Qed.

Lemma readonly_evaluate_matrix edict : readonly (evaluate_matrix (B:=B) edict).
Proof.
  destruct edict as [d|ty]; simpl; [|method_law].
  apply readonly_mdo; [apply readonly_evaluate_check|intros n].
  method_law; apply readonly_evaluate_features.
Qed.

Lemma readonly_confidence_check d : readonly (confidence_check (B:=B) d).
Proof. induction d as [|[name value] d IH]; simpl; method_law. Qed.

Lemma readonly_confidence_features names values cnt feats fv :
  readonly (confidence_features (B:=B) names values cnt feats fv).
Proof.
  revert cnt fv. induction feats as [|feat feats IH]; intros cnt fv; simpl;
    [method_law|].
  apply readonly_mdo; [|done]. unfold confidence_feature. method_law.
Qed.

Lemma readonly_confidence_matrix edict :
  readonly (confidence_matrix (B:=B) edict).
Proof.
  destruct edict as [d|ty]; simpl; [|method_law].
  apply readonly_mdo; [apply readonly_confidence_check|intros n].
  method_law; apply readonly_confidence_features.
Qed.

Lemma blind_evaluate_check T d n :
  keeps_configuration T → blind_to T (evaluate_check (B:=B) d n).
Proof.
  intros (? & ? & ? & ?). revert n.
  induction d as [|[name value] d IH]; intros n; simpl; method_law.
Qed.

Lemma blind_evaluate_features T names values cnt feats fv :
  keeps_configuration T →
  blind_to T (evaluate_features (B:=B) names values cnt feats fv).
Proof.
  intros (? & ? & ? & ?). revert cnt fv.
  induction feats as [|feat feats IH]; intros cnt fv; simpl; [method_law|].
  apply blind_mdo; [|done]. unfold evaluate_feature. method_law.
Qed.

Lemma blind_evaluate_matrix T edict :
  keeps_configuration T → blind_to T (evaluate_matrix (B:=B) edict).
Proof.
  intros HT. pose proof HT as (? & ? & ? & ?).
  destruct edict as [d|ty]; simpl; [|method_law].
  apply blind_mdo; [by apply blind_evaluate_check|intros n].
  method_law; by apply blind_evaluate_features.
Qed.

(** What a call of [evaluate] can do to the instance: nothing, or run the
    hook once. *)
Lemma evaluate_post edict self :
  (evaluate edict self).1 = self
  ∨ ∃ b call, (evaluate edict self).1 = set_backend b call self.
Proof.
  unfold evaluate, mdo. pose proof (readonly_evaluate_matrix edict self) as Hm.
  destruct (evaluate_matrix edict self) as [self' [fv|e]]; simpl in *; subst.
  - right. unfold call_hook. destruct (__evaluateLocal__ _ _) as [b r].
    by exists b, (CalledEvaluate fv).
  - by left.
Qed.

Lemma evaluate_many_frame requests self :
  muAndSigmaFeatures (evaluate_many requests self) = muAndSigmaFeatures self
  ∧ ∀ edict, (evaluate_matrix edict (evaluate_many requests self)).2
             = (evaluate_matrix edict self).2.
Proof.
  revert self. induction requests as [|r requests IH]; intros self; [done|].
  simpl. destruct (IH (evaluate r self).1) as [Hmu Hmat].
  destruct (evaluate_post r self) as [Heq|(b & call & Heq)];
    rewrite Heq in *; [done|].
  split; [by rewrite Hmu|].
  intros edict. rewrite Hmat.
  by rewrite (blind_evaluate_matrix _ edict (keeps_configuration_backend b call)).
Qed.

(** C5: on a trained instance, after any number of [evaluate] calls, some of
    which may have raised, [muAndSigmaFeatures] is what it was, and the
    matrix built for a further request is the one the instance would have
    built right after training. *)
Theorem evaluate_keeps_normalization requests self :
  amITrained self = true →
  muAndSigmaFeatures (evaluate_many requests self) = muAndSigmaFeatures self
  ∧ ∀ edict, (evaluate_matrix edict (evaluate_many requests self)).2
             = (evaluate_matrix edict self).2.
Proof. intros _. apply evaluate_many_frame. Qed.

(** C4, as amended: [evaluate] never reads [amITrained]. Called on an
    instance whose flag is [v], it validates the request, builds the matrix
    from the stored normalization parameters and calls
    [__evaluateLocal__] exactly as it does when the flag has the other
    value; the flag is left as it was. *)
Theorem evaluate_ignores_trained_flag (v : bool) edict self :
  evaluate edict (set_amITrained v self)
  = (set_amITrained v (evaluate edict self).1, (evaluate edict self).2).
Proof.
  revert self. change (blind_to (set_amITrained v) (evaluate (B:=B) edict)).
  unfold evaluate. apply blind_mdo.
  - apply blind_evaluate_matrix, keeps_configuration_flag.
  - intros fv. apply blind_call_hook.
Qed.

Lemma confidence_check_valid d self :
  (∀ name v, (name, v) ∈ d →
             (checkArrayConsistency v (_dynamicHandling self)).1 = true) →
  confidence_check d self = (self, Returns ()).
Proof.
  induction d as [|[name value] d IH]; intros Hvalid; [done|].
  simpl. unfold mdo, isDynamic, attr.
  rewrite (Hvalid name value); [|by left]. simpl.
  apply IH. intros n v Hin. apply (Hvalid n v). by right.
Qed.

(** C10, as amended: with [dynamicFeatures] set, [confidence] always raises
    and leaves the instance as it was, so that [__confidenceLocal__] is not
    reached; when the request is a non-empty dictionary whose values all
    pass the array check, what it raises is an attribute error. *)
Theorem confidence_dynamic_never_reaches_hook edict self :
  dynamicFeatures self = true →
  ∃ e, confidence edict self = (self, Raises e)
       ∧ (∀ d, edict = Mapping d → d ≠ [] →
               (∀ name v, (name, v) ∈ d →
                  (checkArrayConsistency v (_dynamicHandling self)).1 = true) →
               ∃ msg, e = AttributeError msg).
Proof.
  intros Hdyn. unfold confidence.
  assert (∃ e, confidence_matrix edict self = (self, Raises e)
               ∧ (∀ d, edict = Mapping d → d ≠ [] →
                    (∀ name v, (name, v) ∈ d →
                       (checkArrayConsistency v (_dynamicHandling self)).1 = true) →
                    ∃ msg, e = AttributeError msg)) as (e & Hm & He).
  { destruct edict as [d|ty]; simpl.
    - unfold mdo at 1.
      pose proof (readonly_confidence_check d self) as Hro.
      destruct (confidence_check d self) as [self' [[]|e]] eqn:Hcheck;
        simpl in Hro; subst self'.
      + unfold mdo, attr, pure, raiseAnError. rewrite Hdyn.
        destruct d as [|[name v0] d]; simpl.
        * eexists. split; [done|]. intros d' [= <-]. done.
        * destruct (py_size v0) as [n|e] eqn:Hsize; simpl.
          -- eexists. split; [done|]. intros; by eexists.
          -- exists e. split; [done|]. intros d' [= <-] _ Hvalid.
             specialize (Hvalid name v0 (ltac:(by left))).
             destruct v0 as [|items|a|t a]; simpl in *; try done.
             injection Hsize as <-. by eexists.
      + exists e. split; [done|]. intros d' [= <-] _ Hvalid.
        rewrite (confidence_check_valid d self Hvalid) in Hcheck. done.
    - eexists. split; [done|]. done. }
  exists e. split; [|done]. by rewrite (mdo_raises _ _ _ _ _ Hm).
Qed.

End Evaluation.

(** *** train *)

Section Training.
Context {num B : Type}.
Context `{!Numeric num, !MathUtils num, !FeatureSelection num, !Backend num B}.
Implicit Types self : @SupervisedLearning num B.
Implicit Types tdict : pyinput num.
Implicit Types d : pydict num.
Implicit Types names : list string.
Implicit Types values : list (pyval num).
Implicit Types fv tv : ndarray num.
#[local] Abbreviation M := (@method num B).

(** **** Lookups do not depend on the order of the keys *)

Lemma value_at_lookup d x :
  value_at d.*1 d.*2 x
  = match (list_to_map d : gmap string (pyval num)) !! x with
    | Some v => Returns v
    | None => Raises (ValueError ("'" +:+ x +:+ "' is not in list"))
    end.
Proof.
  induction d as [|[k v] d IH]; [done|].
  unfold value_at in *. csimpl. case_decide as Hx.
  - subst k. by rewrite lookup_insert_eq.
  - rewrite lookup_insert_ne by done. rewrite <- IH.
    by destruct (index_of x d.*1).
Qed.

Lemma same_lookup_permutation d1 d2 :
  dict_wf d1 → d1 ≡ₚ d2 → same_lookup d1.*1 d1.*2 d2.*1 d2.*2.
Proof.
  intros Hwf Hperm. split; intros x.
  - by rewrite Hperm.
  - rewrite !value_at_lookup.
    by rewrite (list_to_map_proper (M:=gmap string) d1 d2 Hwf Hperm).
Qed.

Lemma meq_mdo {A C} (c1 c2 : M A) (k1 k2 : A → M C) :
  meq c1 c2 → (∀ a, meq (k1 a) (k2 a)) → meq (mdo c1 k1) (mdo c2 k2).
Proof.
  intros Hc Hk self. unfold mdo. rewrite Hc.
  destruct (c2 self) as [self' [a|e]]; [apply Hk|done].
Qed.

Lemma meq_refl {A} (m : M A) : meq m m.
Proof. done. Qed.

Section SameLookup.
Variables (names1 names2 : list string).
Variables (values1 values2 : list (pyval num)).
Hypothesis Hsame : same_lookup names1 values1 names2 values2.

Lemma same_train_targets targets :
  meq (train_targets (B:=B) names1 values1 targets)
      (train_targets names2 values2 targets).
Proof.
  destruct Hsame as [Hin Hval].
  induction targets as [|t targets IH]; simpl; [done|].
  destruct (decide (t ∈ names1)) as [H1|H1];
    destruct (decide (t ∈ names2)) as [H2|H2];
    try (exfalso; apply Hin in H1 || apply Hin in H2; done); [|done].
  rewrite Hval. apply meq_mdo; [done|intros v].
  apply meq_mdo; [done|done].
Qed.

Lemma same_train_featLen feats featLen :
  train_featLen names1 values1 feats featLen
  = train_featLen names2 values2 feats featLen.
Proof.
  destruct Hsame as [Hin Hval]. revert featLen.
  induction feats as [|f feats IH]; intros featLen; simpl; [done|].
  rewrite Hval. destruct (value_at names2 values2 f) as [v|]; simpl; [|done].
  destruct (py_item0 v) as [x|]; simpl; [|done].
  destruct (py_size x) as [n|]; simpl; [|done]. apply IH.
Qed.

Lemma same_localNormalizeData feat :
  meq (_localNormalizeData (B:=B) values1 names1 feat)
      (_localNormalizeData values2 names2 feat).
Proof.
  destruct Hsame as [Hin Hval]. unfold _localNormalizeData.
  by rewrite Hval.
Qed.

Lemma same_train_feature cnt feat fv :
  meq (train_feature (B:=B) names1 values1 cnt feat fv)
      (train_feature names2 values2 cnt feat fv).
Proof.
  pose proof Hsame as [Hin Hval]. unfold train_feature.
  destruct (decide (feat ∈ names1)) as [H1|H1];
    destruct (decide (feat ∈ names2)) as [H2|H2];
    try (exfalso; apply Hin in H1 || apply Hin in H2; done); [|done].
  rewrite Hval.
  repeat first
    [ apply meq_refl
    | apply same_localNormalizeData
    | apply meq_mdo; [try apply meq_refl|intros ?]
    | match goal with
      | |- context [if ?c then _ else _] => destruct c
      end
    | progress cbv beta zeta ].
Qed.

Lemma same_train_features cnt feats fv :
  meq (train_features (B:=B) names1 values1 cnt feats fv)
      (train_features names2 values2 cnt feats fv).
Proof.
  revert cnt fv. induction feats as [|f feats IH]; intros cnt fv; simpl;
    [done|].
  apply meq_mdo; [apply same_train_feature|intros fv'; apply IH].
Qed.

Lemma same_train_build :
  meq (train_build (B:=B) names1 values1) (train_build names2 values2).
Proof.
  unfold train_build.
  repeat first
    [ apply meq_refl
    | apply same_train_targets
    | apply same_train_features
    | rewrite same_train_featLen
    | apply meq_mdo; [try apply meq_refl|intros ?]
    | match goal with
      | |- context [if ?c then _ else _] => destruct c
      end
    | progress cbv beta zeta ].
Qed.

End SameLookup.

(** **** What the construction of the matrices writes *)

Lemma readonly_train_targets names values targets :
  readonly (train_targets (B:=B) names values targets).
Proof. induction targets as [|t targets IH]; simpl; method_law. Qed.

Lemma writes_mu_only_localNormalizeData values names feat :
  writes_mu_only (_localNormalizeData (B:=B) values names feat).
Proof.
  unfold _localNormalizeData.
  apply writes_mu_only_mdo; [method_law|intros v].
  apply writes_mu_only_mdo; [method_law|intros p].
  intros self. by eexists.
Qed.

Lemma writes_mu_only_train_feature names values cnt feat fv :
  writes_mu_only (train_feature (B:=B) names values cnt feat fv).
Proof.
  pose proof writes_mu_only_localNormalizeData.
  unfold train_feature. method_law.
Qed.

Lemma writes_mu_only_train_features names values cnt feats fv :
  writes_mu_only (train_features (B:=B) names values cnt feats fv).
Proof.
  revert cnt fv. induction feats as [|f feats IH]; intros cnt fv; simpl;
    [method_law|].
  apply writes_mu_only_mdo; [apply writes_mu_only_train_feature|done].
Qed.

Lemma readonly_train_select fv tv : readonly (train_select (B:=B) fv tv).
Proof. unfold train_select. method_law. Qed.

Lemma writes_mu_only_train_build names values :
  writes_mu_only (train_build (B:=B) names values).
Proof.
  pose proof readonly_train_targets. pose proof readonly_train_select.
  pose proof writes_mu_only_train_features.
  unfold train_build. method_law.
Qed.

Lemma writes_mu_only_train_matrices tdict :
  writes_mu_only (train_matrices (B:=B) tdict).
Proof.
  destruct tdict as [d|ty]; simpl; [apply writes_mu_only_train_build|].
  method_law.
Qed.

(** **** Returning and raising through a bind *)

Lemma mdo_inv {A C} (c : M A) (k : A → M C) self self' b :
  mdo c k self = (self', Returns b) →
  ∃ a s1, c self = (s1, Returns a) ∧ k a s1 = (self', Returns b).
Proof. unfold mdo. destruct (c self) as [s1 [a|e]]; [eauto|done]. Qed.

Lemma fails_mdo_l {A C} (c : M A) (k : A → M C) self :
  fails c self → fails (mdo c k) self.
Proof.
  intros [e He]. unfold fails, mdo.
  destruct (c self) as [s1 [a|e']]; simpl in *; [done|eauto].
Qed.

Lemma fails_mdo_r {A C} (c : M A) (k : A → M C) self :
  (∀ a s1, c self = (s1, Returns a) → fails (k a) s1) →
  fails (mdo c k) self.
Proof.
  intros Hk. unfold fails, mdo.
  destruct (c self) as [s1 [a|e]] eqn:Hc; [apply (Hk a s1 eq_refl)|].
  simpl. eauto.
Qed.

Lemma fails_raiseAnError {A} etype msg self :
  fails (raiseAnError (num:=num) (B:=B) (A:=A) etype msg) self.
Proof. by eexists. Qed.

Lemma ensures_mdo {A C} (c : M A) (k : A → M C) (Q : C → Prop) :
  (∀ a, ensures (k a) Q) → ensures (mdo c k) Q.
Proof.
  intros Hk self self' b Hrun.
  apply mdo_inv in Hrun as (a & s1 & _ & Hk'). by eapply Hk.
Qed.

Lemma ensures_raiseAnError {A} etype msg (Q : A → Prop) :
  ensures (raiseAnError (num:=num) (B:=B) etype msg) Q.
Proof. by intros self self' a. Qed.

Lemma ensures_pure {A} (c : outcome A) (Q : A → Prop) :
  (∀ a, c = Returns a → Q a) → ensures (pure (num:=num) (B:=B) c) Q.
Proof. intros Hc self self' a [= _ ->]. by apply Hc. Qed.

(** **** The feature matrix keeps the shape [np.zeros] gave it *)

Lemma setitem_last_shape fv cnt x fv' :
  setitem_last fv cnt x = Returns fv' → shape fv' = shape fv.
Proof.
  unfold setitem_last. destruct (last (shape fv)) as [w|]; [|done].
  case_decide; [done|].
  destruct (broadcast_to x _) as [dat|]; simpl; [|done]. by intros [= <-].
Qed.

Lemma train_feature_shape names values cnt feat fv :
  ensures (train_feature (B:=B) names values cnt feat fv)
          (λ fv', shape fv' = shape fv).
Proof.
  unfold train_feature.
  repeat first
    [ apply ensures_raiseAnError
    | apply ensures_pure; intros ?; apply setitem_last_shape
    | apply ensures_mdo; intros ?
    | match goal with
      | |- context [if ?c then _ else _] => destruct c
      end
    | progress cbv beta zeta ].
Qed.

Lemma train_features_shape names values cnt feats fv :
  ensures (train_features (B:=B) names values cnt feats fv)
          (λ fv', shape fv' = shape fv).
Proof.
  revert cnt fv. induction feats as [|f feats IH]; intros cnt fv self self' fv';
    simpl.
  - by intros [= _ ->].
  - intros Hrun. apply mdo_inv in Hrun as (fv1 & s1 & Hhead & Htail).
    apply train_feature_shape in Hhead. apply IH in Htail. congruence.
Qed.

(** **** A failing feature makes the loop, and then [train], fail *)

Lemma train_features_fails names values feats f dynamicROM sh :
  f ∈ feats →
  (∀ cnt fv self, _dynamicHandling self = dynamicROM → shape fv = sh →
                  fails (train_feature names values cnt f fv) self) →
  ∀ cnt fv self, _dynamicHandling self = dynamicROM → shape fv = sh →
                 fails (train_features names values cnt feats fv) self.
Proof.
  intros Hin Hbody. induction feats as [|g feats IH]; intros cnt fv self Hd Hs.
  - by apply elem_of_nil in Hin.
  - simpl. apply elem_of_cons in Hin as [->|Hin].
    + by apply fails_mdo_l, Hbody.
    + apply fails_mdo_r. intros fv1 s1 Hhead. apply IH; [done| |].
      * pose proof (writes_mu_only_frame _ self
          (writes_mu_only_train_feature names values cnt g fv)) as Hframe.
        rewrite Hhead in Hframe. simpl in Hframe.
        destruct Hframe as (_ & _ & _ & Hdh & _). congruence.
      * apply train_feature_shape in Hhead. congruence.
Qed.

Lemma train_targets_returns names values targets self self' vs :
  train_targets names values targets self = (self', Returns vs) →
  self' = self ∧ for_each (value_at names values) targets = Returns vs.
Proof.
  revert vs. induction targets as [|t targets IH]; intros vs; simpl.
  - by intros [= <- <-].
  - case_decide; [|done]. unfold mdo at 1, pure at 1.
    destruct (value_at names values t) as [v|]; [|done].
    intros Hrun. apply mdo_inv in Hrun as (vs' & s1 & Htail & [= <- <-]).
    apply IH in Htail as [-> ->]. done.
Qed.

Lemma train_targets_missing names values targets t self :
  t ∈ targets → t ∉ names →
  fails (train_targets names values targets) self.
Proof.
  intros Hin Hmiss. induction targets as [|u targets IH].
  - by apply elem_of_nil in Hin.
  - simpl. apply elem_of_cons in Hin as [->|Hin].
    + case_decide; [done|]. apply fails_raiseAnError.
    + case_decide; [|apply fails_raiseAnError].
      apply fails_mdo_r. intros v s1 [= <- _].
      by apply fails_mdo_l, IH.
Qed.

(** If the body of the feature loop fails for one declared feature, on
    every matrix that has the rows of the stacked targets, the construction
    of the matrices fails. *)
Lemma train_build_fails_in_loop names values feats f self :
  features self = Some feats →
  f ∈ feats →
  (∀ cnt fv self',
      _dynamicHandling self' = _dynamicHandling self →
      (∀ rows, target_rows names values self rows → shape0 fv = Returns rows) →
      fails (train_feature names values cnt f fv) self') →
  fails (train_build names values) self.
Proof.
  intros Hfeats Hin Hbody. unfold train_build.
  apply fails_mdo_r. intros targets ? [= <- <-].
  apply fails_mdo_r. intros ts ? [= <- Hts].
  apply fails_mdo_r. intros vs s1 Htargets.
  apply train_targets_returns in Htargets as [-> Hvs].
  apply fails_mdo_r. intros tv ? [= <- Htv].
  apply fails_mdo_r. intros fs ? [= <- <-].
  apply fails_mdo_r. intros dyn ? [= <- _].
  rewrite Hfeats.
  assert (Hrows : ∀ n fv, np_len tv = Returns n → shape0 fv = Returns n →
            ∀ rows, target_rows names values self rows →
                    shape0 fv = Returns rows).
  { intros n fv Hn Hfv rows (ts' & vs' & tv' & Ht' & Hvs' & Htv' & Hrows').
    destruct (target self) as [ts0|]; [|done]. simpl in Hts.
    injection Hts as ->. injection Ht' as ->.
    rewrite Hvs in Hvs'. injection Hvs' as <-.
    rewrite Htv in Htv'. injection Htv' as <-. congruence. }
  apply fails_mdo_r. intros fv0 s1 Hfv0.
  assert (s1 = self ∧ ∃ n sh, np_len tv = Returns n ∧ shape fv0 = n :: sh)
    as (-> & n & sh & Hn & Hshape).
  { destruct dyn.
    - apply mdo_inv in Hfv0 as (fl0 & ? & [= <- _] & Hfv0).
      apply mdo_inv in Hfv0 as (featLen & ? & [= <- _] & Hfv0).
      apply mdo_inv in Hfv0 as (n & ? & [= <- Hn] & Hfv0).
      apply mdo_inv in Hfv0 as (k & ? & [= <- _] & [= <- <-]).
      split; [done|]. by exists n, [featLen; k].
    - apply mdo_inv in Hfv0 as (n & ? & [= <- Hn] & Hfv0).
      apply mdo_inv in Hfv0 as (k & ? & [= <- _] & [= <- <-]).
      split; [done|]. by exists n, [k]. }
  apply fails_mdo_r. intros fl ? [= <- <-].
  apply fails_mdo_l.
  apply (train_features_fails names values feats f (_dynamicHandling self)
           (n :: sh)); [done| |done|done].
  intros cnt fv self' Hd Hs. apply Hbody; [done|].
  apply (Hrows n); [done|]. unfold shape0. by rewrite Hs.
Qed.

Lemma train_matrices_fails_on_bad_input tdict self :
  train_failure self tdict → fails (train_matrices tdict) self.
Proof.
  intros [ ty
         | d ts t Ht Hin Hmiss
         | d fs f Hf Hin Hmiss
         | d fs f v Hf Hin Hv Hbad
         | d fs f v a n rows Hf Hin Hv Ha Hn Hrows Hne ]; simpl.
  - apply fails_raiseAnError.
  - unfold train_build.
    apply fails_mdo_r; intros ? ? [= <- <-]. rewrite Ht.
    apply fails_mdo_r; intros ? ? [= <- <-].
    apply fails_mdo_l. by eapply train_targets_missing.
  - eapply train_build_fails_in_loop; [done|done|].
    intros cnt fv self' _ _. unfold train_feature.
    case_decide; [done|]. apply fails_raiseAnError.
  - eapply train_build_fails_in_loop; [done|done|].
    intros cnt fv self' Hd _. unfold train_feature.
    case_decide; [|apply fails_raiseAnError]. rewrite Hv.
    apply fails_mdo_r; intros ? ? [= <- <-].
    apply fails_mdo_r; intros ? ? [= <- <-].
    cbv zeta. rewrite Hd, Hbad. apply fails_raiseAnError.
  - eapply train_build_fails_in_loop; [done|done|].
    intros cnt fv self' Hd Hshape. unfold train_feature.
    case_decide; [|apply fails_raiseAnError]. rewrite Hv.
    apply fails_mdo_r; intros ? ? [= <- <-].
    apply fails_mdo_r; intros ? ? [= <- <-].
    cbv zeta. destruct (negb _); [apply fails_raiseAnError|].
    rewrite Ha. apply fails_mdo_r; intros ? ? [= <- <-].
    rewrite Hn. apply fails_mdo_r; intros ? ? [= <- <-].
    rewrite (Hshape rows Hrows). apply fails_mdo_r; intros ? ? [= <- <-].
    case_decide; [apply fails_raiseAnError|done].
Qed.

(** C3: when [train] is given something that is no dictionary, or a
    dictionary that lacks a declared target or feature, or binds a declared
    feature to a value the array check refuses or to a number of values
    that is not the number of target rows, the call raises, no hook has been
    called, the backend state is the one before the call, and [amITrained]
    has kept its value. *)
Theorem train_failure_leaves_backend_untouched tdict self :
  train_failure self tdict →
  ∃ e self',
    train tdict self = (self', Raises e)
    ∧ hookCalls self' = hookCalls self
    ∧ backend self' = backend self
    ∧ amITrained self' = amITrained self.
Proof.
  intros Hbad. apply train_matrices_fails_on_bad_input in Hbad as [e He].
  pose proof (writes_mu_only_frame _ self (writes_mu_only_train_matrices tdict))
    as (Hcalls & Hbackend & Htrained & _).
  destruct (train_matrices tdict self) as [s1 r] eqn:Hrun. simpl in *. subst r.
  exists e, s1. split; [|done].
  unfold train. by rewrite (mdo_raises _ _ _ _ _ Hrun).
Qed.

(** **** The feature loop, one part of the declared list after another *)

Lemma train_features_app names values cnt pre post fv :
  meq (train_features (B:=B) names values cnt (pre ++ post) fv)
      (mdo (train_features names values cnt pre fv)
           (λ fv', train_features names values (cnt + length pre) post fv')).
Proof.
  revert cnt fv. induction pre as [|f pre IH]; intros cnt fv self; simpl.
  - by rewrite Nat.add_0_r.
  - unfold mdo.
    destruct (train_feature names values cnt f fv self) as [s1 [fv1|e]];
      [|done].
    rewrite IH. unfold mdo. by rewrite Nat.add_succ_comm.
Qed.

(** C6, as amended: in static mode, on a dictionary that lacks the declared
    feature [feat], once the targets have been resolved and stacked and the
    features declared before [feat] have gone through the loop, [train]
    raises the data error "The feature sought [feat] is not in the training
    set", and no hook has been called. *)
Theorem train_names_missing_feature d self targets pre feat post vs tv n
    self1 fv1 :
  dynamicFeatures self = false →
  target self = Some targets →
  features self = Some (pre ++ feat :: post) →
  feat ∉ d.*1 →
  (train_targets d.*1 d.*2 targets self).2 = Returns vs →
  np_stack vs = Returns tv →
  np_len tv = Returns n →
  train_features d.*1 d.*2 0 pre
    (np_zeros [n; length (pre ++ feat :: post)]) self = (self1, Returns fv1) →
  train (Mapping d) self
  = (self1, Raises (IOError ("The feature sought " +:+ feat
                             +:+ " is not in the training set")))
  ∧ hookCalls self1 = hookCalls self.
Proof.
  intros Hdyn Htarget Hfeats Hmiss Hvs Htv Hn Hpre.
  assert (Htargets : train_targets d.*1 d.*2 targets self = (self, Returns vs)).
  { pose proof (readonly_train_targets d.*1 d.*2 targets self) as Hro.
    destruct (train_targets _ _ _ _) as [s r]. simpl in *. by subst. }
  assert (Hloop : train_features d.*1 d.*2 0 (pre ++ feat :: post)
                    (np_zeros [n; length (pre ++ feat :: post)]) self
                  = (self1, Raises (IOError ("The feature sought " +:+ feat
                             +:+ " is not in the training set")))).
  { rewrite train_features_app. rewrite (mdo_returns _ _ _ _ _ Hpre).
    simpl. unfold mdo, train_feature. by case_decide. }
  split.
  - unfold train. apply mdo_raises. simpl. unfold train_build.
    rewrite (mdo_returns _ _ self self (target self) eq_refl). rewrite Htarget.
    rewrite (mdo_returns _ _ self self targets eq_refl).
    rewrite (mdo_returns _ _ _ _ _ Htargets).
    rewrite Htv. rewrite (mdo_returns _ _ self self tv eq_refl).
    rewrite (mdo_returns _ _ self self (features self) eq_refl).
    rewrite (mdo_returns _ _ self self (dynamicFeatures self) eq_refl).
    rewrite Hdyn, Hfeats, Hn.
    rewrite (mdo_returns _ _ self self
               (np_zeros [n; length (pre ++ feat :: post)]) eq_refl).
    rewrite (mdo_returns _ _ self self (pre ++ feat :: post) eq_refl).
    by apply mdo_raises.
  - pose proof (writes_mu_only_frame _ self
      (writes_mu_only_train_features d.*1 d.*2 0 (pre ++ feat :: post)
         (np_zeros [n; length (pre ++ feat :: post)]))) as (Hcalls & _).
    by rewrite Hloop in Hcalls.
Qed.

(** **** The time axis in dynamic mode *)

Lemma train_featLen_cons names values g feats acc :
  train_featLen names values (g :: feats) acc
  = obind (first_length names values g)
          (λ n, train_featLen names values feats (Nat.max n acc)).
Proof.
  simpl. unfold first_length.
  destruct (value_at names values g) as [v|]; simpl; [|done].
  by destruct (py_item0 v).
Qed.

Lemma train_featLen_spec names values feats acc L :
  train_featLen names values feats acc = Returns L →
  acc ≤ L
  ∧ (∀ f, f ∈ feats → ∃ n, first_length names values f = Returns n ∧ n ≤ L)
  ∧ (L = acc ∨ ∃ f, f ∈ feats ∧ first_length names values f = Returns L).
Proof.
  revert acc. induction feats as [|g feats IH]; intros acc.
  - intros [= ->]. split; [done|]. split; [|by left].
    intros f Hin. by apply elem_of_nil in Hin.
  - rewrite train_featLen_cons.
    destruct (first_length names values g) as [n|] eqn:Hg; simpl; [|done].
    intros Hrest. apply IH in Hrest as (Hle & Hall & Hmax).
    split; [lia|]. split.
    + intros f [->|Hin]%elem_of_cons.
      * exists n. split; [done|lia].
      * by apply Hall.
    + destruct Hmax as [->|(f & Hin & Hf)].
      * destruct (Nat.max_spec n acc) as [[_ ->]|[_ ->]]; [by left|].
        right. exists g. split; [by left|done].
      * right. exists f. split; [by right|done].
Qed.

Lemma mask_axis_time fv support fv' n L k :
  shape fv = [n; L; k] →
  mask_axis 2 fv support = Returns fv' →
  shape fv' !! 1 = Some L.
Proof.
  unfold mask_axis. intros ->. simpl. case_decide; [|done].
  by intros [= <-].
Qed.

Lemma train_build_dynamic_shape names values feats self self' fv tv :
  dynamicFeatures self = true →
  features self = Some feats →
  train_build names values self = (self', Returns (fv, tv)) →
  ∃ L, train_featLen names values feats 0 = Returns L ∧ shape fv !! 1 = Some L.
Proof.
  intros Hdyn Hfeats Hrun. unfold train_build in Hrun.
  apply mdo_inv in Hrun as (? & ? & [= <- <-] & Hrun).
  apply mdo_inv in Hrun as (ts & ? & [= <- _] & Hrun).
  apply mdo_inv in Hrun as (vs & s1 & Htargets & Hrun).
  apply train_targets_returns in Htargets as [-> _].
  apply mdo_inv in Hrun as (tv0 & ? & [= <- _] & Hrun).
  apply mdo_inv in Hrun as (? & ? & [= <- <-] & Hrun).
  apply mdo_inv in Hrun as (? & ? & [= <- <-] & Hrun).
  rewrite Hdyn, Hfeats in Hrun.
  apply mdo_inv in Hrun as (fv0 & s1 & Hfv0 & Hrun).
  apply mdo_inv in Hfv0 as (? & ? & [= <- <-] & Hfv0).
  apply mdo_inv in Hfv0 as (L & ? & [= <- HL] & Hfv0).
  apply mdo_inv in Hfv0 as (n & ? & [= <- _] & Hfv0).
  apply mdo_inv in Hfv0 as (k & ? & [= <- _] & [= <- <-]).
  apply mdo_inv in Hrun as (? & ? & [= <- <-] & Hrun).
  apply mdo_inv in Hrun as (fv1 & s1 & Hloop & Hrun).
  pose proof (writes_mu_only_frame _ self
    (writes_mu_only_train_features names values 0 feats (np_zeros [n; L; k])))
    as (_ & _ & _ & _ & Hdyn1 & _).
  rewrite Hloop in Hdyn1. simpl in Hdyn1.
  apply train_features_shape in Hloop. simpl in Hloop.
  apply mdo_inv in Hrun as (fv2 & s2 & Hsel & [= _ <- _]).
  exists L. split; [done|].
  unfold train_select in Hsel.
  apply mdo_inv in Hsel as (algo & ? & [= <- _] & Hsel).
  case_decide.
  - apply mdo_inv in Hsel as (nsel & s3 & Hnsel & Hsel).
    pose proof (readonly_assigned nFeaturesToSelect "nFeaturesToSelect" s1) as R1.
    rewrite Hnsel in R1. simpl in R1. subst s3.
    apply mdo_inv in Hsel as (stp & s3 & Hstp & Hsel).
    pose proof (readonly_assigned step "step" s1) as R2.
    rewrite Hstp in R2. simpl in R2. subst s3.
    apply mdo_inv in Hsel as (sel & ? & [= <- _] & Hsel).
    apply mdo_inv in Hsel as (? & ? & [= <- <-] & Hsel).
    rewrite Hdyn1, Hdyn in Hsel. injection Hsel as _ Hmask.
    by eapply mask_axis_time.
  - injection Hsel as _ <-. by rewrite Hloop.
Qed.

(** **** Realizations of differing lengths *)

Lemma np_asarray_list (items : list (pyval num)) :
  np_asarray (PyList items) = obind (for_each np_asarray items) pack.
Proof. done. Qed.

Lemma for_each_elem {A C} (f : A → outcome C) l ys x y :
  for_each f l = Returns ys → x ∈ l → f x = Returns y → y ∈ ys.
Proof.
  revert ys. induction l as [|a l IH]; intros ys Hrun Hin Hx.
  - by apply elem_of_nil in Hin.
  - simpl in Hrun. destruct (f a) as [b|] eqn:Ha; [|done]. simpl in Hrun.
    destruct (for_each f l) as [bs|]; [|done]. simpl in Hrun.
    injection Hrun as <-. apply elem_of_cons in Hin as [->|Hin].
    + rewrite Hx in Ha. injection Ha as ->. by left.
    + right. by apply IH.
Qed.

Lemma pack_same_shape (rows : list (ndarray num)) r a b :
  pack rows = Returns r → a ∈ rows → b ∈ rows → shape a = shape b.
Proof.
  unfold pack. destruct rows as [|r0 rows]; [by intros _ ?%elem_of_nil|].
  destruct (forallb _ _) eqn:Hall; [|done]. intros _ Ha Hb.
  rewrite forallb_forall in Hall.
  apply list_elem_of_In, Hall, bool_decide_eq_true in Ha.
  apply list_elem_of_In, Hall, bool_decide_eq_true in Hb. congruence.
Qed.

Lemma np_asarray_ragged (items : list (pyval num)) a b :
  PyArray a ∈ items → PyArray b ∈ items → shape a ≠ shape b →
  ∃ e, np_asarray (PyList items) = Raises e.
Proof.
  intros Ha Hb Hne. rewrite np_asarray_list.
  destruct (for_each np_asarray items) as [rows|e] eqn:Hrows; simpl; [|eauto].
  destruct (pack rows) as [r|e] eqn:Hpack; [|eauto].
  exfalso. apply Hne. apply (pack_same_shape rows r); [done| |].
  - by apply (for_each_elem _ _ _ _ _ Hrows Ha).
  - by apply (for_each_elem _ _ _ _ _ Hrows Hb).
Qed.

(** C1, as amended: in dynamic mode the time axis of the feature matrix is
    the largest, over the declared features, of the length of each
    feature's first realization; and nothing is padded: a declared feature
    whose realizations differ in length makes [train] raise before any hook
    is called. *)
Theorem train_dynamic_time_axis d self feats :
  dynamicFeatures self = true →
  features self = Some feats →
  (∀ self' fv tv,
      train_matrices (Mapping d) self = (self', Returns (fv, tv)) →
      ∃ featLen,
        shape fv !! 1 = Some featLen
        ∧ (∀ f, f ∈ feats →
                ∃ n, first_length d.*1 d.*2 f = Returns n ∧ n ≤ featLen)
        ∧ (feats ≠ [] →
           ∃ f, f ∈ feats ∧ first_length d.*1 d.*2 f = Returns featLen))
  ∧ (∀ f items a b,
      f ∈ feats →
      value_at d.*1 d.*2 f = Returns (PyList items) →
      PyArray a ∈ items → PyArray b ∈ items → shape a ≠ shape b →
      ∃ e self',
        train (Mapping d) self = (self', Raises e)
        ∧ hookCalls self' = hookCalls self).
Proof.
  intros Hdyn Hfeats. split.
  - intros self' fv tv Hrun. simpl in Hrun.
    destruct (train_build_dynamic_shape _ _ _ _ _ _ _ Hdyn Hfeats Hrun)
      as (L & HL & Hshape).
    apply train_featLen_spec in HL as (_ & Hall & Hmax).
    exists L. split; [done|]. split; [done|].
    intros Hne. destruct Hmax as [->|Hmax]; [|done].
    destruct feats as [|f feats']; [done|].
    destruct (Hall f (ltac:(by left))) as (n & Hn & Hle).
    exists f. split; [by left|]. by replace 0 with n by lia.
  - intros f items a b Hin Hv Ha Hb Hne.
    assert (Hfails : fails (train_matrices (Mapping d)) self).
    { simpl. eapply train_build_fails_in_loop; [done|done|].
      intros cnt fv self' _ _. unfold train_feature.
      case_decide; [|apply fails_raiseAnError]. rewrite Hv.
      apply fails_mdo_r; intros ? ? [= <- <-].
      apply fails_mdo_r; intros ? ? [= <- <-].
      cbv zeta. destruct (negb _); [apply fails_raiseAnError|].
      destruct (np_asarray_ragged items a b Ha Hb Hne) as [e ->].
      apply fails_mdo_l. by exists e. }
    destruct Hfails as [e He].
    pose proof (writes_mu_only_frame _ self
      (writes_mu_only_train_matrices (Mapping d))) as (Hcalls & _).
    destruct (train_matrices (Mapping d) self) as [s1 r] eqn:Hrun.
    simpl in He, Hcalls. subst r. exists e, s1. split; [|done].
    unfold train. by rewrite (mdo_raises _ _ _ _ _ Hrun).
Qed.

(** C7: two training dictionaries with the same bindings, listed in
    different orders, give [train] the same feature matrix and the same
    stacked target matrix; the whole call then ends in the same state with
    the same outcome. *)
Theorem train_key_order_invariant d1 d2 self :
  dict_wf d1 →
  d1 ≡ₚ d2 →
  train_matrices (Mapping d1) self = train_matrices (Mapping d2) self
  ∧ train (Mapping d1) self = train (Mapping d2) self.
Proof.
  intros Hwf Hperm.
  pose proof (same_train_build _ _ _ _ (same_lookup_permutation d1 d2 Hwf Hperm))
    as Hbuild.
  split; [apply Hbuild|].
  unfold train. apply meq_mdo; [apply Hbuild|done].
Qed.

End Training.

(** *** Entries of the matrices *)

Section ArrayLaws.
Context {num : Type} `{!Numeric num}.
Implicit Types d src : list num.
Implicit Types fv : ndarray num.

Lemma length_set_column w cnt d src :
  length (set_column w cnt d src) = length d.
Proof.
  revert d. induction src as [|x src IH]; intros d; simpl; [done|].
  rewrite length_app, length_insert, IH, length_take, length_drop. lia.
Qed.

Lemma set_column_nil w cnt src : set_column w cnt [] src = [].
Proof. apply nil_length_inv. by rewrite length_set_column. Qed.

Lemma length_take_block w n d : length d = S n * w → length (take w d) = w.
Proof. intros Hlen. rewrite length_take. lia. Qed.

Lemma length_drop_block w n d : length d = S n * w → length (drop w d) = n * w.
Proof. intros Hlen. rewrite length_drop. lia. Qed.

(** An assignment to column [cnt] leaves the other columns as they are. *)
Lemma set_column_other w cnt d src n r j :
  length d = n * w → j < w → j ≠ cnt →
  set_column w cnt d src !! (r * w + j) = d !! (r * w + j).
Proof.
  revert d n r. induction src as [|x src IH]; intros d n r Hlen Hj Hne; simpl;
    [done|].
  destruct n as [|n].
  { apply nil_length_inv in Hlen. subst d.
    by rewrite take_nil, drop_nil, set_column_nil. }
  pose proof (length_take_block w n d Hlen) as Htake.
  destruct r as [|r]; simpl.
  - rewrite lookup_app_l by (rewrite length_insert; lia).
    rewrite list_lookup_insert_ne by done. by apply lookup_take_lt.
  - rewrite lookup_app_r by (rewrite length_insert; lia).
    rewrite length_insert, Htake.
    replace (w + r * w + j - w) with (r * w + j) by lia.
    rewrite (IH (drop w d) n r); [|by apply length_drop_block|done|done].
    rewrite lookup_drop. f_equal. lia.
Qed.

(** An assignment to column [cnt] puts entry [r] of the source in row [r]. *)
Lemma set_column_written w cnt d src n r :
  length d = n * w → cnt < w → r < n →
  set_column w cnt d src !! (r * w + cnt)
  = match src !! r with
    | Some x => Some x
    | None => d !! (r * w + cnt)
    end.
Proof.
  revert d n r. induction src as [|x src IH]; intros d n r Hlen Hc Hr; simpl;
    [done|].
  destruct n as [|n]; [lia|].
  pose proof (length_take_block w n d Hlen) as Htake.
  destruct r as [|r]; simpl.
  - rewrite lookup_app_l by (rewrite length_insert; lia).
    apply list_lookup_insert_eq. lia.
  - rewrite lookup_app_r by (rewrite length_insert; lia).
    rewrite length_insert, Htake.
    replace (w + r * w + cnt - w) with (r * w + cnt) by lia.
    rewrite (IH (drop w d) n r); [|by apply length_drop_block|done|lia].
    destruct (src !! r); [done|]. rewrite lookup_drop. f_equal. lia.
Qed.

Lemma concat_chunks {A} (k n : nat) (l : list A) :
  length l = n * k → concat (chunks k n l) = l.
Proof.
  revert l. induction n as [|n IH]; intros l Hlen; simpl.
  - symmetry. by apply nil_length_inv.
  - rewrite IH by (rewrite length_drop; lia). apply take_drop.
Qed.

Lemma chunks_lengths {A} (k n : nat) (l : list A) :
  length l = n * k → Forall (λ c, length c = k) (chunks k n l).
Proof.
  revert l. induction n as [|n IH]; intros l Hlen; simpl; constructor.
  - rewrite length_take. lia.
  - apply IH. rewrite length_drop. lia.
Qed.

Lemma mapM_id_on {A} (f : A → option A) (l : list A) :
  Forall (λ x, f x = Some x) l → mapM f l = Some l.
Proof.
  intros Hall. apply mapM_Some_2. by apply Forall_Forall2_diag.
Qed.

(** Nothing is replicated when the source already has the shape asked for. *)
Lemma broadcast_same (s : list nat) d :
  length d = prodn s → broadcast s s d = Some d.
Proof.
  revert d. induction s as [|n s IH]; intros d Hlen; simpl; [done|].
  case_decide; [|done]. simpl in Hlen.
  rewrite (mapM_id_on _ (chunks (prodn s) n d)).
  - simpl. by rewrite concat_chunks.
  - eapply Forall_impl; [by apply chunks_lengths|]. intros c Hc. by apply IH.
Qed.

Lemma broadcast_to_same (src : ndarray num) :
  length (data src) = prodn (shape src) →
  broadcast_to src (shape src) = Returns (data src).
Proof.
  intros Hlen. unfold broadcast_to, ndim.
  rewrite Nat.sub_diag. simpl. rewrite Nat.sub_diag. simpl.
  by rewrite broadcast_same.
Qed.

(** [fv[..., cnt] = src] when [src] has the shape of the region. *)
Lemma setitem_last_same fv cnt (src : ndarray num) init w :
  shape fv = init ++ [w] → cnt < w →
  shape src = init → length (data src) = prodn init →
  setitem_last fv cnt src
  = Returns (mkArr (shape fv) (set_column w cnt (data fv) (data src))).
Proof.
  intros Hshape Hc Hsrc Hlen. unfold setitem_last.
  rewrite Hshape, last_snoc. case_decide; [lia|].
  rewrite removelast_last, <- Hsrc, broadcast_to_same; [done|congruence].
Qed.

(** Whatever is assigned to column [cnt], the other columns and the number
    of entries stay. *)
Lemma setitem_last_frame fv cnt (src : ndarray num) fv' init w n :
  setitem_last fv cnt src = Returns fv' →
  shape fv = init ++ [w] → length (data fv) = n * w →
  length (data fv') = n * w
  ∧ ∀ r j, j < w → j ≠ cnt → data fv' !! (r * w + j) = data fv !! (r * w + j).
Proof.
  unfold setitem_last. intros Hset Hshape Hlen.
  rewrite Hshape, last_snoc in Hset. case_decide; [done|].
  destruct (broadcast_to src _) as [dat|]; simpl in Hset; [|done].
  injection Hset as <-. simpl. split.
  - by rewrite length_set_column.
  - intros r j Hj Hne. by apply (set_column_other w cnt _ dat n).
Qed.

Lemma lookup_flat_map_blocks {A C} (f : A → list C) (l : list A) k i j :
  (∀ x, length (f x) = k) → j < k →
  flat_map f l !! (i * k + j) = l !! i ≫= (λ x, f x !! j).
Proof.
  intros Hk Hj. revert i. induction l as [|x l IH]; intros i; simpl; [done|].
  destruct i as [|i]; simpl.
  - rewrite lookup_app_l by (rewrite Hk; lia). done.
  - rewrite lookup_app_r by (rewrite Hk; lia). rewrite Hk.
    replace (k + i * k + j - k) with (i * k + j) by lia. apply IH.
Qed.

(** Entry [(i, j)] of [np.stack(arrays, axis=-1)] for one-dimensional
    arrays. *)
Lemma np_stack_last_entry (arrays : list (ndarray num)) (a tv : ndarray num) n i j :
  np_stack_last arrays = Returns tv →
  arrays !! j = Some a → shape a = [n] → i < n →
  shape tv = [n; length arrays]
  ∧ data tv !! (i * length arrays + j) = Some (default nzero (data a !! i)).
Proof.
  unfold np_stack_last. intros Hstack Hj Hshape Hi.
  destruct arrays as [|a0 arrays']; [done|].
  destruct (forallb _ _) eqn:Hall; [|done]. injection Hstack as <-.
  rewrite forallb_forall in Hall.
  assert (Ha0 : shape a0 = [n]).
  { apply list_elem_of_lookup_2, list_elem_of_In, Hall, bool_decide_eq_true in Hj.
    congruence. }
  simpl shape. rewrite Ha0. split; [done|].
  simpl data. unfold asize. rewrite Ha0. simpl prodn. rewrite Nat.mul_1_r.
  rewrite (lookup_flat_map_blocks _ _ (length (a0 :: arrays'))).
  - rewrite lookup_seq_lt by done.
    change (((λ a' : ndarray num, default nzero (data a' !! i))
               <$> (a0 :: arrays')) !! j
            = Some (default nzero (data a !! i))).
    by rewrite list_lookup_fmap, Hj.
  - intros x. exact (length_fmap _ (a0 :: arrays')).
  - by apply lookup_lt_Some in Hj.
Qed.

Lemma lookup_concat_blocks {A} (l : list (list A)) k i t row :
  Forall (λ r, length r = k) l → l !! i = Some row → t < k →
  concat l !! (i * k + t) = row !! t.
Proof.
  revert i. induction l as [|a l IH]; intros i Hall Hi Ht; [done|].
  apply Forall_cons in Hall as [Ha Hall]. destruct i as [|i]; simpl in *.
  - injection Hi as ->. by rewrite lookup_app_l by lia.
  - rewrite lookup_app_r by lia. rewrite Ha.
    replace (k + i * k + t - k) with (i * k + t) by lia. by apply IH.
Qed.

Lemma length_concat_blocks {A} (l : list (list A)) k :
  Forall (λ r, length r = k) l → length (concat l) = length l * k.
Proof.
  induction 1 as [|a l Ha _ IH]; simpl; [done|]. rewrite length_app. lia.
Qed.

Lemma for_each_np_asarray_arrays (arrays : list (ndarray num)) :
  for_each np_asarray (PyArray <$> arrays) = Returns arrays.
Proof.
  induction arrays as [|a arrays IH]; [done|].
  rewrite fmap_cons. simpl. by rewrite IH.
Qed.

(** [np.asarray] of a list of one-dimensional arrays of [L] entries each:
    one row per array. *)
Lemma np_asarray_rows (hist : list (list num)) L :
  hist ≠ [] →
  np_asarray (PyList ((λ r, PyArray (mkArr [L] r)) <$> hist))
  = Returns (mkArr [length hist; L] (concat hist)).
Proof.
  intros Hne.
  change (obind (for_each np_asarray ((λ r, PyArray (mkArr [L] r)) <$> hist))
            pack = Returns (mkArr [length hist; L] (concat hist))).
  replace ((λ r, PyArray (mkArr [L] r)) <$> hist)
    with (PyArray <$> (mkArr (num:=num) [L] <$> hist))
    by (by rewrite <- list_fmap_compose).
  rewrite for_each_np_asarray_arrays.
  simpl. unfold pack.
  destruct hist as [|r0 hist]; [done|]. rewrite fmap_cons.
  assert (Hall : forallb (λ r' : ndarray num, bool_decide (shape r' = [L]))
                   (mkArr [L] r0 :: (mkArr [L] <$> hist)) = true).
  { apply forallb_forall. intros x Hx.
    change (In x (mkArr [L] <$> (r0 :: hist))) in Hx.
    apply list_elem_of_In, list_elem_of_fmap in Hx as (r & -> & _).
    by apply bool_decide_eq_true. }
  simpl shape. rewrite Hall. do 2 f_equal.
  - simpl. by rewrite length_fmap.
  - change (concat (data <$> (mkArr [L] <$> (r0 :: hist)))
            = concat (r0 :: hist)).
    f_equal. rewrite <- list_fmap_compose. apply list_fmap_id.
Qed.

End ArrayLaws.

(** *** What a run of train builds and records *)

Section TrainingResults.
Context {num B : Type}.
Context `{!Numeric num, !MathUtils num, !FeatureSelection num, !Backend num B}.
Implicit Types self : @SupervisedLearning num B.
Implicit Types tdict : pyinput num.
Implicit Types d : pydict num.
Implicit Types names : list string.
Implicit Types values : list (pyval num).
Implicit Types fv tv : ndarray num.
#[local] Abbreviation M := (@method num B).

(** One successful turn of the feature loop, taken apart. *)
Lemma train_feature_inv names values cnt feat fv self self' fv' :
  train_feature names values cnt feat fv self = (self', Returns fv') →
  ∃ v a p x n,
    feat ∈ names
    ∧ value_at names values feat = Returns v
    ∧ (checkArrayConsistency v (_dynamicHandling self)).1 = true
    ∧ np_asarray v = Returns a
    ∧ np_len a = Returns n ∧ shape0 fv = Returns n
    ∧ normalizationFactors v = Returns p
    ∧ self' = set_muAndSigmaFeatures
                (<[feat := p]> (muAndSigmaFeatures self)) self
    ∧ (if dynamicFeatures self then slice_all2 a
       else if decide (1 < ndim a) then slice_col0 a else slice_all1 a)
      = Returns x
    ∧ setitem_last fv cnt (normalized x p.1 p.2) = Returns fv'.
Proof.
  unfold train_feature. case_decide as Hin; [|done].
  unfold _localNormalizeData, mu_sigma, isDynamic, attr, raiseAnError, mdo, pure.
  destruct (value_at names values feat) as [v|] eqn:Hv; [|done]. simpl.
  destruct (checkArrayConsistency v (_dynamicHandling self)).1 eqn:Hcheck;
    simpl; [|done].
  destruct (np_asarray v) as [a|] eqn:Ha; [|done].
  destruct (np_len a) as [n|] eqn:Hn; [|done].
  destruct (shape0 fv) as [rows|] eqn:Hrows; [|done].
  case_decide as Hne; [done|].
  assert (n = rows) as -> by (destruct (decide (n = rows)); [done|by elim Hne]).
  destruct (normalizationFactors v) as [p|] eqn:Hp; [|done]. simpl.
  destruct (dynamicFeatures self) eqn:Hdyn.
  - destruct (slice_all2 a) as [x|] eqn:Hx; [|done].
    simpl. rewrite lookup_insert_eq.
    destruct (setitem_last fv cnt _) as [fv1|] eqn:Hset; [|done].
    intros [= <- <-]. by exists v, a, p, x, rows.
  - destruct (if decide (1 < ndim a) then slice_col0 a else slice_all1 a)
      as [x|] eqn:Hx; [|done].
    simpl. rewrite lookup_insert_eq.
    destruct (setitem_last fv cnt _) as [fv1|] eqn:Hset; [|done].
    intros [= <- <-]. by exists v, a, p, x, rows.
Qed.

(** Whatever its outcome, one turn of the loop leaves the instance alone or
    records the pair fitted on the feature's value. *)
Lemma train_feature_state names values cnt feat fv self :
  (train_feature names values cnt feat fv self).1 = self
  ∨ ∃ v p, value_at names values feat = Returns v
           ∧ normalizationFactors v = Returns p
           ∧ (train_feature names values cnt feat fv self).1
             = set_muAndSigmaFeatures
                 (<[feat := p]> (muAndSigmaFeatures self)) self.
Proof.
  unfold train_feature. case_decide as Hin; [|by left].
  unfold _localNormalizeData, mu_sigma, isDynamic, attr, raiseAnError, mdo, pure.
  destruct (value_at names values feat) as [v|] eqn:Hv; [|by left]. simpl.
  destruct (checkArrayConsistency v (_dynamicHandling self)).1; simpl;
    [|by left].
  destruct (np_asarray v) as [a|]; [|by left].
  destruct (np_len a) as [n|]; [|by left].
  destruct (shape0 fv) as [rows|]; [|by left].
  case_decide; [by left|].
  destruct (normalizationFactors v) as [p|] eqn:Hp; [|by left].
  simpl. right. exists v, p.
  split; [done|]. split; [done|].
  destruct (dynamicFeatures self).
  - destruct (slice_all2 a); [|done].
    simpl. rewrite lookup_insert_eq. by destruct (setitem_last fv cnt _).
  - destruct (if decide (1 < ndim a) then slice_col0 a else slice_all1 a);
      [|done].
    simpl. rewrite lookup_insert_eq. by destruct (setitem_last fv cnt _).
Qed.

Lemma train_features_other_names names values cnt feats fv self g :
  g ∉ feats →
  muAndSigmaFeatures (train_features names values cnt feats fv self).1 !! g
  = muAndSigmaFeatures self !! g.
Proof.
  revert cnt fv self. induction feats as [|f feats IH]; intros cnt fv self Hg;
    [done|].
  apply not_elem_of_cons in Hg as [Hne Hg]. simpl. unfold mdo.
  assert (Hhead : muAndSigmaFeatures
                    (train_feature names values cnt f fv self).1 !! g
                  = muAndSigmaFeatures self !! g).
  { destruct (train_feature_state names values cnt f fv self)
      as [->|(v & p & _ & _ & ->)]; [done|].
    simpl. by rewrite lookup_insert_ne. }
  destruct (train_feature names values cnt f fv self) as [s1 [fv1|e]];
    simpl in *; [|done].
  by rewrite IH.
Qed.

Lemma fitted_insert names values mu f g v p :
  value_at names values g = Returns v →
  normalizationFactors v = Returns p →
  fitted names values mu f ∨ f = g →
  fitted names values (<[g := p]> mu) f.
Proof.
  intros Hv Hp Hf. destruct (decide (f = g)) as [->|Hne].
  - exists v, p. by rewrite lookup_insert_eq.
  - destruct Hf as [(v' & p' & ? & ? & ?)|]; [|done].
    exists v', p'. by rewrite lookup_insert_ne.
Qed.

Lemma train_features_fitted names values cnt feats fv self self' fv' f :
  train_features names values cnt feats fv self = (self', Returns fv') →
  fitted names values (muAndSigmaFeatures self) f ∨ f ∈ feats →
  fitted names values (muAndSigmaFeatures self') f.
Proof.
  revert cnt fv self. induction feats as [|g feats IH]; intros cnt fv self; simpl.
  - intros [= <- _] [Hf|Hin]; [done|by apply elem_of_nil in Hin].
  - intros Hrun Hf. apply mdo_inv in Hrun as (fv1 & s1 & Hhead & Htail).
    apply train_feature_inv in Hhead
      as (v & a & p & x & n & _ & Hv & _ & _ & _ & _ & Hp & -> & _).
    apply (IH _ _ _ Htail). rewrite elem_of_cons in Hf.
    destruct (decide (f ∈ feats)); [by right|]. left. simpl.
    apply (fitted_insert _ _ _ _ _ v p Hv Hp).
    destruct Hf as [Hf|[Hf|Hf]]; [by left|by right|done].
Qed.

(** The loop keeps the number of entries, and the columns before [cnt]. *)
Lemma train_features_blocks names values cnt feats fv self self' fv' init k n :
  train_features names values cnt feats fv self = (self', Returns fv') →
  shape fv = init ++ [k] → length (data fv) = n * k →
  shape fv' = init ++ [k] ∧ length (data fv') = n * k
  ∧ ∀ r j, j < cnt → j < k → data fv' !! (r * k + j) = data fv !! (r * k + j).
Proof.
  revert cnt fv self. induction feats as [|g feats IH]; intros cnt fv self; simpl.
  - by intros [= _ <-].
  - intros Hrun Hshape Hlen.
    apply mdo_inv in Hrun as (fv1 & s1 & Hhead & Htail).
    apply train_feature_inv in Hhead
      as (v & a & p & x & m & _ & _ & _ & _ & _ & _ & _ & _ & _ & Hset).
    pose proof (setitem_last_shape _ _ _ _ Hset) as Hshape1.
    destruct (setitem_last_frame fv cnt _ fv1 init k n Hset Hshape Hlen)
      as [Hlen1 Hother].
    rewrite Hshape in Hshape1.
    destruct (IH _ _ _ Htail Hshape1 Hlen1) as (Hs & Hl & Hcols).
    split; [done|]. split; [done|].
    intros r j Hj Hk. rewrite Hcols by lia. apply Hother; lia.
Qed.

Lemma train_features_columns names values cnt feats fv self self' fv' n k :
  train_features names values cnt feats fv self = (self', Returns fv') →
  shape fv = [n; k] → length (data fv) = n * k →
  shape fv' = [n; k] ∧ length (data fv') = n * k
  ∧ ∀ r j, j < cnt → j < k → data fv' !! (r * k + j) = data fv !! (r * k + j).
Proof. apply (train_features_blocks names values cnt feats fv self self' fv' [n]). Qed.

Lemma for_each_lookup {A C} (f : A → outcome C) (l : list A) ys j x :
  for_each f l = Returns ys → l !! j = Some x →
  ∃ y, f x = Returns y ∧ ys !! j = Some y.
Proof.
  revert ys j. induction l as [|a l IH]; intros ys j Hrun Hj; [done|].
  simpl in Hrun. destruct (f a) as [b|] eqn:Ha; [|done]. simpl in Hrun.
  destruct (for_each f l) as [bs|]; [|done]. injection Hrun as <-.
  destruct j as [|j]; simpl in *.
  - injection Hj as <-. by exists b.
  - by apply IH.
Qed.

Lemma for_each_length {A C} (f : A → outcome C) (l : list A) ys :
  for_each f l = Returns ys → length ys = length l.
Proof.
  revert ys. induction l as [|a l IH]; intros ys Hrun; simpl in Hrun.
  - by injection Hrun as <-.
  - destruct (f a) as [b|]; [|done]. simpl in Hrun.
    destruct (for_each f l) as [bs|]; [|done]. injection Hrun as <-.
    simpl. by rewrite (IH bs).
Qed.

(** A successful construction of the matrices, taken apart. *)
Lemma train_build_inv names values self self' fv tv :
  train_build names values self = (self', Returns (fv, tv)) →
  ∃ targets feats vs rows fv0 fv1 s1,
    target self = Some targets ∧ features self = Some feats
    ∧ for_each (value_at names values) targets = Returns vs
    ∧ np_stack vs = Returns tv
    ∧ np_len tv = Returns rows
    ∧ (dynamicFeatures self = false → fv0 = np_zeros [rows; length feats])
    ∧ (dynamicFeatures self = true →
       ∃ L, train_featLen names values feats 0 = Returns L
            ∧ fv0 = np_zeros [rows; L; length feats])
    ∧ train_features names values 0 feats fv0 self = (s1, Returns fv1)
    ∧ train_select fv1 tv s1 = (self', Returns fv).
Proof.
  intros Hrun. unfold train_build in Hrun.
  apply mdo_inv in Hrun as (? & ? & [= <- <-] & Hrun).
  apply mdo_inv in Hrun as (targets & ? & [= <- Htargets] & Hrun).
  apply mdo_inv in Hrun as (vs & s0 & Hvs & Hrun).
  apply train_targets_returns in Hvs as [-> Hvs].
  apply mdo_inv in Hrun as (tv0 & ? & [= <- Htv] & Hrun).
  apply mdo_inv in Hrun as (? & ? & [= <- <-] & Hrun).
  apply mdo_inv in Hrun as (? & ? & [= <- <-] & Hrun).
  apply mdo_inv in Hrun as (fv0 & s0 & Hfv0 & Hrun).
  apply mdo_inv in Hrun as (feats & ? & [= <- Hfeats] & Hrun).
  apply mdo_inv in Hrun as (fv1 & s1 & Hloop & Hrun).
  apply mdo_inv in Hrun as (fv2 & s2 & Hsel & [= <- <- <-]).
  destruct (target self) as [ts|] eqn:Ht; [|done]. injection Htargets as <-.
  destruct (features self) as [fs|] eqn:Hf; [|done]. injection Hfeats as <-.
  assert (∃ rows, np_len tv0 = Returns rows ∧ s0 = self
            ∧ (dynamicFeatures self = false
               → fv0 = np_zeros [rows; length fs])
            ∧ (dynamicFeatures self = true →
               ∃ L, train_featLen names values fs 0 = Returns L
                    ∧ fv0 = np_zeros [rows; L; length fs]))
    as (rows & Hrows & -> & Hz & Hz').
  { destruct (dynamicFeatures self).
    - apply mdo_inv in Hfv0 as (? & ? & [= <- [= <-]] & Hfv0).
      apply mdo_inv in Hfv0 as (L & ? & [= <- HL] & Hfv0).
      apply mdo_inv in Hfv0 as (rows & ? & [= <- Hrows] & Hfv0).
      apply mdo_inv in Hfv0 as (k & ? & [= <- [= <-]] & [= <- <-]).
      exists rows. split; [done|]. split; [done|]. split; [done|].
      intros _. by exists L.
    - apply mdo_inv in Hfv0 as (rows & ? & [= <- Hrows] & Hfv0).
      apply mdo_inv in Hfv0 as (k & ? & [= <- [= <-]] & [= <- <-]).
      by exists rows. }
  by exists ts, fs, vs, rows, fv0, fv1, s1.
Qed.

Lemma train_select_off fv tv self :
  featureSelectionAlgo self ≠ Some "RFE" →
  train_select fv tv self = (self, Returns fv).
Proof. intros Hoff. unfold train_select, mdo, attr. by case_decide. Qed.

Lemma length_np_zeros (s : list nat) :
  length (data (np_zeros (num:=num) s)) = prodn s.
Proof. apply length_replicate. Qed.

(** X1: in static mode without feature selection, when the matrices are
    built, the feature matrix has one row per target row and one column per
    declared feature, and the column of the [j]-th declared feature, bound
    to a one-dimensional array, holds [(x - center) / scale] for each of its
    entries, where (center, scale) is the pair that
    [normalizationFactors] returned for that array and that the instance
    now stores under the feature's name. *)
Theorem train_static_column d self self' fv tv feats j f n xs :
  dynamicFeatures self = false →
  featureSelectionAlgo self ≠ Some "RFE" →
  features self = Some feats →
  feats !! j = Some f →
  value_at d.*1 d.*2 f = Returns (PyArray (mkArr [n] xs)) →
  length xs = n →
  train_matrices (Mapping d) self = (self', Returns (fv, tv)) →
  ∃ center scale,
    normalizationFactors (PyArray (mkArr [n] xs)) = Returns (center, scale)
    ∧ muAndSigmaFeatures self' !! f = Some (center, scale)
    ∧ shape fv = [n; length feats]
    ∧ ∀ i x, xs !! i = Some x →
             data fv !! (i * length feats + j)
             = Some (ndiv (nsub x center) scale).
Proof.
  intros Hdyn Hoff Hfeats Hj Hv Hlen Hrun. simpl in Hrun.
  apply train_build_inv in Hrun
    as (targets & feats' & vs & rows & fv0 & fv1 & s3 & _ & Hfeats' & _ & _ & _
        & Hfv0 & _ & Hloop & Hsel).
  rewrite Hfeats in Hfeats'. injection Hfeats' as <-.
  rewrite (Hfv0 Hdyn) in Hloop. clear Hfv0.
  set (k := length feats) in *.
  assert (Hjk : j < k) by (by apply lookup_lt_Some in Hj).
  (* the loop, cut at the j-th feature *)
  rewrite <- (take_drop_middle feats j f Hj) in Hloop.
  rewrite train_features_app in Hloop.
  apply mdo_inv in Hloop as (fva & s1 & Hpre & Hloop). simpl in Hloop.
  apply mdo_inv in Hloop as (fvb & s2 & Hhead & Hpost).
  rewrite length_take_le in Hhead, Hpost by lia.
  destruct (train_features_columns _ _ _ _ _ _ _ _ rows k Hpre eq_refl)
    as (Hsa & Hla & _).
  { rewrite length_np_zeros. simpl. lia. }
  (* the turn of the j-th feature *)
  destruct (writes_mu_only_train_features d.*1 d.*2 0 (take j feats)
              (np_zeros [rows; k]) self) as [mu1 Hs1].
  rewrite Hpre in Hs1. simpl in Hs1. subst s1.
  apply train_feature_inv in Hhead
    as (v & a & p & x & m & _ & Hv' & _ & Ha & Hm & Hrows & Hp & -> & Hx & Hset).
  rewrite Hv in Hv'. injection Hv' as <-. injection Ha as <-.
  injection Hm as <-. unfold shape0 in Hrows. rewrite Hsa in Hrows.
  injection Hrows as ->. simpl in Hx. rewrite Hdyn in Hx.
  unfold ndim in Hx. simpl in Hx. injection Hx as <-.
  rewrite (setitem_last_same fva j _ [n] k) in Hset; [|done|done|done|].
  2:{ simpl. rewrite length_fmap. lia. }
  injection Hset as <-.
  (* the turns after it *)
  destruct (train_features_columns _ _ _ _ _ _ _ _ n k Hpost)
    as (Hs1 & _ & Hcols); [done|by simpl; rewrite length_set_column|].
  pose proof (train_features_fitted _ _ _ _ _ _ _ _ f Hpost) as Hfit.
  destruct Hfit as (v' & p' & Hv' & Hp' & Hmu).
  { left. exists (PyArray (mkArr [n] xs)), p. simpl.
    by rewrite lookup_insert_eq. }
  rewrite Hv in Hv'. injection Hv' as <-.
  rewrite Hp in Hp'. injection Hp' as <-.
  (* no selection *)
  match type of Hpost with
  | train_features ?a ?b ?c ?l ?fv0 ?s0 = _ =>
      destruct (writes_mu_only_train_features a b c l fv0 s0) as [mu3 Hs3]
  end.
  rewrite Hpost in Hs3. simpl in Hs3. subst s3.
  rewrite train_select_off in Hsel by done. injection Hsel as <- <-.
  exists p.1, p.2. rewrite <- surjective_pairing.
  split; [done|]. split; [done|]. split; [done|].
  intros i x Hi. rewrite Hcols by lia. simpl.
  assert (Hin : i < n) by (apply lookup_lt_Some in Hi; lia).
  rewrite (set_column_written k j _ _ n i Hla Hjk Hin).
  by rewrite list_lookup_fmap, Hi.
Qed.

(** X18: in dynamic mode without feature selection, when every feature's
    first realization has at most [L] entries and the [j]-th declared
    feature is bound to a non-empty list of one-dimensional arrays of
    exactly [L] entries each, a successful construction gives a feature
    matrix with one row per realization, [L] time steps and one column per
    declared feature, in which entry [(i, t, j)] is the normalized [t]-th
    entry of the [i]-th realization, with the pair that
    [normalizationFactors] returned for the whole list and that the instance
    now stores under the feature's name. *)
Theorem train_dynamic_column d self self' fv tv feats j f L
    (hist : list (list num)) :
  dynamicFeatures self = true →
  featureSelectionAlgo self ≠ Some "RFE" →
  features self = Some feats →
  feats !! j = Some f →
  value_at d.*1 d.*2 f
  = Returns (PyList ((λ r, PyArray (mkArr [L] r)) <$> hist)) →
  hist ≠ [] →
  Forall (λ r, length r = L) hist →
  train_featLen d.*1 d.*2 feats 0 = Returns L →
  train_matrices (Mapping d) self = (self', Returns (fv, tv)) →
  ∃ center scale,
    normalizationFactors (PyList ((λ r, PyArray (mkArr [L] r)) <$> hist))
    = Returns (center, scale)
    ∧ muAndSigmaFeatures self' !! f = Some (center, scale)
    ∧ shape fv = [length hist; L; length feats]
    ∧ ∀ i t row x, hist !! i = Some row → row !! t = Some x →
                   data fv !! ((i * L + t) * length feats + j)
                   = Some (ndiv (nsub x center) scale).
Proof.
  intros Hdyn Hoff Hfeats Hj Hv Hne Hall HL Hrun. simpl in Hrun.
  apply train_build_inv in Hrun
    as (targets & feats' & vs & rows & fv0 & fv1 & s3 & _ & Hfeats' & _ & _ & _
        & _ & Hfv0 & Hloop & Hsel).
  rewrite Hfeats in Hfeats'. injection Hfeats' as <-.
  destruct (Hfv0 Hdyn) as (L' & HL' & ->). clear Hfv0.
  rewrite HL in HL'. injection HL' as <-.
  set (k := length feats) in *. set (n := length hist) in *.
  assert (Hjk : j < k) by (by apply lookup_lt_Some in Hj).
  (* the loop, cut at the j-th feature *)
  rewrite <- (take_drop_middle feats j f Hj) in Hloop.
  rewrite train_features_app in Hloop.
  apply mdo_inv in Hloop as (fva & s1 & Hpre & Hloop). simpl in Hloop.
  apply mdo_inv in Hloop as (fvb & s2 & Hhead & Hpost).
  rewrite length_take_le in Hhead, Hpost by lia.
  destruct (train_features_blocks _ _ _ _ _ _ _ _ [rows; L] k (rows * L)
              Hpre eq_refl)
    as (Hsa & Hla & _).
  { rewrite length_np_zeros. simpl. lia. }
  (* the turn of the j-th feature *)
  destruct (writes_mu_only_train_features d.*1 d.*2 0 (take j feats)
              (np_zeros [rows; L; k]) self) as [mu1 Hs1].
  rewrite Hpre in Hs1. simpl in Hs1. subst s1.
  apply train_feature_inv in Hhead
    as (v & a & p & x & m & _ & Hv' & _ & Ha & Hm & Hrows & Hp & -> & Hx & Hset).
  rewrite Hv in Hv'. injection Hv' as <-.
  rewrite np_asarray_rows in Ha by done. injection Ha as <-.
  injection Hm as <-. unfold shape0 in Hrows. rewrite Hsa in Hrows.
  injection Hrows as ->. simpl in Hx. rewrite Hdyn in Hx.
  injection Hx as <-. fold n in Hsa, Hla, Hset.
  rewrite (setitem_last_same fva j _ [n; L] k) in Hset; [|done|done|done|].
  2:{ simpl. rewrite length_fmap, (length_concat_blocks _ L) by done.
      fold n. lia. }
  injection Hset as <-.
  (* the turns after it *)
  destruct (train_features_blocks _ _ _ _ _ _ _ _ [n; L] k (n * L) Hpost)
    as (Hs1 & _ & Hcols); [done|by simpl; rewrite length_set_column|].
  pose proof (train_features_fitted _ _ _ _ _ _ _ _ f Hpost) as Hfit.
  destruct Hfit as (v' & p' & Hv' & Hp' & Hmu).
  { left. eexists _, p. simpl. split; [exact Hv|].
    split; [exact Hp|]. by rewrite lookup_insert_eq. }
  rewrite Hv in Hv'. injection Hv' as <-.
  rewrite Hp in Hp'. injection Hp' as <-.
  (* no selection *)
  match type of Hpost with
  | train_features ?a ?b ?c ?l ?fv0 ?s0 = _ =>
      destruct (writes_mu_only_train_features a b c l fv0 s0) as [mu3 Hs3]
  end.
  rewrite Hpost in Hs3. simpl in Hs3. subst s3.
  rewrite train_select_off in Hsel by done. injection Hsel as <- <-.
  exists p.1, p.2. rewrite <- surjective_pairing.
  split; [done|]. split; [done|]. split; [done|].
  intros i t row x Hi Ht. rewrite Hcols by lia. simpl.
  assert (Hin : i < n) by (by apply lookup_lt_Some in Hi).
  assert (HtL : t < L).
  { apply lookup_lt_Some in Ht.
    rewrite Forall_lookup in Hall. by rewrite (Hall i row Hi) in Ht. }
  assert (Hr : i * L + t < n * L) by nia.
  rewrite (set_column_written k j _ _ (n * L) (i * L + t) Hla Hjk Hr).
  by rewrite list_lookup_fmap, (lookup_concat_blocks _ L i t row), Ht.
Qed.

Lemma mdo_keeps {A C} (P : @SupervisedLearning num B → Prop)
    (c : M A) (k : A → M C) self :
  P (c self).1 →
  (∀ a s, c self = (s, Returns a) → P (k a s).1) →
  P (mdo c k self).1.
Proof.
  intros Hc Hk. unfold mdo.
  destruct (c self) as [s [a|e]] eqn:Hrun; simpl in *; [by apply Hk|done].
Qed.

Lemma train_build_other_names names values self feats g :
  features self = Some feats → g ∉ feats →
  muAndSigmaFeatures (train_build names values self).1 !! g
  = muAndSigmaFeatures self !! g.
Proof.
  intros Hfeats Hg. unfold train_build.
  apply (mdo_keeps (λ s, muAndSigmaFeatures s !! g = muAndSigmaFeatures self !! g));
    [done|]. intros ? ? [= <- <-].
  apply mdo_keeps; [done|]. intros ts ? [= <- _].
  apply mdo_keeps; [by rewrite readonly_train_targets|]. intros vs s Hvs.
  apply train_targets_returns in Hvs as [-> _].
  apply mdo_keeps; [done|]. intros tv ? [= <- _].
  apply mdo_keeps; [done|]. intros ? ? [= <- <-].
  apply mdo_keeps; [done|]. intros ? ? [= <- <-]. rewrite Hfeats.
  match goal with
  | |- context [mdo ?c _ self] => assert (Hro : readonly c) by method_law
  end.
  apply mdo_keeps; [by rewrite Hro|]. intros fv0 s Hfv0.
  assert (s = self) as -> by (specialize (Hro self); by rewrite Hfv0 in Hro).
  clear Hro.
  apply mdo_keeps; [done|]. intros fl ? [= <- <-].
  apply mdo_keeps; [by apply train_features_other_names|]. intros fv1 s1 Hloop.
  pose proof (train_features_other_names names values 0 feats fv0 self g Hg)
    as Hmu. rewrite Hloop in Hmu. simpl in Hmu.
  apply mdo_keeps; [by rewrite readonly_train_select|]. intros fv2 s2 Hsel.
  pose proof (readonly_train_select fv1 tv s1) as Hro.
  rewrite Hsel in Hro. simpl in Hro. by subst s2.
Qed.

(** X2: after the matrices have been built, every declared feature has, in
    [muAndSigmaFeatures], the pair fitted on the value the dictionary binds
    to it; and whether the construction returns or raises, the entries
    stored under names that are no declared feature are left as they
    were. *)
Theorem train_normalization_record d self feats :
  features self = Some feats →
  (∀ g, g ∉ feats →
        muAndSigmaFeatures (train_matrices (Mapping d) self).1 !! g
        = muAndSigmaFeatures self !! g)
  ∧ (∀ self' fv tv f,
        train_matrices (Mapping d) self = (self', Returns (fv, tv)) →
        f ∈ feats →
        fitted d.*1 d.*2 (muAndSigmaFeatures self') f).
Proof.
  intros Hfeats. split.
  - intros g Hg. by apply (train_build_other_names _ _ _ feats).
  - intros self' fv tv f Hrun Hin. simpl in Hrun.
    apply train_build_inv in Hrun
      as (targets & feats' & vs & rows & fv0 & fv1 & s1 & _ & Hfeats' & _ & _
          & _ & _ & _ & Hloop & Hsel).
    rewrite Hfeats in Hfeats'. injection Hfeats' as <-.
    pose proof (readonly_train_select fv1 tv s1) as Hro.
    rewrite Hsel in Hro. simpl in Hro. subst s1.
    apply (train_features_fitted _ _ _ _ _ _ _ _ f Hloop). by right.
Qed.

(** X3: when the matrices are built, the target matrix has one column per
    declared target, in declaration order: for the [j]-th declared target,
    bound to a one-dimensional array of [n] entries, the matrix has shape
    [n, number of targets] and its column [j] holds the entries of that
    array, unchanged. *)
Theorem train_target_matrix d self self' fv tv targets j t n ys :
  target self = Some targets →
  targets !! j = Some t →
  value_at d.*1 d.*2 t = Returns (PyArray (mkArr [n] ys)) →
  length ys = n →
  train_matrices (Mapping d) self = (self', Returns (fv, tv)) →
  shape tv = [n; length targets]
  ∧ ∀ i y, ys !! i = Some y → data tv !! (i * length targets + j) = Some y.
Proof.
  intros Htarget Hj Hv Hlen Hrun. simpl in Hrun.
  apply train_build_inv in Hrun
    as (targets' & feats & vs & rows & fv0 & fv1 & s1 & Htarget' & _ & Hvs
        & Htv & _).
  rewrite Htarget in Htarget'. injection Htarget' as <-.
  unfold np_stack in Htv.
  destruct (for_each np_asarray vs) as [arrays|] eqn:Harrays; [|done].
  simpl in Htv.
  destruct (for_each_lookup _ _ _ _ _ Hvs Hj) as (v & Hv' & Hvj).
  rewrite Hv in Hv'. injection Hv' as <-.
  destruct (for_each_lookup _ _ _ _ _ Harrays Hvj) as (a & Ha & Haj).
  injection Ha as <-.
  assert (Hk : length arrays = length targets).
  { by rewrite (for_each_length _ _ _ Harrays), (for_each_length _ _ _ Hvs). }
  split.
  - destruct n as [|n'].
    + (* no row: the shape is still read off the first array *)
      unfold np_stack_last in Htv. destruct arrays as [|a0 arrays']; [done|].
      destruct (forallb _ _) eqn:Hall; [|done]. injection Htv as <-.
      rewrite forallb_forall in Hall.
      apply list_elem_of_lookup_2, list_elem_of_In, Hall, bool_decide_eq_true
        in Haj.
      simpl in *. by rewrite <- Haj, <- Hk.
    + destruct (np_stack_last_entry arrays _ tv (S n') 0 j Htv Haj eq_refl)
        as [Hshape _]; [lia|]. by rewrite <- Hk.
  - intros i y Hi.
    assert (Hin : i < n) by (apply lookup_lt_Some in Hi; lia).
    destruct (np_stack_last_entry arrays _ tv n i j Htv Haj eq_refl Hin)
      as [_ Hentry].
    rewrite <- Hk, Hentry. simpl. by rewrite Hi.
Qed.

(** X4: a call of [train] that returns has called [_train] exactly once,
    after the matrices were built and with those matrices, and has set
    [amITrained]; the backend state is the one [_train] left. *)
Theorem train_success tdict self self' :
  train tdict self = (self', Returns ()) →
  amITrained self' = true
  ∧ ∃ fv tv s1,
      train_matrices tdict self = (s1, Returns (fv, tv))
      ∧ hookCalls self' = hookCalls self ++ [CalledTrain fv tv]
      ∧ backend self' = (_train (backend self) fv tv).1
      ∧ muAndSigmaFeatures self' = muAndSigmaFeatures s1.
Proof.
  unfold train. intros Hrun.
  apply mdo_inv in Hrun as ([fv tv] & s1 & Hbuild & Hrun).
  apply mdo_inv in Hrun as ([] & s2 & Hhook & [= <-]).
  split; [done|]. exists fv, tv, s1. split; [done|].
  destruct (writes_mu_only_train_matrices tdict self) as [mu Hmu].
  rewrite Hbuild in Hmu. simpl in Hmu. subst s1.
  unfold call_hook in Hhook. simpl in *.
  destruct (_train (backend self) fv tv) as [b r]. by injection Hhook as <- _.
Qed.

(** X5: when [_train] raises on the matrices that were built, [train] raises
    the very same exception; the call is recorded, and [amITrained] keeps the
    value it had. *)
Theorem train_backend_error tdict self s1 fv tv e :
  train_matrices tdict self = (s1, Returns (fv, tv)) →
  (_train (backend self) fv tv).2 = Raises e →
  (train tdict self).2 = Raises e
  ∧ amITrained (train tdict self).1 = amITrained self
  ∧ hookCalls (train tdict self).1 = hookCalls self ++ [CalledTrain fv tv].
Proof.
  intros Hbuild Hhook. unfold train.
  rewrite (mdo_returns _ _ _ _ _ Hbuild).
  destruct (writes_mu_only_train_matrices tdict self) as [mu Hmu].
  rewrite Hbuild in Hmu. simpl in Hmu. subst s1.
  unfold mdo, call_hook. simpl.
  destruct (_train (backend self) fv tv) as [b r]. simpl in Hhook. by subst r.
Qed.

Lemma train_select_unassigned fv tv self :
  featureSelectionAlgo self = Some "RFE" →
  nFeaturesToSelect self = None ∨ step self = None →
  fails (train_select fv tv) self.
Proof.
  intros Halgo Hun. unfold fails, train_select, mdo, attr, assigned.
  rewrite Halgo. case_decide; [|done].
  destruct Hun as [-> | Hs].
  - by eexists.
  - destruct (nFeaturesToSelect self); [rewrite Hs|]; by eexists.
Qed.

Lemma train_matrices_fails_unassigned tdict self :
  featureSelectionAlgo self = Some "RFE" →
  nFeaturesToSelect self = None ∨ step self = None →
  fails (train_matrices tdict) self.
Proof.
  intros Halgo Hun. destruct tdict as [d|ty]; simpl; [|apply fails_raiseAnError].
  destruct (train_build d.*1 d.*2 self) as [s' [[fv tv]|e]] eqn:Hrun;
    [|by exists e; rewrite Hrun].
  apply train_build_inv in Hrun
    as (targets & feats & vs & rows & fv0 & fv1 & s1 & _ & _ & _ & _ & _ & _ & _
        & Hloop & Hsel).
  destruct (writes_mu_only_train_features d.*1 d.*2 0 feats fv0 self)
    as [mu Hs1].
  rewrite Hloop in Hs1. simpl in Hs1. subst s1.
  destruct (train_select_unassigned fv1 tv (set_muAndSigmaFeatures mu self))
    as [e He]; [done|done|].
  rewrite Hsel in He. done.
Qed.

(** X19: an instance that [initializeFromDict] configures with the RFE
    selector right after [__init__] cannot be trained. [initializeFromDict]
    assigns neither [nFeaturesToSelect] nor [step], which only
    [_handleInput] does, so [train] raises on every training set, at the
    latest where it reads them, and [_train] is never called. *)
Theorem train_RFE_after_initializeFromDict (inputDict : initDict) (b : B) tdict :
  dictFeatureSelectionAlgorithm inputDict = Some "RFE" →
  ∃ e self',
    train tdict (initializeFromDict inputDict (init b)).1 = (self', Raises e)
    ∧ hookCalls self' = []
    ∧ backend self' = b
    ∧ amITrained self' = false.
Proof.
  intros Halgo.
  set (self := (initializeFromDict inputDict (init b)).1).
  destruct (train_matrices_fails_unassigned tdict self) as [e He];
    [done|by left|].
  pose proof (writes_mu_only_frame _ self (writes_mu_only_train_matrices tdict))
    as (Hcalls & Hbackend & Htrained & _).
  destruct (train_matrices tdict self) as [s1 r] eqn:Hrun. simpl in *. subst r.
  exists e, s1. split; [|done].
  unfold train. by rewrite (mdo_raises _ _ _ _ _ Hrun).
Qed.

(** X20: [train] on an instance whose targets were never declared raises the
    TypeError of iterating over [None]; with an empty list of targets it
    raises the ValueError of [np.stack] on an empty list. In both cases the
    instance is left as it was. *)
Theorem train_without_targets d self :
  (target self = None →
   train (Mapping d) self
   = (self, Raises (TypeError "'NoneType' object is not iterable")))
  ∧ (target self = Some [] →
     train (Mapping d) self
     = (self, Raises (ValueError "need at least one array to stack"))).
Proof.
  split; intros Ht; unfold train; apply mdo_raises; simpl;
    unfold train_build, mdo, attr, pure; rewrite Ht; done.
Qed.

End TrainingResults.

(** *** A second train forgets the earlier normalization *)

Section Refit.
Context {num B : Type}.
Context `{!Numeric num, !MathUtils num, !FeatureSelection num, !Backend num B}.
Implicit Types self : @SupervisedLearning num B.
Implicit Types mu : gmap string (num * num).
#[local] Abbreviation M := (@method num B).

Lemma set_mu_twice mu mu' self :
  set_muAndSigmaFeatures mu' (set_muAndSigmaFeatures mu self)
  = set_muAndSigmaFeatures mu' self.
Proof. done. Qed.

Lemma forgets_blind {A} (m : M A) :
  (∀ mu, blind_to (set_muAndSigmaFeatures mu) m) → forgets_mu m.
Proof. intros Hm mu self. exists mu. apply Hm. Qed.

Lemma forgets_mdo {A C} (c : M A) (k : A → M C) :
  forgets_mu c → (∀ a, forgets_mu (k a)) → forgets_mu (mdo c k).
Proof.
  intros Hc Hk mu self. unfold mdo. destruct (Hc mu self) as [mu1 ->].
  destruct (c self) as [s1 [a|e]]; simpl; [apply Hk|by exists mu1].
Qed.

Lemma blind_assigned {A} T (f : @SupervisedLearning num B → option A) name :
  untouched T f → blind_to T (assigned f name).
Proof. intros Hf self. unfold assigned. rewrite Hf. by destruct (f self). Qed.

Lemma blind_train_targets mu names values targets :
  blind_to (set_muAndSigmaFeatures mu) (train_targets (B:=B) names values targets).
Proof. induction targets as [|t targets IH]; simpl; method_law. Qed.

Lemma blind_train_select mu fv tv :
  blind_to (set_muAndSigmaFeatures mu) (train_select (B:=B) fv tv).
Proof.
  unfold train_select.
  apply blind_mdo; [by apply blind_attr|intros algo].
  case_decide; [|method_law].
  apply blind_mdo; [by apply blind_assigned|intros nsel].
  apply blind_mdo; [by apply blind_assigned|intros stp].
  apply blind_mdo; [method_law|intros sel].
  apply blind_mdo; [by apply blind_attr|intros dyn]. method_law.
Qed.

Lemma forgets_train_feature names values cnt feat fv :
  forgets_mu (train_feature (B:=B) names values cnt feat fv).
Proof.
  intros mu self. unfold train_feature. case_decide; [|by exists mu].
  unfold _localNormalizeData, mu_sigma, isDynamic, attr, raiseAnError, mdo, pure.
  simpl.
  destruct (value_at names values feat) as [v|]; [|by exists mu]. simpl.
  destruct (negb _); [by exists mu|].
  destruct (np_asarray v) as [a|]; [|by exists mu].
  destruct (np_len a) as [n|]; [|by exists mu].
  destruct (shape0 fv) as [rows|]; [|by exists mu].
  case_decide; [by exists mu|].
  destruct (normalizationFactors v) as [p|]; [|by exists mu]. simpl.
  exists (<[feat:=p]> mu).
  destruct (dynamicFeatures self).
  - destruct (slice_all2 a); [|done]. simpl. rewrite !lookup_insert_eq. done.
  - destruct (if decide (1 < ndim a) then slice_col0 a else slice_all1 a);
      [|done].
    simpl. rewrite !lookup_insert_eq. done.
Qed.

Lemma forgets_train_features names values cnt feats fv :
  forgets_mu (train_features (B:=B) names values cnt feats fv).
Proof.
  revert cnt fv. induction feats as [|f feats IH]; intros cnt fv; simpl.
  - intros mu self. by exists mu.
  - apply forgets_mdo; [apply forgets_train_feature|done].
Qed.

Lemma forgets_train_build names values :
  forgets_mu (train_build (B:=B) names values).
Proof.
  unfold train_build.
  apply forgets_mdo; [apply forgets_blind; intros; by apply blind_attr|intros ts].
  apply forgets_mdo; [apply forgets_blind; intros; method_law|intros ts'].
  apply forgets_mdo;
    [apply forgets_blind; intros; apply blind_train_targets|intros vs].
  apply forgets_mdo; [apply forgets_blind; intros; method_law|intros tv].
  apply forgets_mdo; [apply forgets_blind; intros; by apply blind_attr|intros fs].
  apply forgets_mdo;
    [apply forgets_blind; intros; by apply blind_attr|intros dyn].
  apply forgets_mdo; [apply forgets_blind; intros; method_law|intros fv0].
  apply forgets_mdo; [apply forgets_blind; intros; method_law|intros fl].
  apply forgets_mdo; [apply forgets_train_features|intros fv1].
  apply forgets_mdo;
    [apply forgets_blind; intros; apply blind_train_select|intros fv2].
  apply forgets_blind; intros; method_law.
Qed.

(** X6: the matrices [train] builds, and whether it raises, do not depend on
    the normalization parameters the instance held before the call: each
    declared feature is refitted before its column is normalized. *)
Theorem train_refits_normalization (tdict : pyinput num) mu self :
  (train_matrices tdict (set_muAndSigmaFeatures mu self)).2
  = (train_matrices tdict self).2.
Proof.
  destruct tdict as [d|ty]; simpl; [|done].
  destruct (forgets_train_build d.*1 d.*2 mu self) as [mu' ->]. done.
Qed.

End Refit.

(** *** What evaluate, confidence and reset build and leave *)

Section EvaluationResults.
Context {num B : Type}.
Context `{!Numeric num, !MathUtils num, !FeatureSelection num, !Backend num B}.
Implicit Types self : @SupervisedLearning num B.
Implicit Types edict : pyinput num.
Implicit Types d : pydict num.
Implicit Types names : list string.
Implicit Types values : list (pyval num).
Implicit Types fv : ndarray num.
#[local] Abbreviation M := (@method num B).

Lemma returns_readonly {A} (m : M A) self self' a :
  readonly m → m self = (self', Returns a) → self' = self.
Proof. intros Hro Hrun. specialize (Hro self). by rewrite Hrun in Hro. Qed.

Lemma raises_readonly {A} (m : M A) self :
  readonly m → fails m self → ∃ e, m self = (self, Raises e).
Proof.
  intros Hro [e He]. specialize (Hro self). exists e.
  destruct (m self) as [s r]. simpl in *. by subst.
Qed.

Lemma evaluate_fails_with_matrix edict self :
  fails (evaluate_matrix edict) self → ∃ e, evaluate edict self = (self, Raises e).
Proof.
  intros Hfails.
  destruct (raises_readonly _ _ (readonly_evaluate_matrix edict) Hfails)
    as [e He].
  exists e. unfold evaluate. by apply mdo_raises.
Qed.

(** X7: on an instance that stores no normalization parameters for its
    first declared feature - any instance that has been configured but never
    trained - [evaluate] raises whatever the request, before
    [__evaluateLocal__] is reached, and leaves the instance as it was. *)
Theorem evaluate_before_fit_raises edict self f feats :
  features self = Some (f :: feats) →
  muAndSigmaFeatures self !! f = None →
  ∃ e, evaluate edict self = (self, Raises e).
Proof.
  intros Hfeats Hmu. apply evaluate_fails_with_matrix.
  destruct edict as [d|ty]; simpl; [|apply fails_raiseAnError].
  apply fails_mdo_r. intros n s Hcheck.
  apply (returns_readonly _ _ _ _ (readonly_evaluate_check d 0)) in Hcheck
    as ->.
  apply fails_mdo_r. intros ? ? [= <- <-].
  apply fails_mdo_r. intros v0 ? [= <- _].
  apply fails_mdo_r. intros m ? [= <- _].
  apply fails_mdo_r. intros ? ? [= <- <-]. rewrite Hfeats.
  apply fails_mdo_r. intros k ? [= <- _].
  apply fails_mdo_r. intros fl ? [= <- <-]. simpl.
  apply fails_mdo_l. unfold evaluate_feature.
  case_decide; [|apply fails_raiseAnError].
  apply fails_mdo_r. intros v ? [= <- _].
  apply fails_mdo_r. intros dh ? [= <- _]. cbv zeta.
  destruct (negb _); [apply fails_raiseAnError|].
  apply fails_mdo_l. unfold fails, mu_sigma. rewrite Hmu. by eexists.
Qed.

Lemma evaluate_check_list_fails d n self name items :
  dynamicFeatures self = true → (name, PyList items) ∈ d →
  fails (evaluate_check d n) self.
Proof.
  intros Hdyn Hin. revert n.
  induction d as [|[name' v'] d IH]; intros n; [by apply elem_of_nil in Hin|].
  simpl. apply fails_mdo_r. intros dh ? [= <- _]. cbv zeta.
  destruct (negb _); [apply fails_raiseAnError|].
  apply fails_mdo_r. intros dyn ? [= <- <-]. rewrite Hdyn.
  apply elem_of_cons in Hin as [[= <- <-]|Hin].
  - apply fails_mdo_l. by eexists.
  - apply fails_mdo_r. intros m ? [= <- _]. by apply IH.
Qed.

(** X8: with [dynamicFeatures] set, a request that binds any name to a list
    - the form in which [train] takes the realizations of a feature - makes
    [evaluate] raise before [__evaluateLocal__] is reached: the loop over the
    values reads [.shape] of each of them. *)
Theorem evaluate_dynamic_rejects_lists d self name items :
  dynamicFeatures self = true →
  (name, PyList items) ∈ d →
  ∃ e, evaluate (Mapping d) self = (self, Raises e).
Proof.
  intros Hdyn Hin. apply evaluate_fails_with_matrix. simpl.
  apply fails_mdo_l. by eapply evaluate_check_list_fails.
Qed.

Lemma evaluate_check_first_invalid pre name v post n self :
  dynamicFeatures self = false →
  (∀ name' v', (name', v') ∈ pre →
     (checkArrayConsistency v' (_dynamicHandling self)).1 = true) →
  (checkArrayConsistency v (_dynamicHandling self)).1 = false →
  evaluate_check (pre ++ (name, v) :: post) n self
  = (self, Raises (IOError
       ("In evaluate request for feature " +:+ name +:+ ":"
        +:+ (checkArrayConsistency v (_dynamicHandling self)).2))).
Proof.
  intros Hdyn Hpre Hbad. induction pre as [|[name' v'] pre IH]; simpl.
  - unfold mdo, isDynamic, attr. by rewrite Hbad.
  - unfold mdo at 1, isDynamic at 1, attr at 1.
    rewrite (Hpre name' v'); [|by left]. simpl.
    unfold mdo at 1, attr at 1. rewrite Hdyn.
    apply IH. intros n' w Hin. apply (Hpre n' w). by right.
Qed.

Lemma confidence_check_first_invalid pre name v post self :
  (∀ name' v', (name', v') ∈ pre →
     (checkArrayConsistency v' (_dynamicHandling self)).1 = true) →
  (checkArrayConsistency v (_dynamicHandling self)).1 = false →
  confidence_check (pre ++ (name, v) :: post) self
  = (self, Raises (IOError
       ("In evaluate request for feature " +:+ name +:+ ":"
        +:+ (checkArrayConsistency v (_dynamicHandling self)).2))).
Proof.
  intros Hpre Hbad. induction pre as [|[name' v'] pre IH]; simpl.
  - unfold mdo, isDynamic, attr. by rewrite Hbad.
  - unfold mdo at 1, isDynamic at 1, attr at 1.
    rewrite (Hpre name' v'); [|by left]. simpl.
    apply IH. intros n' w Hin. apply (Hpre n' w). by right.
Qed.

(** X9: [confidence], and [evaluate] in static mode, check every value of the
    request, in the order of its keys and whether or not the key is a
    declared feature: the first value that fails the array check makes the
    call raise the data error that names its key and carries the
    validator's message, and the hook is not reached. *)
Theorem request_first_invalid_value pre name v post self :
  (∀ name' v', (name', v') ∈ pre →
     (checkArrayConsistency v' (_dynamicHandling self)).1 = true) →
  (checkArrayConsistency v (_dynamicHandling self)).1 = false →
  confidence (Mapping (pre ++ (name, v) :: post)) self
  = (self, Raises (IOError
       ("In evaluate request for feature " +:+ name +:+ ":"
        +:+ (checkArrayConsistency v (_dynamicHandling self)).2)))
  ∧ (dynamicFeatures self = false →
     evaluate (Mapping (pre ++ (name, v) :: post)) self
     = (self, Raises (IOError
          ("In evaluate request for feature " +:+ name +:+ ":"
           +:+ (checkArrayConsistency v (_dynamicHandling self)).2)))).
Proof.
  intros Hpre Hbad. split.
  - unfold confidence. apply mdo_raises. simpl. apply mdo_raises.
    by apply confidence_check_first_invalid.
  - intros Hdyn. unfold evaluate. apply mdo_raises. simpl. apply mdo_raises.
    by apply evaluate_check_first_invalid.
Qed.

(** What a call of [confidence] can do to the instance. *)
Lemma confidence_post edict self :
  (confidence edict self).1 = self
  ∨ ∃ b fv, confidence_matrix edict self = (self, Returns fv)
            ∧ (confidence edict self).1
              = set_backend b (CalledConfidence fv) self.
Proof.
  unfold confidence, mdo.
  pose proof (readonly_confidence_matrix edict self) as Hm.
  destruct (confidence_matrix edict self) as [self' [fv|e]]; simpl in *; subst.
  - right. unfold call_hook. destruct (__confidenceLocal__ _ _) as [b r].
    by exists b, fv.
  - by left.
Qed.

(** X10: whatever it returns or raises, [confidence] leaves the
    configuration, the normalization parameters and [amITrained] as they
    were; it calls no hook but [__confidenceLocal__], at most once, with the
    matrix it built. *)
Theorem confidence_frame edict self :
  features (confidence edict self).1 = features self
  ∧ target (confidence edict self).1 = target self
  ∧ muAndSigmaFeatures (confidence edict self).1 = muAndSigmaFeatures self
  ∧ amITrained (confidence edict self).1 = amITrained self
  ∧ (hookCalls (confidence edict self).1 = hookCalls self
     ∨ ∃ fv, (confidence_matrix edict self).2 = Returns fv
             ∧ hookCalls (confidence edict self).1
               = hookCalls self ++ [CalledConfidence fv]).
Proof.
  destruct (confidence_post edict self) as [->|(b & fv & Hm & ->)].
  - repeat (split; [done|]). by left.
  - repeat (split; [done|]). right. exists fv. by rewrite Hm.
Qed.

(** X11: [reset] clears [amITrained] and calls [__resetLocal__] once, even
    when that hook raises; it keeps the normalization parameters and the
    configuration, so that a later [evaluate] builds, from the same request,
    the same matrix as before the reset. *)
Theorem reset_keeps_normalization self :
  amITrained (reset self).1 = false
  ∧ hookCalls (reset self).1 = hookCalls self ++ [CalledReset]
  ∧ (reset self).2 = (__resetLocal__ (backend self)).2
  ∧ muAndSigmaFeatures (reset self).1 = muAndSigmaFeatures self
  ∧ features (reset self).1 = features self
  ∧ target (reset self).1 = target self
  ∧ ∀ edict, (evaluate_matrix edict (reset self).1).2
             = (evaluate_matrix edict self).2.
Proof.
  unfold reset, call_hook. simpl.
  destruct (__resetLocal__ (backend self)) as [b r]. simpl.
  repeat (split; [done|]). intros edict.
  rewrite (blind_evaluate_matrix _ edict (keeps_configuration_backend b CalledReset)).
  simpl.
  by rewrite (blind_evaluate_matrix _ edict (keeps_configuration_flag false)).
Qed.

(** One successful turn of the loop of [evaluate], taken apart. *)
Lemma evaluate_feature_inv names values cnt feat fv self self' fv' :
  evaluate_feature names values cnt feat fv self = (self', Returns fv') →
  ∃ v p x,
    self' = self
    ∧ value_at names values feat = Returns v
    ∧ muAndSigmaFeatures self !! feat = Some p
    ∧ py_normalized v p.1 p.2 = Returns x
    ∧ setitem_last fv cnt x = Returns fv'.
Proof.
  unfold evaluate_feature. case_decide; [|done].
  unfold mu_sigma, isDynamic, attr, raiseAnError, mdo, pure.
  destruct (value_at names values feat) as [v|]; [|done]. simpl.
  destruct (negb _); [done|].
  destruct (muAndSigmaFeatures self !! feat) as [p|]; [|done].
  destruct (py_normalized v p.1 p.2) as [x|] eqn:Hx; [|done].
  destruct (setitem_last fv cnt x) as [fv1|] eqn:Hset; [|done].
  intros [= <- <-]. by exists v, p, x.
Qed.

Lemma evaluate_features_app names values cnt pre post fv :
  meq (evaluate_features (B:=B) names values cnt (pre ++ post) fv)
      (mdo (evaluate_features names values cnt pre fv)
           (λ fv', evaluate_features names values (cnt + length pre) post fv')).
Proof.
  revert cnt fv. induction pre as [|g pre IH]; intros cnt fv self; simpl.
  - by rewrite Nat.add_0_r.
  - unfold mdo.
    destruct (evaluate_feature names values cnt g fv self) as [s1 [fv1|e]];
      [|done].
    rewrite IH. unfold mdo. by rewrite Nat.add_succ_comm.
Qed.

Lemma evaluate_features_columns names values cnt feats fv self self' fv' n k :
  evaluate_features names values cnt feats fv self = (self', Returns fv') →
  shape fv = [n; k] → length (data fv) = n * k →
  shape fv' = [n; k] ∧ length (data fv') = n * k
  ∧ ∀ r j, j < cnt → j < k → data fv' !! (r * k + j) = data fv !! (r * k + j).
Proof.
  revert cnt fv self. induction feats as [|g feats IH]; intros cnt fv self; simpl.
  - by intros [= _ <-].
  - intros Hrun Hshape Hlen.
    apply mdo_inv in Hrun as (fv1 & s1 & Hhead & Htail).
    apply evaluate_feature_inv in Hhead as (v & p & x & _ & _ & _ & _ & Hset).
    pose proof (setitem_last_shape _ _ _ _ Hset) as Hshape1.
    destruct (setitem_last_frame fv cnt _ fv1 [n] k n Hset Hshape Hlen)
      as [Hlen1 Hother].
    rewrite Hshape in Hshape1.
    destruct (IH _ _ _ Htail Hshape1 Hlen1) as (Hs & Hl & Hcols).
    split; [done|]. split; [done|].
    intros r j Hj Hk. rewrite Hcols by lia. apply Hother; lia.
Qed.

(** X13: in static mode, when [evaluate] has built its matrix from a request
    whose first value has [m] entries, the matrix has [m] rows and one
    column per declared feature, and the column of the [j]-th declared
    feature, bound to a one-dimensional array of [m] entries, holds
    [(x - center) / scale] for each entry, with the pair the instance stores
    under that feature's name. *)
Theorem evaluate_static_column d self self' fv feats j f m xs :
  dynamicFeatures self = false →
  features self = Some feats →
  feats !! j = Some f →
  value_at d.*1 d.*2 f = Returns (PyArray (mkArr [m] xs)) →
  length xs = m →
  obind (first_value d.*2) py_size = Returns m →
  evaluate_matrix (Mapping d) self = (self', Returns fv) →
  ∃ center scale,
    muAndSigmaFeatures self !! f = Some (center, scale)
    ∧ shape fv = [m; length feats]
    ∧ ∀ i x, xs !! i = Some x →
             data fv !! (i * length feats + j)
             = Some (ndiv (nsub x center) scale).
Proof.
  intros Hdyn Hfeats Hj Hv Hlen Hfirst Hrun. simpl in Hrun.
  apply mdo_inv in Hrun as (step & s & Hcheck & Hrun).
  apply (returns_readonly _ _ _ _ (readonly_evaluate_check d 0)) in Hcheck
    as ->.
  apply mdo_inv in Hrun as (? & ? & [= <- <-] & Hrun).
  apply mdo_inv in Hrun as (v0 & ? & [= <- Hv0] & Hrun).
  apply mdo_inv in Hrun as (m' & ? & [= <- Hm] & Hrun).
  rewrite Hv0 in Hfirst. simpl in Hfirst. rewrite Hm in Hfirst.
  injection Hfirst as ->.
  apply mdo_inv in Hrun as (? & ? & [= <- <-] & Hrun).
  rewrite Hfeats, Hdyn in Hrun.
  apply mdo_inv in Hrun as (k & ? & [= <- <-] & Hrun).
  apply mdo_inv in Hrun as (fl & ? & [= <- <-] & Hloop).
  set (k := length feats) in *.
  assert (Hjk : j < k) by (by apply lookup_lt_Some in Hj).
  rewrite <- (take_drop_middle feats j f Hj), evaluate_features_app in Hloop.
  apply mdo_inv in Hloop as (fva & s1 & Hpre & Hloop). simpl in Hloop.
  apply mdo_inv in Hloop as (fvb & s2 & Hhead & Hpost).
  rewrite length_take_le in Hhead, Hpost by lia.
  destruct (evaluate_features_columns _ _ _ _ _ _ _ _ m k Hpre eq_refl)
    as (Hsa & Hla & _).
  { rewrite length_np_zeros. simpl. lia. }
  apply (returns_readonly _ _ _ _ (readonly_evaluate_features _ _ _ _ _))
    in Hpre as ->.
  apply evaluate_feature_inv in Hhead as (v & p & x & -> & Hv' & Hp & Hx & Hset).
  rewrite Hv in Hv'. injection Hv' as <-. injection Hx as <-.
  rewrite (setitem_last_same fva j _ [m] k) in Hset; [|done|done|done|].
  2:{ simpl. rewrite length_fmap. lia. }
  injection Hset as <-.
  destruct (evaluate_features_columns _ _ _ _ _ _ _ _ m k Hpost)
    as (Hs1 & _ & Hcols); [done|by simpl; rewrite length_set_column|].
  exists p.1, p.2. rewrite <- surjective_pairing.
  split; [done|]. split; [done|].
  intros i x Hi. rewrite Hcols by lia. simpl.
  assert (Hin : i < m) by (apply lookup_lt_Some in Hi; lia).
  rewrite (set_column_written k j _ _ m i Hla Hjk Hin).
  by rewrite list_lookup_fmap, Hi.
Qed.





Lemma evaluate_features_missing names values feats f :
  f ∈ feats → f ∉ names →
  ∀ cnt fv self, fails (evaluate_features names values cnt feats fv) self.
Proof.
  intros Hin Hmiss. induction feats as [|g feats IH]; intros cnt fv self.
  - by apply elem_of_nil in Hin.
  - simpl. apply elem_of_cons in Hin as [->|Hin].
    + apply fails_mdo_l. unfold evaluate_feature.
      case_decide; [done|apply fails_raiseAnError].
    + apply fails_mdo_r. intros fv1 s1 _. by apply IH.
Qed.

Lemma confidence_features_missing names values feats f :
  f ∈ feats → f ∉ names →
  ∀ cnt fv self, fails (confidence_features names values cnt feats fv) self.
Proof.
  intros Hin Hmiss. induction feats as [|g feats IH]; intros cnt fv self.
  - by apply elem_of_nil in Hin.
  - simpl. apply elem_of_cons in Hin as [->|Hin].
    + apply fails_mdo_l. unfold confidence_feature.
      case_decide; [done|apply fails_raiseAnError].
    + apply fails_mdo_r. intros fv1 s1 _. by apply IH.
Qed.

Lemma confidence_fails_with_matrix edict self :
  fails (confidence_matrix edict) self →
  ∃ e, confidence edict self = (self, Raises e).
Proof.
  intros Hfails.
  destruct (raises_readonly _ _ (readonly_confidence_matrix edict) Hfails)
    as [e He].
  exists e. unfold confidence. by apply mdo_raises.
Qed.

(** X21: a request that lacks one of the declared features gets no answer:
    [evaluate] and [confidence] raise before the backend is reached and
    leave the instance as it was. *)
Theorem request_missing_feature_raises d self feats f :
  features self = Some feats → f ∈ feats → f ∉ d.*1 →
  (∃ e, evaluate (Mapping d) self = (self, Raises e))
  ∧ (∃ e, confidence (Mapping d) self = (self, Raises e)).
Proof.
  intros Hfeats Hin Hmiss. split.
  - apply evaluate_fails_with_matrix. simpl.
    apply fails_mdo_r. intros n s Hcheck.
    apply (returns_readonly _ _ _ _ (readonly_evaluate_check d 0)) in Hcheck
      as ->.
    apply fails_mdo_r. intros ? ? [= <- <-].
    apply fails_mdo_r. intros v0 ? [= <- _].
    apply fails_mdo_r. intros m ? [= <- _].
    apply fails_mdo_r. intros ? ? [= <- <-]. rewrite Hfeats.
    apply fails_mdo_r. intros k ? [= <- _].
    apply fails_mdo_r. intros fl ? [= <- <-].
    by apply (evaluate_features_missing _ _ _ f).
  - apply confidence_fails_with_matrix. simpl.
    apply fails_mdo_r. intros [] s Hcheck.
    apply (returns_readonly _ _ _ _ (readonly_confidence_check d)) in Hcheck
      as ->.
    apply fails_mdo_r. intros dm ? [= <- <-].
    apply fails_mdo_r. intros v0 ? [= <- _].
    apply fails_mdo_r. intros m ? [= <- _].
    destruct (dynamicFeatures self); [apply fails_raiseAnError|].
    apply fails_mdo_r. intros ? ? [= <- <-]. rewrite Hfeats.
    apply fails_mdo_r. intros k ? [= <- _].
    apply fails_mdo_r. intros fl ? [= <- <-].
    by apply (confidence_features_missing _ _ _ f).
Qed.

End EvaluationResults.

(** *** The outcome of _handleInput *)

Section ConfigurationResults.
Context {num B : Type}.
Context `{!Numeric num, !MathUtils num, !FeatureSelection num, !Backend num B}.
Implicit Types self : @SupervisedLearning num B.

(** X12: [_handleInput] returns exactly when no name is both a feature and a
    target; in either case it has stored the two lists, and it touches
    neither [amITrained], nor the normalization parameters, nor the
    backend. *)
Theorem _handleInput_outcome (paramInput : paramNodes num) self :
  ((_handleInput paramInput self).2 = Returns ()
   ↔ ¬ shares_a_name (nodeFeatures paramInput) (nodeTarget paramInput))
  ∧ features (_handleInput paramInput self).1 = Some (nodeFeatures paramInput)
  ∧ target (_handleInput paramInput self).1 = Some (nodeTarget paramInput)
  ∧ amITrained (_handleInput paramInput self).1 = amITrained self
  ∧ muAndSigmaFeatures (_handleInput paramInput self).1
    = muAndSigmaFeatures self
  ∧ backend (_handleInput paramInput self).1 = backend self
  ∧ hookCalls (_handleInput paramInput self).1 = hookCalls self.
Proof.
  split.
  - split.
    + intros Hret Hshared.
      destruct (_handleInput_rejects_shared_name paramInput self Hshared)
        as (msg & Hmsg & _).
      by rewrite Hmsg in Hret.
    + intros Hdisjoint. unfold _handleInput. case_decide as Hlen; [|done].
      exfalso. apply Hdisjoint.
      destruct (filter _ _) as [|name rest] eqn:Hdups; [done|].
      assert (Hin : name ∈ filter (λ t, t ∈ nodeFeatures paramInput)
                             (remove_dups (nodeTarget paramInput)))
        by (rewrite Hdups; by left).
      apply list_elem_of_filter in Hin as [Hf Ht].
      exists name. split; [done|]. by apply elem_of_remove_dups.
  - unfold _handleInput. by case_decide.
Qed.

End ConfigurationResults.

(** *** Seeding and introspection *)

Section SettingsResults.
Context {num B : Type} `{!Introspection B}.
Implicit Types self : @SupervisedLearning num B.
Implicit Types acc local : list (string * setting).

Lemma dict_get_set_eq k v acc : dict_get k (dict_set k v acc) = Some v.
Proof.
  induction acc as [|[k' v'] acc IH]; simpl.
  - by case_decide.
  - case_decide; simpl; case_decide; try done; congruence.
Qed.

Lemma dict_get_set_ne k k' v acc :
  k ≠ k' → dict_get k' (dict_set k v acc) = dict_get k' acc.
Proof.
  intros Hne. induction acc as [|[k0 v0] acc IH]; simpl.
  - case_decide; [by subst|done].
  - case_decide; simpl.
    + subst k0. case_decide; [by subst|done].
    + case_decide; [done|apply IH].
Qed.

Lemma dict_set_keys k v acc k' :
  k' ∈ (dict_set k v acc).*1 ↔ k' = k ∨ k' ∈ acc.*1.
Proof.
  induction acc as [|[k0 v0] acc IH]; csimpl.
  - rewrite list_elem_of_singleton, elem_of_nil. tauto.
  - case_decide; csimpl; rewrite !elem_of_cons.
    + subst k0. tauto.
    + rewrite IH. tauto.
Qed.

Lemma dict_set_NoDup k v acc : NoDup acc.*1 → NoDup (dict_set k v acc).*1.
Proof.
  induction acc as [|[k0 v0] acc IH]; csimpl; intros Hnd.
  - apply NoDup_singleton.
  - apply NoDup_cons in Hnd as [Hk0 Hnd]. case_decide; csimpl.
    + subst k0. by apply NoDup_cons.
    + apply NoDup_cons. split; [|by apply IH].
      rewrite dict_set_keys. intros [->|]; done.
Qed.

Lemma dict_get_app k acc acc' :
  dict_get k (acc ++ acc')
  = match dict_get k acc with Some v => Some v | None => dict_get k acc' end.
Proof.
  induction acc as [|[k0 v0] acc IH]; simpl; [done|]. by case_decide.
Qed.

Lemma py_dict_from_get k acc pairs :
  dict_get k (foldl (λ acc kv, dict_set kv.1 kv.2 acc) acc pairs)
  = match dict_get k (reverse pairs) with
    | Some v => Some v
    | None => dict_get k acc
    end.
Proof.
  revert acc. induction pairs as [|[k1 v1] pairs IH]; intros acc; simpl; [done|].
  rewrite IH, reverse_cons, dict_get_app. simpl.
  destruct (dict_get k (reverse pairs)); [done|].
  case_decide.
  - subst. apply dict_get_set_eq.
  - by apply dict_get_set_ne.
Qed.

Lemma py_dict_from_NoDup acc pairs :
  NoDup acc.*1 →
  NoDup (foldl (λ acc kv, dict_set kv.1 kv.2 acc) acc pairs).*1.
Proof.
  revert acc. induction pairs as [|[k1 v1] pairs IH]; intros acc Hnd; simpl;
    [done|].
  by apply IH, dict_set_NoDup.
Qed.

Lemma dict_get_None k acc : k ∉ acc.*1 → dict_get k acc = None.
Proof.
  induction acc as [|[k0 v0] acc IH]; csimpl; [done|].
  rewrite not_elem_of_cons. intros [Hne Hk]. case_decide; [done|by apply IH].
Qed.

Lemma dict_get_elem k v acc :
  NoDup acc.*1 → (k, v) ∈ acc → dict_get k acc = Some v.
Proof.
  induction acc as [|[k0 v0] acc IH]; csimpl; intros Hnd Hin.
  - by apply elem_of_nil in Hin.
  - apply NoDup_cons in Hnd as [Hk0 Hnd].
    apply elem_of_cons in Hin as [[= <- <-]|Hin]; case_decide; try done.
    + subst k0. exfalso. apply Hk0. apply list_elem_of_fmap. by exists (k, v).
    + by apply IH.
Qed.

(** X15: [returnInitialParameters] passes on the error of
    [__returnInitialParametersLocal__]; when that hook returns a dictionary,
    the result has each key once, gives every key of the backend's
    dictionary the backend's value - also for ['Features'], ['Target'],
    ['returnType'] and ['qualityEstType'] - and gives those four keys, when
    the backend does not define them, the declared features and targets and
    the two class attributes. The instance is not changed. *)
Theorem returnInitialParameters_merge self :
  (∀ e, __returnInitialParametersLocal__ (backend self) = Raises e →
        returnInitialParameters self = (self, Raises e))
  ∧ (∀ local,
       __returnInitialParametersLocal__ (backend self) = Returns local →
       NoDup local.*1 →
       ∃ r, returnInitialParameters self = (self, Returns r)
            ∧ NoDup r.*1
            ∧ (∀ k v, (k, v) ∈ local → dict_get k r = Some v)
            ∧ (∀ k, k ∉ local.*1 →
                 dict_get k r
                 = dict_get k [("returnType", SettingStr returnType);
                               ("qualityEstType", SettingStrs qualityEstType);
                               ("Features", SettingNames (features self));
                               ("Target", SettingNames (target self))])).
Proof.
  split.
  - intros e He. unfold returnInitialParameters, mdo, attr, pure. by rewrite He.
  - intros local Hlocal Hnd. unfold returnInitialParameters, mdo, attr, pure.
    rewrite Hlocal. eexists. split; [done|]. split; [|split].
    + apply py_dict_from_NoDup, NoDup_nil_2.
    + intros k v Hin. unfold py_dict at 1. rewrite py_dict_from_get.
      rewrite reverse_app, dict_get_app.
      rewrite (dict_get_elem k v (reverse local)); [done| |].
      * by rewrite fmap_reverse, reverse_Permutation.
      * by apply elem_of_reverse.
    + intros k Hk. unfold py_dict at 1. rewrite py_dict_from_get.
      rewrite reverse_app, dict_get_app.
      rewrite (dict_get_None k (reverse local)).
      2:{ by rewrite fmap_reverse, elem_of_reverse. }
      unfold initial_items, py_dict. simpl.
      repeat case_decide; simplify_eq; done.
Qed.

(** X16: [returnCurrentSetting] never returns a dictionary: it raises on
    every instance, whether or not a subclass supplies
    [__CurrentSettingDictLocal__], and leaves the instance as it was. *)
Theorem returnCurrentSetting_always_raises self :
  ∃ e, returnCurrentSetting self = (self, Raises e).
Proof.
  unfold returnCurrentSetting.
  destruct __CurrentSettingDictLocal__ as [hook|]; [|by eexists].
  unfold mdo, attr, pure. destruct (hook (backend self)); by eexists.
Qed.

(** X17: [setAdditionalParams] removes the key ['seed'] from the caller's
    dictionary and leaves the other keys; it forwards a seed to [reseed]
    only when the seed is truthy, so that a missing seed, [None] and the
    seed 0 leave the instance untouched. *)
Theorem setAdditionalParams_seed
    (reseed_method : param → @method num B unit) (params : gmap string param) :
  (setAdditionalParams reseed_method params).1 !! "seed" = None
  ∧ (∀ k, k ≠ "seed" →
          (setAdditionalParams reseed_method params).1 !! k = params !! k)
  ∧ (∀ seed, params !! "seed" = Some seed → truthy seed = true →
          (setAdditionalParams reseed_method params).2 = reseed_method seed)
  ∧ (params !! "seed" = None ∨ params !! "seed" = Some ParamNone
     ∨ params !! "seed" = Some (ParamInt 0) →
     ∀ self, (setAdditionalParams reseed_method params).2 self
             = (self, Returns ())).
Proof.
  unfold setAdditionalParams. simpl. split; [apply lookup_delete_eq|].
  split; [intros k Hk; by apply lookup_delete_ne|]. split.
  - intros seed -> Htruthy. simpl. by rewrite Htruthy.
  - intros [->|[->| ->]] self; done.
Qed.

End SettingsResults.

(** ** The properties on the concrete instance *)

Section Examples.
Import Sample.
#[local] Existing Instances Z_numeric Z_mathUtils keep_all store_backend.
#[local] Existing Instance rom_introspection.

#[local] Abbreviation rom_state :=
  (@SupervisedLearning Z (option (ndarray Z * ndarray Z))).

(** C1, the claim as stated fails: two realizations of [x] of lengths three
    and two are not padded to a common length; [train] raises, no matrix
    reaches the backend and the instance stays untrained. *)
Lemma train_ragged_realizations_raise :
  raised (train (Mapping ragged_set) (rom true true)).2 = true
  ∧ hookCalls (train (Mapping ragged_set) (rom true true)).1 = []
  ∧ amITrained (train (Mapping ragged_set) (rom true true)).1 = false.
Proof. vm_compute. done. Qed.

(** Nor is a feature padded whose realizations are all shorter than those of
    another feature: the assignment of its two columns into the three of the
    matrix is refused. *)
Example train_shorter_feature_raises :
  (train (Mapping uneven_set) rom_xz_dynamic).2
  = Raises (ValueError "could not broadcast input array")
  ∧ hookCalls (train (Mapping uneven_set) rom_xz_dynamic).1 = [].
Proof. vm_compute. done. Qed.

Lemma train_dynamic_time_axis_witness :
  (∃ featLen,
      shape (mkArr [2; 3; 1] [-1; -1; 0; -1; 0; 0]%Z) !! 1 = Some featLen
      ∧ first_length dynamic_set.*1 dynamic_set.*2 "x" = Returns featLen)
  ∧ (∃ e (self' : rom_state),
      train (Mapping ragged_set) (rom true true) = (self', Raises e)
      ∧ hookCalls self' = hookCalls (rom true true)).
Proof.
  split.
  - destruct (train_dynamic_time_axis dynamic_set (rom true true) ["x"]
                eq_refl eq_refl) as [Haxis _].
    destruct (Haxis _ _ _ eq_refl) as (featLen & Hshape & _ & Hmax).
    destruct (Hmax (ltac:(discriminate))) as (f & Hin & Hf).
    apply list_elem_of_singleton in Hin. subst f.
    exists featLen. split; [exact Hshape|exact Hf].
  - destruct (train_dynamic_time_axis ragged_set (rom true true) ["x"]
                eq_refl eq_refl) as [_ Hragged].
    apply (Hragged "x" [vec [0; 2; 4]%Z; vec [1; 6]%Z]
             (mkArr [3] [0; 2; 4]%Z) (mkArr [2] [1; 6]%Z)).
    + apply list_elem_of_here.
    + reflexivity.
    + apply list_elem_of_here.
    + apply list_elem_of_further, list_elem_of_here.
    + discriminate.
Defined.

(** C2, at a concrete request: after training on [static_set] (center 3,
    scale 6), [evaluate] hands [__evaluateLocal__] the normalized entry
    (9 - 3) / 6 = 1, and [confidence] hands [__confidenceLocal__] the raw
    entry 9. *)
Theorem confidence_skips_normalization :
  muAndSigmaFeatures trained_rom !! "x" = Some (3, 6)%Z
  ∧ last (hookCalls (evaluate (Mapping request) trained_rom).1)
    = Some (CalledEvaluate (mkArr [1; 1] [1%Z]))
  ∧ last (hookCalls (confidence (Mapping request) trained_rom).1)
    = Some (CalledConfidence (mkArr [1; 1] [9%Z])).
Proof. vm_compute. done. Qed.

Lemma train_failure_witness :
  ∃ e (self' : rom_state),
    train (Mapping static_set) rom_xz = (self', Raises e)
    ∧ hookCalls self' = hookCalls rom_xz
    ∧ backend self' = backend rom_xz
    ∧ amITrained self' = amITrained rom_xz.
Proof.
  apply train_failure_leaves_backend_untouched.
  apply (missing_feature rom_xz static_set ["x"; "z"] "z").
  - reflexivity.
  - apply list_elem_of_further, list_elem_of_here.
  - intros Hin. vm_compute in Hin.
    apply elem_of_cons in Hin as [Hin|Hin]; [discriminate|].
    apply elem_of_cons in Hin as [Hin|Hin]; [discriminate|].
    by apply elem_of_nil in Hin.
Defined.

(** C4, the claim as stated fails: an instance that was trained and then
    reset is untrained, and [evaluate] returns the backend's prediction. *)
Lemma evaluate_after_reset_returns :
  amITrained (reset trained_rom).1 = false
  ∧ (evaluate (Mapping request) (reset trained_rom).1).2
    = Returns (PyArray (mkArr [1; 1] [1%Z])).
Proof. vm_compute. done. Qed.

Lemma evaluate_keeps_normalization_witness :
  muAndSigmaFeatures
    (evaluate_many [Mapping request; NotMapping "<class 'list'>"; Mapping []]
                   trained_rom)
  = muAndSigmaFeatures trained_rom.
Proof.
  apply (evaluate_keeps_normalization
           [Mapping request; NotMapping "<class 'list'>"; Mapping []]
           trained_rom).
  reflexivity.
Defined.

(** C6, the claim as stated fails: on a dictionary that lacks [x] and also
    the target [y], the data error names [y] and not [x]; and in dynamic
    mode the lack of [x] surfaces as the ValueError of [names.index]. *)
Lemma train_missing_feature_other_errors :
  ("x" ∉ ([] : pydict Z).*1)
  ∧ train (Mapping []) (rom false false)
    = (rom false false, Raises (IOError "The target y is not in the training set"))
  ∧ String.index 0 "x" "The target y is not in the training set" = None
  ∧ train (Mapping [("y", vec [0; 1]%Z)]) (rom true true)
    = (rom true true, Raises (ValueError "'x' is not in list")).
Proof. split; [apply not_elem_of_nil|]. vm_compute. done. Qed.

Lemma train_names_missing_feature_witness :
  (train (Mapping static_set) rom_xz).2
  = Raises (IOError "The feature sought z is not in the training set").
Proof.
  edestruct (train_names_missing_feature static_set rom_xz ["y"] ["x"] "z" [])
    as [Hrun _].
  - reflexivity.
  - reflexivity.
  - reflexivity.
  - intros Hin. vm_compute in Hin.
    apply elem_of_cons in Hin as [Hin|Hin]; [discriminate|].
    apply elem_of_cons in Hin as [Hin|Hin]; [discriminate|].
    by apply elem_of_nil in Hin.
  - reflexivity.
  - reflexivity.
  - reflexivity.
  - reflexivity.
  - rewrite Hrun. reflexivity.
Defined.

Lemma train_key_order_witness :
  train (Mapping static_set) (rom false false)
  = train (Mapping static_set_swapped) (rom false false).
Proof.
  apply (train_key_order_invariant static_set static_set_swapped).
  - apply (bool_decide_unpack _). vm_compute. exact I.
  - apply perm_swap.
Defined.

(** C8, at a concrete configuration: with [x] both a feature and a target,
    [initializeFromDict] returns and stores both lists, where
    [_handleInput] raises. *)
Theorem initializeFromDict_accepts_shared_name :
  shares_a_name ["x"] ["x"]
  ∧ (initializeFromDict shared_dict (init None : rom_state)).2 = Returns ()
  ∧ features (initializeFromDict shared_dict (init None : rom_state)).1
    = Some ["x"]
  ∧ target (initializeFromDict shared_dict (init None : rom_state)).1
    = Some ["x"]
  ∧ (_handleInput shared_nodes (init None : rom_state)).2
    = Raises (IOError ("The target(s) " +:+ dq +:+ "x" +:+ dq
                       +:+ " is/are also among the given features!")).
Proof.
  split; [exists "x"; split; apply list_elem_of_here|]. vm_compute. done.
Qed.

(** C9, the claim as stated fails: in dynamic mode a plain one-dimensional
    array, which is no sequence, is accepted. *)
Lemma validator_accepts_array_in_dynamic_mode :
  checkArrayConsistency (vec [1; 2]%Z) true = (true, EmptyString)
  ∧ validate_spec (vec [1; 2]%Z) true = false.
Proof. done. Qed.

Lemma checkArrayConsistency_contract_witness :
  checkArrayConsistency
    (PyList [vec [1; 2]%Z; PyArray (mkArr [2; 2] [1; 2; 3; 4]%Z)]) true
  = (false, " The element number 1 is not a consistent array. Error: "
            +:+ " The array must be 1-d. Got shape: (2, 2)").
Proof.
  destruct (@checkArrayConsistency_contract Z)
    as (_ & _ & _ & Hfirst & _).
  apply (Hfirst [vec [1; 2]%Z; PyArray (mkArr [2; 2] [1; 2; 3; 4]%Z)] 1
           (PyArray (mkArr [2; 2] [1; 2; 3; 4]%Z))).
  - reflexivity.
  - reflexivity.
  - intros j e' Hj Hlook. destruct j as [|j]; [|lia].
    injection Hlook as <-. reflexivity.
Defined.

(** C10, the claim as stated fails: with [dynamicFeatures] set, on an empty
    dictionary [confidence] raises an IndexError, and on a dictionary that
    binds [x] to [None] the IOError of the array check. *)
Lemma confidence_dynamic_other_errors :
  dynamicFeatures (rom false true) = true
  ∧ confidence (Mapping []) (rom false true)
    = (rom false true, Raises (IndexError "list index out of range"))
  ∧ confidence (Mapping [("x", PyNone)]) (rom false true)
    = (rom false true,
       Raises (IOError
         "In evaluate request for feature x: The object is None, and contains no entries!")).
Proof. vm_compute. done. Qed.

Lemma confidence_dynamic_witness :
  ∃ msg, confidence (Mapping request) (rom false true)
         = (rom false true, Raises (AttributeError msg)).
Proof.
  destruct (confidence_dynamic_never_reaches_hook (Mapping request)
              (rom false true) eq_refl) as (e & Hrun & Hattr).
  destruct (Hattr request eq_refl) as [msg ->].
  - discriminate.
  - intros name v Hin. apply list_elem_of_singleton in Hin.
    injection Hin as -> ->. reflexivity.
  - exists msg. exact Hrun.
Defined.

(** X1 on [static_set]: the column of [x] is [(x - 3) / 6], entry by
    entry. *)
Lemma train_static_column_witness :
  ∃ center scale,
    normalizationFactors (vec [0; 2; 4; 6]%Z) = Returns (center, scale)
    ∧ muAndSigmaFeatures
        (train_matrices (Mapping static_set) (rom false false)).1 !! "x"
      = Some (center, scale)
    ∧ shape (mkArr [4; 1] [-1; -1; 0; 0]%Z) = [4; 1]
    ∧ ∀ i x, [0; 2; 4; 6]%Z !! i = Some x →
             data (mkArr [4; 1] [-1; -1; 0; 0]%Z) !! (i * 1 + 0)
             = Some (ndiv (nsub x center) scale).
Proof.
  apply (train_static_column static_set (rom false false) _
           (mkArr [4; 1] [-1; -1; 0; 0]%Z) (mkArr [4; 1] [0; 1; 2; 3]%Z)
           ["x"] 0 "x" 4 [0; 2; 4; 6]%Z).
  - reflexivity.
  - discriminate.
  - reflexivity.
  - reflexivity.
  - reflexivity.
  - reflexivity.
  - vm_compute. reflexivity.
Defined.

Lemma train_normalization_record_witness :
  (∀ g, g ∉ ["x"] →
        muAndSigmaFeatures
          (train_matrices (Mapping static_set) (rom false false)).1 !! g
        = muAndSigmaFeatures (rom false false) !! g)
  ∧ (∀ (self' : rom_state) fv tv f,
        train_matrices (Mapping static_set) (rom false false)
        = (self', Returns (fv, tv)) →
        f ∈ ["x"] →
        fitted static_set.*1 static_set.*2 (muAndSigmaFeatures self') f).
Proof.
  apply (train_normalization_record static_set (rom false false) ["x"]).
  reflexivity.
Defined.

(** X3 on [static_set]: the column of [y] holds its four entries. *)
Lemma train_target_matrix_witness :
  shape (mkArr [4; 1] [0; 1; 2; 3]%Z) = [4; 1]
  ∧ ∀ i y, [0; 1; 2; 3]%Z !! i = Some y →
           data (mkArr [4; 1] [0; 1; 2; 3]%Z) !! (i * 1 + 0) = Some y.
Proof.
  apply (train_target_matrix static_set (rom false false)
           (train_matrices (Mapping static_set) (rom false false)).1
           (mkArr [4; 1] [-1; -1; 0; 0]%Z) (mkArr [4; 1] [0; 1; 2; 3]%Z)
           ["y"] 0 "y" 4 [0; 1; 2; 3]%Z).
  - reflexivity.
  - reflexivity.
  - reflexivity.
  - reflexivity.
  - vm_compute. reflexivity.
Defined.

Lemma train_success_witness :
  amITrained trained_rom = true
  ∧ ∃ fv tv (s1 : rom_state),
      train_matrices (Mapping static_set) (rom false false)
      = (s1, Returns (fv, tv))
      ∧ hookCalls trained_rom
        = hookCalls (rom false false) ++ [CalledTrain fv tv]
      ∧ backend trained_rom = (_train (backend (rom false false)) fv tv).1
      ∧ muAndSigmaFeatures trained_rom = muAndSigmaFeatures s1.
Proof.
  apply (train_success (Mapping static_set) (rom false false) trained_rom).
  vm_compute. reflexivity.
Defined.

Lemma evaluate_before_fit_raises_witness :
  ∃ e, evaluate (Mapping request) (rom false false)
       = (rom false false, Raises e).
Proof.
  apply (evaluate_before_fit_raises (Mapping request) (rom false false) "x" []).
  - reflexivity.
  - reflexivity.
Defined.

Lemma evaluate_dynamic_rejects_lists_witness :
  ∃ e, evaluate (Mapping dynamic_set) (rom true true)
       = (rom true true, Raises e).
Proof.
  apply (evaluate_dynamic_rejects_lists dynamic_set (rom true true) "x"
           [vec [0; 2; 4]%Z; vec [1; 6; 8]%Z]).
  - reflexivity.
  - apply list_elem_of_further, list_elem_of_here.
Defined.

(** X9 on [bad_request]: the list bound to [x] is reported, not the [None]
    bound to [z] after it. *)
Lemma request_first_invalid_value_witness :
  confidence (Mapping bad_request) (rom false false)
  = (rom false false,
     Raises (IOError
       "In evaluate request for feature x: The list type is allowed for dynamic ROMs only"))
  ∧ evaluate (Mapping bad_request) (rom false false)
    = (rom false false,
       Raises (IOError
         "In evaluate request for feature x: The list type is allowed for dynamic ROMs only")).
Proof.
  destruct (request_first_invalid_value [("y", vec [1]%Z)] "x"
              (PyList [vec [9]%Z]) [("z", PyNone)] (rom false false))
    as [Hconf Heval].
  - intros name' v' Hin. apply list_elem_of_singleton in Hin.
    injection Hin as -> ->. reflexivity.
  - reflexivity.
  - split; [exact Hconf|exact (Heval eq_refl)].
Defined.

(** X13 on [request]: the entry is (9 - 3) / 6. *)
Lemma evaluate_static_column_witness :
  ∃ center scale,
    muAndSigmaFeatures trained_rom !! "x" = Some (center, scale)
    ∧ shape (mkArr [1; 1] [1%Z]) = [1; 1]
    ∧ ∀ i x, [9%Z] !! i = Some x →
             data (mkArr [1; 1] [1%Z]) !! (i * 1 + 0)
             = Some (ndiv (nsub x center) scale).
Proof.
  apply (evaluate_static_column request trained_rom trained_rom
           (mkArr [1; 1] [1%Z]) ["x"] 0 "x" 1 [9%Z]).
  - reflexivity.
  - reflexivity.
  - reflexivity.
  - reflexivity.
  - reflexivity.
  - reflexivity.
  - vm_compute. reflexivity.
Defined.


(** X15 with [rom_introspection]: the backend's ['Features'] wins. *)
Lemma returnInitialParameters_merge_witness :
  ∃ r, returnInitialParameters (rom false false) = (rom false false, Returns r)
       ∧ NoDup r.*1
       ∧ (∀ k v, (k, v) ∈ [("Features", SettingObj "x");
                           ("degree", SettingObj "2")] →
                 dict_get k r = Some v)
       ∧ (∀ k, k ∉ ["Features"; "degree"] →
               dict_get k r
               = dict_get k [("returnType", SettingStr "float");
                             ("qualityEstType", SettingStrs ["distance"]);
                             ("Features", SettingNames (Some ["x"]));
                             ("Target", SettingNames (Some ["y"]))]).
Proof.
  refine (proj2 (returnInitialParameters_merge (rom false false))
            [("Features", SettingObj "x"); ("degree", SettingObj "2")]
            eq_refl _).
  apply (bool_decide_unpack _). vm_compute. exact I.
Defined.

(** X17 on [seeded]: the seed 7 is forwarded. *)
Lemma setAdditionalParams_seed_witness :
  (setAdditionalParams (num:=Z) (B:=option (ndarray Z * ndarray Z))
     reseed seeded).2
  = reseed (ParamInt 7).
Proof.
  destruct (setAdditionalParams_seed
              (num:=Z) (B:=option (ndarray Z * ndarray Z)) reseed seeded)
    as (_ & _ & Hseed & _).
  apply (Hseed (ParamInt 7)).
  - reflexivity.
  - reflexivity.
Defined.

(** X18 on [dynamic_set]: two realizations of three time steps, normalized
    with center 3 and scale 8. *)
Lemma train_dynamic_column_witness :
  ∃ center scale,
    normalizationFactors (PyList [vec [0; 2; 4]%Z; vec [1; 6; 8]%Z])
    = Returns (center, scale)
    ∧ muAndSigmaFeatures
        (train_matrices (Mapping dynamic_set) (rom true true)).1 !! "x"
      = Some (center, scale)
    ∧ shape (mkArr [2; 3; 1] [-1; -1; 0; -1; 0; 0]%Z) = [2; 3; 1]
    ∧ ∀ i t row x,
        [[0; 2; 4]; [1; 6; 8]]%Z !! i = Some row → row !! t = Some x →
        data (mkArr [2; 3; 1] [-1; -1; 0; -1; 0; 0]%Z) !! ((i * 3 + t) * 1 + 0)
        = Some (ndiv (nsub x center) scale).
Proof.
  apply (train_dynamic_column dynamic_set (rom true true) _
           (mkArr [2; 3; 1] [-1; -1; 0; -1; 0; 0]%Z) (mkArr [2; 1] [0; 1]%Z)
           ["x"] 0 "x" 3 [[0; 2; 4]; [1; 6; 8]]%Z).
  - reflexivity.
  - discriminate.
  - reflexivity.
  - reflexivity.
  - reflexivity.
  - discriminate.
  - repeat constructor.
  - reflexivity.
  - vm_compute. reflexivity.
Defined.

Lemma train_RFE_after_initializeFromDict_witness :
  ∃ e (self' : rom_state),
    train (Mapping static_set) (initializeFromDict rfe_dict (init None)).1
    = (self', Raises e)
    ∧ hookCalls self' = []
    ∧ backend self' = None
    ∧ amITrained self' = false.
Proof.
  apply (train_RFE_after_initializeFromDict rfe_dict None (Mapping static_set)).
  reflexivity.
Defined.

Lemma train_without_targets_witness :
  train (Mapping static_set) (init None : rom_state)
  = (init None, Raises (TypeError "'NoneType' object is not iterable"))
  ∧ train (Mapping static_set)
      (initializeFromDict no_target_dict (init None : rom_state)).1
    = ((initializeFromDict no_target_dict (init None)).1,
       Raises (ValueError "need at least one array to stack")).
Proof.
  split.
  - apply (proj1 (train_without_targets static_set (init None))). reflexivity.
  - apply (proj2 (train_without_targets static_set
                    (initializeFromDict no_target_dict (init None)).1)).
    reflexivity.
Defined.

Lemma request_missing_feature_raises_witness :
  (∃ e, evaluate (Mapping request) rom_xz = (rom_xz, Raises e))
  ∧ (∃ e, confidence (Mapping request) rom_xz = (rom_xz, Raises e)).
Proof.
  apply (request_missing_feature_raises request rom_xz ["x"; "z"] "z").
  - reflexivity.
  - apply list_elem_of_further, list_elem_of_here.
  - intros Hin. apply list_elem_of_singleton in Hin. discriminate.
Defined.

End Examples.

Section FailingBackend.
Import Sample.
#[local] Existing Instances Z_numeric Z_mathUtils keep_all failing_backend.

(** X5 with a backend whose fit fails: the error of [_train] comes out of
    [train] and the instance stays untrained. *)
Lemma train_backend_error_witness :
  (train (Mapping static_set) (rom false false)).2
  = Raises (ValueError "singular matrix")
  ∧ amITrained (train (Mapping static_set) (rom false false)).1 = false
  ∧ hookCalls (train (Mapping static_set) (rom false false)).1
    = [] ++ [CalledTrain (mkArr [4; 1] [-1; -1; 0; 0]%Z)
                         (mkArr [4; 1] [0; 1; 2; 3]%Z)].
Proof.
  apply (train_backend_error (Mapping static_set) (rom false false)
           (train_matrices (Mapping static_set) (rom false false)).1
           (mkArr [4; 1] [-1; -1; 0; 0]%Z) (mkArr [4; 1] [0; 1; 2; 3]%Z)
           (ValueError "singular matrix")).
  - vm_compute. reflexivity.
  - reflexivity.
Defined.

End FailingBackend.

